(** * flask_cloudant: a shallow embedding of [flask_cloudant/__init__.py]

    The adapter binds a Flask application's configuration to the
    python-cloudant client.  Python's mutable objects live in an explicit
    world: the class attribute [FlaskCloudant.CLIENT], the client objects it
    may point to, the heap of dictionaries (cloudant documents and plain
    dicts) and the remote CouchDB server.  Every method is a computation in
    a state-and-exception monad over that world; an exception keeps the
    effects performed before it was raised, as in Python. *)

From stdpp Require Import gmap strings list fin_maps pretty.

Set Warnings "-register-all".
Open Scope string_scope.

(** ** Python values and exceptions *)

(** The values that travel through the adapter: document ids, field values,
    the [content] argument and the arguments of exceptions.  A dict keeps
    its items in insertion order; [PType] is a class object such as
    [dict]. *)
Inductive pyval :=
| PNone
| PBool (b : bool)
| PInt (z : Z)
| PStr (s : string)
| PList (items : list pyval)
| PDict (items : list (string * pyval))
| PType (name : string).

(** [config.get(key)]: a missing key reads as [None]. *)
Definition of_config (o : option string) : pyval :=
  match o with Some s => PStr s | None => PNone end.

(** Python truthiness, as used by [if document_id:] and
    [if not self.get("_rev")]. *)
Definition truthy (v : pyval) : bool :=
  match v with
  | PNone => false
  | PBool b => b
  | PInt z => negb (Z.eqb z 0)
  | PStr s => negb (String.eqb s "")
  | PList items => match items with [] => false | _ => true end
  | PDict items => match items with [] => false | _ => true end
  | PType _ => true
  end.

(** [type(v) is dict] *)
Definition is_dict (v : pyval) : bool :=
  match v with PDict _ => true | _ => false end.

(** The mapping a dict denotes: a later item overrides an earlier one with
    the same key (a Python dict never has two). *)
Definition dict_to_map (items : list (string * pyval)) : gmap string pyval :=
  list_to_map (reverse items).

(** Modelled from the spec: [flask_cloudant.error] is not among the sources;
    [FlaskCloudantException] is the single domain error, carrying a status
    code and the context arguments it was raised with.  The other
    constructors are the exceptions of Python, requests and cloudant that
    can cross the adapter. *)
Inductive exn :=
| FlaskCloudantException (code : Z) (args : list pyval)
| HTTPError (status_code : Z)
| CloudantClientException (status_code : Z)
| CloudantDocumentException (code : Z)
| RequestException (what : string)
| KeyError (key : pyval)
| AssertionError
| AttributeError (what : string)
| TypeError (what : string)
| ReferenceError (what : string).

Inductive result (A : Type) :=
| Ok (a : A)
| Raise (e : exn).
Arguments Ok {A} a.
Arguments Raise {A} e.

(** ** The world *)

(** A document as the store keeps it: the revision generation and the
    fields other than [_id] and [_rev]. *)
Record stored_doc := {
  s_rev : nat;
  s_body : gmap string pyval;
}.

(** The remote CouchDB server: the URL at which it answers, user accounts,
    databases of documents and the counters from which revisions and
    server-assigned ids are drawn. *)
Record server := {
  address : string;
  accounts : gmap string string;
  databases : gmap string (gmap string stored_doc);
  next_rev : nat;
  next_uuid : nat;
}.

(** A [cloudant.CouchDB] client object.  [r_session] is [None] until
    [connect()] assigns a [requests.Session] and after [disconnect()]; a
    session object [Some b] is logged in when [b] holds.  [connects] and
    [disconnects] count the calls of [connect()] and [disconnect()]. *)
Record client := {
  c_user : option string;
  c_auth_token : option string;
  server_url : option string;
  r_session : option bool;
  connects : nat;
  disconnects : nat;
}.

(** A [CouchDatabase] object: the client that created it and its name. *)
Record database := {
  db_client : nat;
  database_name : string;
}.

(** Heap objects: a [cloudant.document.Document] (a dict subclass bound to
    a database) or a plain [dict]. *)
Inductive pyobj :=
| ObjDocument (db : database) (fields : gmap string pyval)
| ObjDict (fields : gmap string pyval).

Definition obj_fields (o : pyobj) : gmap string pyval :=
  match o with ObjDocument _ f => f | ObjDict f => f end.

Record world := {
  CLIENT : option nat;          (* FlaskCloudant.CLIENT, a reference *)
  clients : list client;        (* client objects, by reference *)
  heap : list pyobj;            (* dictionaries, by reference *)
  remote : server;
}.

Definition set_CLIENT (c : option nat) (w : world) : world :=
  {| CLIENT := c; clients := clients w; heap := heap w; remote := remote w |}.
Definition set_clients (cs : list client) (w : world) : world :=
  {| CLIENT := CLIENT w; clients := cs; heap := heap w; remote := remote w |}.
Definition set_heap (h : list pyobj) (w : world) : world :=
  {| CLIENT := CLIENT w; clients := clients w; heap := h; remote := remote w |}.
Definition set_remote (s : server) (w : world) : world :=
  {| CLIENT := CLIENT w; clients := clients w; heap := heap w; remote := s |}.
Definition set_databases (d : gmap string (gmap string stored_doc))
    (s : server) : server :=
  {| address := address s; accounts := accounts s; databases := d;
     next_rev := next_rev s; next_uuid := next_uuid s |}.

(** ** The monad of Python computations *)

Definition M (A : Type) : Type := world → result A * world.

Definition ret {A} (a : A) : M A := λ w, (Ok a, w).
Definition raise {A} (e : exn) : M A := λ w, (Raise e, w).
Definition bind {A B} (m : M A) (k : A → M B) : M B := λ w,
  match m w with
  | (Ok a, w') => k a w'
  | (Raise e, w') => (Raise e, w')
  end.

(** [try: m except ...: h]: the handler picks the exceptions it catches. *)
Definition try_except {A} (m : M A) (h : exn → option (M A)) : M A := λ w,
  match m w with
  | (Ok a, w') => (Ok a, w')
  | (Raise e, w') =>
      match h e with
      | Some k => k w'
      | None => (Raise e, w')
      end
  end.

Definition get_world : M world := λ w, (Ok w, w).
Definition modify (f : world → world) : M unit := λ w, (Ok tt, f w).

Notation "x <- m ;; k" := (bind m (λ x, k))
  (at level 100, m at next level, right associativity,
   format "'[v' x  <-  m  ;;  '/' k ']'").
Notation "m ;;; k" := (bind m (λ _, k))
  (at level 100, right associativity,
   format "'[v' m  ;;;  '/' k ']'").

(** ** Client objects through a connection *)

(** A client object after a successful [connect()], and after
    [disconnect()]. *)
Definition opened (o : client) : client :=
  {| c_user := c_user o; c_auth_token := c_auth_token o;
     server_url := server_url o; r_session := Some true;
     connects := S (connects o); disconnects := disconnects o |}.
Definition closed (o : client) : client :=
  {| c_user := c_user o; c_auth_token := c_auth_token o;
     server_url := server_url o; r_session := None;
     connects := connects o; disconnects := S (disconnects o) |}.

(** A client object after a [connect()] that failed: [connect()] assigns
    the session object before it logs in, so the object stays behind,
    without a login. *)
Definition rejected (o : client) : client :=
  {| c_user := c_user o; c_auth_token := c_auth_token o;
     server_url := server_url o; r_session := Some false;
     connects := S (connects o); disconnects := disconnects o |}.

(** ** The remote store

    What the server answers to the requests the client library sends.  The
    HTTP exchange itself is outside the adapter: a request is a function of
    the server state. *)

Definition rev_token (n : nat) : string := "1-" +:+ pretty n.
Definition uuid_token (n : nat) : string := "uuid-" +:+ pretty n.

(** The world has one server, which answers at its [address] and nowhere
    else.  Whether a request sent to [url] arrives there, and the
    exception of [requests] when it does not: [MissingSchema] without a
    URL, [ConnectionError] when nothing answers. *)
Definition reaches (s : server) (url : option string) : bool :=
  match url with
  | Some u => String.eqb u (address s)
  | None => false
  end.

Definition no_answer (url : option string) : exn :=
  match url with
  | Some _ => RequestException "ConnectionError"
  | None => RequestException "MissingSchema"
  end.

(** POST /_session *)
Definition srv_login (s : server) (user pwd : option string) : bool :=
  match user, pwd with
  | Some u, Some p => bool_decide (accounts s !! u = Some p)
  | _, _ => false
  end.

Definition srv_doc (s : server) (dbname id : string) : option stored_doc :=
  db ← databases s !! dbname; db !! id.

(** The JSON body of a stored document, with the store-managed fields. *)
Definition render (id : string) (d : stored_doc) : gmap string pyval :=
  <["_id" := PStr id]> (<["_rev" := PStr (rev_token (s_rev d))]> (s_body d)).

(** GET /db/id *)
Definition srv_get (s : server) (dbname id : string)
    : option (gmap string pyval) :=
  render id <$> srv_doc s dbname id.

(** DELETE /db/id?rev=r: the status on failure, the new server on
    success. *)
Definition srv_delete (s : server) (dbname id : string) (rev : pyval)
    : Z + server :=
  match databases s !! dbname with
  | None => inl 404%Z
  | Some db =>
      match db !! id with
      | None => inl 404%Z
      | Some d =>
          match rev with
          | PStr r =>
              if String.eqb r (rev_token (s_rev d))
              then inr (set_databases
                          (<[dbname := base.delete id db]> (databases s)) s)
              else inl 409%Z
          | _ => inl 400%Z
          end
      end
  end.

(** POST /db with a JSON body: the status on failure; the id and revision
    of the new document and the new server on success.  A body without
    [_id] gets a server-assigned id. *)
Definition srv_post (s : server) (dbname : string) (body : gmap string pyval)
    : Z + (string * string * server) :=
  match databases s !! dbname with
  | None => inl 404%Z
  | Some db =>
      let store (id : string) (uuid' : nat) :=
        match db !! id with
        | Some _ => inl 409%Z
        | None =>
            let d := {| s_rev := next_rev s;
                        s_body := base.delete "_id" (base.delete "_rev" body) |} in
            inr (id, rev_token (next_rev s),
                 {| address := address s;
                    accounts := accounts s;
                    databases := <[dbname := <[id := d]> db]> (databases s);
                    next_rev := S (next_rev s);
                    next_uuid := uuid' |})
        end in
      match body !! "_id" with
      | None => store (uuid_token (next_uuid s)) (S (next_uuid s))
      | Some (PStr id) =>
          if String.eqb id "" then inl 400%Z else store id (next_uuid s)
      | Some _ => inl 400%Z
      end
  end.

(** ** The client library

    The part of python-cloudant the adapter calls, over the world above.
    It is an external dependency: the model follows the library's
    documented behaviour (a document is a dict bound to its database, and
    every request goes through the session of the client that created that
    database). *)
Module Cloudant.

Definition lookup_client (c : nat) : M client := λ w,
  match clients w !! c with
  | Some o => (Ok o, w)
  | None => (Raise (ReferenceError "client"), w)
  end.

Definition store_client (c : nat) (o : client) : M unit :=
  modify (λ w, set_clients (<[c := o]> (clients w)) w).

(** [cloudant.CouchDB(user, auth_token, url=url)]: a new client object,
    without a session. *)
Definition CouchDB (user pwd url : option string) : M nat := λ w,
  (Ok (length (clients w)),
   set_clients (clients w ++
     [{| c_user := user; c_auth_token := pwd; server_url := url;
         r_session := None; connects := 0; disconnects := 0 |}]) w).

(** [client.connect()]: assigns a new session object and posts the
    credentials to [server_url].  Without an answer the exception of
    [requests] comes through; rejected credentials raise [HTTPError] with
    status 401.  Either way the session object stays. *)
Definition connect (c : nat) : M unit :=
  o <- lookup_client c ;;
  w <- get_world ;;
  if reaches (remote w) (server_url o) then
    if srv_login (remote w) (c_user o) (c_auth_token o) then
      store_client c (opened o)
    else
      store_client c (rejected o) ;;;
      raise (HTTPError 401)
  else
    store_client c (rejected o) ;;;
    raise (no_answer (server_url o)).

(** [client.disconnect()]: logs out if there is a session and sets
    [r_session] to [None].  The adapter calls it only after a [connect()]
    of the same client has returned, when the server answers. *)
Definition disconnect (c : nat) : M unit :=
  o <- lookup_client c ;;
  store_client c (closed o).

(** [client.r_session.<verb>]: a request needs the client's session;
    without one [r_session] is [None].  It is sent to [server_url], and
    the server refuses it with status 401 on a session that is not logged
    in. *)
Definition request (c : nat) : M unit :=
  o <- lookup_client c ;;
  w <- get_world ;;
  match r_session o with
  | None =>
      raise (AttributeError "'NoneType' object has no attribute of a session")
  | Some logged_in =>
      if reaches (remote w) (server_url o) then
        if logged_in then ret tt else raise (HTTPError 401)
      else raise (no_answer (server_url o))
  end.

(** [client[key]]: the database of that name if the server has it,
    [KeyError] otherwise.  A key that is not a string cannot be quoted
    into a URL. *)
Definition getitem (c : nat) (key : option string) : M database :=
  request c ;;;
  match key with
  | None => raise (TypeError "quote_plus")
  | Some name =>
      w <- get_world ;;
      match databases (remote w) !! name with
      | Some _ => ret {| db_client := c; database_name := name |}
      | None => raise (KeyError (PStr name))
      end
  end.

Definition lookup_document (l : nat) : M (database * gmap string pyval) :=
  λ w,
  match heap w !! l with
  | Some (ObjDocument db f) => (Ok (db, f), w)
  | Some (ObjDict _) => (Raise (AttributeError "document"), w)
  | None => (Raise (ReferenceError "document"), w)
  end.

Definition store_fields (l : nat) (db : database)
    (f : gmap string pyval) : M unit :=
  modify (λ w, set_heap (<[l := ObjDocument db f]> (heap w)) w).

Definition alloc (o : pyobj) : M nat := λ w,
  (Ok (length (heap w)), set_heap (heap w ++ [o]) w).

(** [Document(database, document_id)]: an empty dict bound to the
    database; [_id] is set [if document_id:]. *)
Definition Document (db : database) (document_id : option string) : M nat :=
  alloc (ObjDocument db
    (if truthy (of_config document_id)
     then {["_id" := of_config document_id]} else ∅)).

(** [doc[key]] *)
Definition getitem_doc (l : nat) (key : string) : M pyval :=
  d <- lookup_document l ;;
  let '(_, f) := d in
  match f !! key with
  | Some v => ret v
  | None => raise (KeyError (PStr key))
  end.

(** [doc.exists()]: [False] without an [_id]; otherwise a HEAD request
    on the document URL. *)
Definition exists_ (l : nat) : M bool :=
  d <- lookup_document l ;;
  let '(db, f) := d in
  match f !! "_id" with
  | None | Some PNone => ret false
  | Some (PStr id) =>
      request (db_client db) ;;;
      w <- get_world ;;
      ret (bool_decide (is_Some (srv_doc (remote w) (database_name db) id)))
  | Some _ =>
      request (db_client db) ;;;
      raise (TypeError "quote")
  end.

(** [doc.fetch()]: replaces the local fields by the remote document. *)
Definition fetch (l : nat) : M unit :=
  d <- lookup_document l ;;
  let '(db, f) := d in
  match f !! "_id" with
  | None | Some PNone => raise (CloudantDocumentException 101)
  | Some (PStr id) =>
      request (db_client db) ;;;
      w <- get_world ;;
      match srv_get (remote w) (database_name db) id with
      | Some body => store_fields l db body
      | None => raise (HTTPError 404)
      end
  | Some _ =>
      request (db_client db) ;;;
      raise (TypeError "quote")
  end.

(** [doc.delete()]: needs a local [_rev]; removes the remote document at
    that revision and clears the local fields except [_id]. *)
Definition delete (l : nat) : M unit :=
  d <- lookup_document l ;;
  let '(db, f) := d in
  if negb (truthy (default PNone (f !! "_rev"))) then
    raise (CloudantDocumentException 103)
  else
    request (db_client db) ;;;
    match f !! "_id" with
    | None | Some PNone => raise (RequestException "MissingSchema")
    | Some (PStr id) =>
        w <- get_world ;;
        match srv_delete (remote w) (database_name db) id
                (default PNone (f !! "_rev")) with
        | inl status => raise (HTTPError status)
        | inr s' =>
            modify (set_remote s') ;;;
            store_fields l db {["_id" := PStr id]}
        end
    | Some _ => raise (TypeError "quote")
    end.

(** [doc.create()]: posts the local fields, without [_rev], as a new
    document and records the id and revision the server answers. *)
Definition create (l : nat) : M unit :=
  d <- lookup_document l ;;
  let '(db, f) := d in
  let body :=
    match f !! "_rev" with
    | None | Some PNone => f
    | Some _ => base.delete "_rev" f
    end in
  request (db_client db) ;;;
  w <- get_world ;;
  match srv_post (remote w) (database_name db) body with
  | inl status => raise (HTTPError status)
  | inr (id, rev, s') =>
      modify (set_remote s') ;;;
      store_fields l db (<["_rev" := PStr rev]> (<["_id" := PStr id]> f))
  end.

(** [Document.field_set(doc, field, value)]: sets the field, or removes
    it when the value is [None]. *)
Definition field_set (l : nat) (field : string) (value : pyval) : M unit :=
  d <- lookup_document l ;;
  let '(db, f) := d in
  match value with
  | PNone =>
      match f !! field with
      | Some _ => store_fields l db (base.delete field f)
      | None => raise (KeyError (PStr field))
      end
  | _ => store_fields l db (<[field := value]> f)
  end.

(** [dict(doc)]: a new plain dict with the same items. *)
Definition dict (l : nat) : M nat :=
  d <- lookup_document l ;;
  let '(_, f) := d in
  alloc (ObjDict f).

(** [d[key] = value] on any dictionary object. *)
Definition setitem (l : nat) (key : string) (value : pyval) : M unit := λ w,
  match heap w !! l with
  | Some (ObjDocument db f) =>
      (Ok tt, set_heap (<[l := ObjDocument db (<[key := value]> f)]> (heap w)) w)
  | Some (ObjDict f) =>
      (Ok tt, set_heap (<[l := ObjDict (<[key := value]> f)]> (heap w)) w)
  | None => (Raise (ReferenceError "dict"), w)
  end.

End Cloudant.

(** ** The adapter: [flask_cloudant/__init__.py] *)

(** The Flask application, as far as the adapter reads it: [app.config]. *)
Record App := {
  config : gmap string string;
}.

(** [FlaskCloudant.__connect__()], a static method on the class
    attribute. *)
Definition __connect__ : M unit :=
  w <- get_world ;;
  match CLIENT w with
  | Some c => Cloudant.connect c
  | None => raise (AttributeError "'NoneType' object has no attribute 'connect'")
  end.

(** [FlaskCloudant.__disconnect__()] *)
Definition __disconnect__ : M unit :=
  w <- get_world ;;
  match CLIENT w with
  | Some c => Cloudant.disconnect c
  | None => raise (AttributeError "'NoneType' object has no attribute 'disconnect'")
  end.

(** [assert b] *)
Definition assert (b : bool) : M unit :=
  if b then ret tt else raise AssertionError.

Definition dict_items (v : pyval) : list (string * pyval) :=
  match v with PDict items => items | _ => [] end.

Module FlaskCloudantDocument.

(** An instance: [self.document] refers to a cloudant document. *)
Record handle := {
  document : nat;
}.

Definition __init__ (cloudant_doc : nat) (exists_ : bool) : M handle :=
  if exists_ then
    e <- Cloudant.exists_ cloudant_doc ;;
    if e then
      Cloudant.fetch cloudant_doc ;;;
      ret {| document := cloudant_doc |}
    else
      id <- Cloudant.getitem_doc cloudant_doc "_id" ;;
      raise (FlaskCloudantException 404 [id])
  else
    ret {| document := cloudant_doc |}.

Definition __repr__ (self : handle) : M pyval :=
  Cloudant.getitem_doc (document self) "_id".

Definition __str__ (self : handle) : M pyval :=
  Cloudant.getitem_doc (document self) "_id".

Definition refresh (self : handle) : M unit :=
  __connect__ ;;;
  Cloudant.fetch (document self) ;;;
  __disconnect__.

(** [for key, value in content.items(): field_set(document, key, value)] *)
Fixpoint set_items (l : nat) (items : list (string * pyval)) : M unit :=
  match items with
  | [] => ret tt
  | (key, value) :: rest =>
      Cloudant.field_set l key value ;;;
      set_items l rest
  end.

(** [content(content=None)]: the new dict in get mode, [None] in set
    mode. *)
Definition content (self : handle) (content : pyval) : M (option nat) :=
  match content with
  | PNone =>
      refresh self ;;;
      d <- Cloudant.dict (document self) ;;
      ret (Some d)
  | _ =>
      assert (is_dict content) ;;;
      set_items (document self) (dict_items content) ;;;
      ret None
  end.

Definition exists_ (self : handle) : M bool :=
  __connect__ ;;;
  e <- Cloudant.exists_ (document self) ;;
  __disconnect__ ;;;
  ret e.

Definition save (self : handle) : M unit :=
  Cloudant.create (document self).

Definition delete (self : handle) : M unit :=
  Cloudant.delete (document self).

End FlaskCloudantDocument.

Module FlaskCloudant.

(** An instance: [self._db] is unset until [init_app] has run. *)
Record instance := {
  _db : option database;
}.

Definition getattr_db (self : instance) : M database :=
  match _db self with
  | Some db => ret db
  | None => raise (AttributeError "'FlaskCloudant' object has no attribute '_db'")
  end.

(** [FlaskCloudant.CLIENT[key]] *)
Definition CLIENT_getitem (key : option string) : M database :=
  w <- get_world ;;
  match CLIENT w with
  | Some c => Cloudant.getitem c key
  | None => raise (TypeError "'NoneType' object is not subscriptable")
  end.

Definition init_app (self : instance) (app : App) : M instance :=
  let couch_user := config app !! "COUCH_USER" in
  let couch_pwd := config app !! "COUCH_PWD" in
  let couch_db := config app !! "COUCH_DB" in
  let couch_url := config app !! "COUCH_URL" in
  try_except
    (c <- Cloudant.CouchDB couch_user couch_pwd couch_url ;;
     modify (set_CLIENT (Some c)) ;;;
     __connect__ ;;;
     db <- CLIENT_getitem couch_db ;;
     __disconnect__ ;;;
     ret {| _db := Some db |})
    (λ ex,
      match ex with
      | CloudantClientException status_code =>
          Some (raise (FlaskCloudantException status_code []))
      | HTTPError status_code =>
          Some (raise (FlaskCloudantException status_code
                         [of_config couch_user]))
      | KeyError _ =>
          Some (raise (FlaskCloudantException 400 [of_config couch_db]))
      | _ => None
      end).

Definition __init__ (app : option App) : M instance :=
  match app with
  | Some a => init_app {| _db := None |} a
  | None => ret {| _db := None |}
  end.

Definition get (self : instance) (document_id : option string)
    : M FlaskCloudantDocument.handle :=
  __connect__ ;;;
  db <- getattr_db self ;;
  cloudant_doc <- Cloudant.Document db document_id ;;
  doc <- FlaskCloudantDocument.__init__ cloudant_doc true ;;
  __disconnect__ ;;;
  ret doc.

Definition put (self : instance) (content : pyval)
    (document_id : option string) (override : bool)
    : M FlaskCloudantDocument.handle :=
  __connect__ ;;;
  db <- getattr_db self ;;
  cloudant_doc <- Cloudant.Document db document_id ;;
  (e <- Cloudant.exists_ cloudant_doc ;;
   if e && negb override then
     id <- Cloudant.getitem_doc cloudant_doc "_id" ;;
     raise (FlaskCloudantException 405 [id])
   else
     e' <- Cloudant.exists_ cloudant_doc ;;
     if e' && override then
       Cloudant.fetch cloudant_doc ;;;
       Cloudant.delete cloudant_doc
     else ret tt) ;;;
  doc <- FlaskCloudantDocument.__init__ cloudant_doc false ;;
  try_except
    (FlaskCloudantDocument.content doc content ;;; ret tt)
    (λ ex,
      match ex with
      | AssertionError =>
          Some (raise (FlaskCloudantException 700
                         [PStr "Content"; PType "dict"]))
      | _ => None
      end) ;;;
  FlaskCloudantDocument.save doc ;;;
  __disconnect__ ;;;
  ret doc.

Definition delete (self : instance) (document_id : option string) : M unit :=
  doc <- get self document_id ;;
  __connect__ ;;;
  FlaskCloudantDocument.delete doc ;;;
  __disconnect__.

End FlaskCloudant.

(** ** A small deployment to run the code on *)

Definition demo_server : server :=
  {| address := "http://localhost:5984";
     accounts := {["admin" := "secret"]};
     databases := {["appdb" :=
       {["doc1" := {| s_rev := 0; s_body := {["name" := PStr "a"]} |}]}]};
     next_rev := 1;
     next_uuid := 0 |}.

Definition demo_app : App :=
  {| config := list_to_map
       [("COUCH_USER", "admin"); ("COUCH_PWD", "secret");
        ("COUCH_DB", "appdb"); ("COUCH_URL", "http://localhost:5984")] |}.

Definition boot : world :=
  {| CLIENT := None; clients := []; heap := []; remote := demo_server |}.

(** The world and the instance after [FlaskCloudant(demo_app)]. *)
Definition demo_instance : FlaskCloudant.instance :=
  {| FlaskCloudant._db := Some {| db_client := 0; database_name := "appdb" |} |}.
Definition demo_world : world :=
  (FlaskCloudant.__init__ (Some demo_app) boot).2.

(** ** Observations *)

(** The client object [FlaskCloudant.CLIENT] refers to, if any. *)
Definition client_of (w : world) : option client :=
  c ← CLIENT w; clients w !! c.

Inductive conn_state := Disconnected | Connected.

(** [FlaskCloudant.CLIENT.r_session is not None] *)
Definition connected (w : world) : bool :=
  from_option (λ o, bool_decide (is_Some (r_session o))) false (client_of w).
Definition connection (w : world) : conn_state :=
  if connected w then Connected else Disconnected.
Definition connect_calls (w : world) : nat :=
  from_option connects 0 (client_of w).
Definition disconnect_calls (w : world) : nat :=
  from_option disconnects 0 (client_of w).

(** The stored document an instance sees at an id. *)
Definition stored (w : world) (self : FlaskCloudant.instance) (id : string)
    : option stored_doc :=
  db ← FlaskCloudant._db self; srv_doc (remote w) (database_name db) id.

(** The documents of the database an instance is bound to. *)
Definition documents (w : world) (self : FlaskCloudant.instance)
    : gmap string stored_doc :=
  default ∅ (db ← FlaskCloudant._db self;
             databases (remote w) !! database_name db).

(** The fields of a dictionary object. *)
Definition fields_at (w : world) (l : nat) : option (gmap string pyval) :=
  obj_fields <$> heap w !! l.

(** The server answers at the URL of a client object and accepts its
    credentials. *)
Definition admits (s : server) (o : client) : bool :=
  reaches s (server_url o) && srv_login s (c_user o) (c_auth_token o).

(** A [connect()] of client [c] succeeds. *)
Definition can_connect (w : world) (c : nat) : bool :=
  match clients w !! c with
  | Some o => admits (remote w) o
  | None => false
  end.

(** An instance is ready in a world when [init_app] has bound it to a
    database through the current [CLIENT] and a [connect()] of that client
    still succeeds. *)
Definition ready (w : world) (self : FlaskCloudant.instance) : bool :=
  match FlaskCloudant._db self, CLIENT w with
  | Some db, Some c => bool_decide (db_client db = c) && can_connect w c
  | _, _ => false
  end.

(** A handle is ready when its document is bound to a database of the
    current [CLIENT] and carries the id [id]; the other fields are
    arbitrary. *)
Definition handle_ready (w : world) (h : FlaskCloudantDocument.handle)
    (dbname id : string) : bool :=
  match heap w !! FlaskCloudantDocument.document h, CLIENT w with
  | Some (ObjDocument db f), Some c =>
      bool_decide (db_client db = c) && can_connect w c
      && bool_decide (database_name db = dbname)
      && match f !! "_id" with
         | Some (PStr s) => bool_decide (s = id)
         | _ => false
         end
  | _, _ => false
  end.

(** The public operations, and running one for its effect. *)
Inductive public_op :=
| OpGet (self : FlaskCloudant.instance) (document_id : option string)
| OpPut (self : FlaskCloudant.instance) (content : pyval)
    (document_id : option string) (override : bool)
| OpDelete (self : FlaskCloudant.instance) (document_id : option string)
| OpExists (doc : FlaskCloudantDocument.handle)
| OpRefresh (doc : FlaskCloudantDocument.handle).

Definition run (op : public_op) : M unit :=
  match op with
  | OpGet self id => FlaskCloudant.get self id ;;; ret tt
  | OpPut self content id override =>
      FlaskCloudant.put self content id override ;;; ret tt
  | OpDelete self id => FlaskCloudant.delete self id
  | OpExists doc => FlaskCloudantDocument.exists_ doc ;;; ret tt
  | OpRefresh doc => FlaskCloudantDocument.refresh doc
  end.

(** What an operation may do to the connection: [steps a b w w'] says that
    between [w] and [w'] the class attribute still names the same client,
    that client saw [a] more [connect()] and [b] more [disconnect()] calls,
    no other client object was touched, and nobody's credentials, URL or
    account changed. *)
Record steps (a b : nat) (w w' : world) : Prop := {
  st_CLIENT : CLIENT w' = CLIENT w;
  st_address : address (remote w') = address (remote w);
  st_accounts : accounts (remote w') = accounts (remote w);
  st_connects : connect_calls w' = connect_calls w + a;
  st_disconnects : disconnect_calls w' = disconnect_calls w + b;
  st_others : ∀ c, CLIENT w ≠ Some c → clients w' !! c = clients w !! c;
  st_creds : ∀ c o, clients w !! c = Some o →
    ∃ o', clients w' !! c = Some o' ∧
          c_user o' = c_user o ∧ c_auth_token o' = c_auth_token o ∧
          server_url o' = server_url o;
}.

(** Release on every exit path, as the specification words a scoped
    connection: [try: body finally: FlaskCloudant.__disconnect__()]. *)
Definition scoped {A} (body : M A) : M A :=
  __connect__ ;;;
  (λ w,
    match body w with
    | (Ok a, w') => (__disconnect__ ;;; ret a) w'
    | (Raise e, w') => (__disconnect__ ;;; raise e) w'
    end).

(** The specification's wording of [delete(id)]: [get(id)] followed by a
    scoped delete of the returned handle. *)
Definition delete_spec (self : FlaskCloudant.instance)
    (document_id : option string) : M unit :=
  doc <- FlaskCloudant.get self document_id ;;
  scoped (FlaskCloudantDocument.delete doc).

(** ** Fragments and predicates used by the proofs *)

(** Client [c] has a logged-in session with a server that answers. *)
Definition session_open (w : world) (c : nat) : bool :=
  match clients w !! c with
  | Some o =>
      match r_session o with
      | Some true => reaches (remote w) (server_url o)
      | _ => false
      end
  | None => false
  end.

(** The existence check of [put], between the construction of the cloudant
    document and that of the handle. *)
Definition check_existing (cloudant_doc : nat) (override : bool) : M unit :=
  e <- Cloudant.exists_ cloudant_doc ;;
  if e && negb override then
    id <- Cloudant.getitem_doc cloudant_doc "_id" ;;
    raise (FlaskCloudantException 405 [id])
  else
    e' <- Cloudant.exists_ cloudant_doc ;;
    if e' && override then
      Cloudant.fetch cloudant_doc ;;;
      Cloudant.delete cloudant_doc
    else ret tt.

(** The [try ... except AssertionError] of [put]. *)
Definition set_content (doc : FlaskCloudantDocument.handle) (content : pyval)
    : M unit :=
  try_except
    (FlaskCloudantDocument.content doc content ;;; ret tt)
    (λ ex,
      match ex with
      | AssertionError =>
          Some (raise (FlaskCloudantException 700
                         [PStr "Content"; PType "dict"]))
      | _ => None
      end).

(** A dict of user fields: no store-managed key and no [None] value. *)
Definition user_items (items : list (string * pyval)) : bool :=
  forallb (λ kv,
    negb (String.eqb kv.1 "_id") && negb (String.eqb kv.1 "_rev")
    && match kv.2 with PNone => false | _ => true end) items.

(** A dict without [None] values. *)
Definition no_None (items : list (string * pyval)) : bool :=
  forallb (λ kv, match kv.2 with PNone => false | _ => true end) items.

(** The client object [init_app] constructs from the configuration. *)
Definition new_client (app : App) : client :=
  {| c_user := config app !! "COUCH_USER";
     c_auth_token := config app !! "COUCH_PWD";
     server_url := config app !! "COUCH_URL";
     r_session := None; connects := 0; disconnects := 0 |}.

(** The world after [init_app] has replaced the class attribute by a new
    client object, now in state [o]. *)
Definition replaced (w : world) (o : client) : world :=
  {| CLIENT := Some (length (clients w));
     clients := clients w ++ [o];
     heap := heap w;
     remote := remote w |}.

(** The server answers at the URL of the configuration. *)
Definition answers (w : world) (app : App) : bool :=
  reaches (remote w) (config app !! "COUCH_URL").

(** The server accepts the credentials of the configuration. *)
Definition accepts (w : world) (app : App) : bool :=
  srv_login (remote w) (config app !! "COUCH_USER") (config app !! "COUCH_PWD").

(** The result is an exception other than the adapter's domain error. *)
Definition raises_foreign {A} (r : result A) : bool :=
  match r with
  | Raise (FlaskCloudantException _ _) => false
  | Raise _ => true
  | Ok _ => false
  end.

(** [content is None] *)
Definition is_None (v : pyval) : bool :=
  match v with PNone => true | _ => false end.

(** The stored document of the demo deployment, the handle [get] returns
    for it, and the world after that [get]. *)
Definition demo_doc : stored_doc :=
  {| s_rev := 0; s_body := {["name" := PStr "a"]} |}.
Definition demo_handle : FlaskCloudantDocument.handle :=
  {| FlaskCloudantDocument.document := 0 |}.
Definition fetched_world : world :=
  (FlaskCloudant.get demo_instance (Some "doc1") demo_world).2.

(** A configuration without [COUCH_DB]. *)
Definition nameless_app : App :=
  {| config := delete "COUCH_DB" (config demo_app) |}.

(** A computation that leaves the class attribute, every client object and
    the accounts alone. *)
Definition quiet {A} (m : M A) : Prop := ∀ w, steps 0 0 w (m w).2.

(** An operation that returns has balanced its [connect()] and
    [disconnect()] calls and closed the session; one that raises either
    never reached a client, or is at least one [disconnect()] short. *)
Definition scoped_effect {A} (w : world) (r : result A) (w' : world) : Prop :=
  match r with
  | Ok _ => ∃ n, 0 < n ∧ steps n n w w' ∧ connected w' = false
  | Raise _ =>
      (∃ a b, b < a ∧ steps a b w w') ∨ (w' = w ∧ client_of w = None)
  end.

(** The world of [put] and [get] once the session is open and the cloudant
    document has been constructed. *)
Definition prepared (w : world) (c : nat) (o : client) (db : database)
    (id : string) : world :=
  set_heap (heap w ++ [ObjDocument db {["_id" := PStr id]}])
    (set_clients (<[c := opened o]> (clients w)) w).

(** A computation that leaves the remote store alone. *)
Definition keeps_remote {A} (m : M A) : Prop := ∀ w, remote (m w).2 = remote w.

(** ** Predicates for the properties beyond the claims *)

(** Between [w] and [w'] no dictionary that lives below [n] was touched:
    every object at a location under [n] is as it was. *)
Definition below (n : nat) (w w' : world) : Prop :=
  (n ≤ length (heap w))%nat →
  (n ≤ length (heap w'))%nat ∧
  ∀ l : nat, (l < n)%nat → heap w' !! l = heap w !! l.

Definition keeps_below {A} (n : nat) (m : M A) : Prop :=
  ∀ w, below n w (m w).2.

(** The server has the database an instance is bound to. *)
Definition has_database (w : world) (self : FlaskCloudant.instance) : bool :=
  match FlaskCloudant._db self with
  | Some db => bool_decide (is_Some (databases (remote w) !! database_name db))
  | None => false
  end.

(** The instance is bound to the database of that name. *)
Definition bound_to (self : FlaskCloudant.instance) (dbname : string) : bool :=
  match FlaskCloudant._db self with
  | Some db => bool_decide (database_name db = dbname)
  | None => false
  end.

(** [FlaskCloudant()]: an instance on which [init_app] never ran. *)
Definition bare_instance : FlaskCloudant.instance :=
  {| FlaskCloudant._db := None |}.

(** The id the server assigns to the next document posted without one. *)
Definition next_id (w : world) : string := uuid_token (next_uuid (remote w)).

(** The world after [get] of the demo document followed by its
    [delete]: the handle of the [get] is still around. *)
Definition gone_world : world :=
  (FlaskCloudant.delete demo_instance (Some "doc1") fetched_world).2.

(** * Proofs *)

(** ** Inversion of monadic computations *)

Lemma bind_Ok {A B} (m : M A) (k : A → M B) w b w' :
  bind m k w = (Ok b, w') →
  ∃ a w1, m w = (Ok a, w1) ∧ k a w1 = (Ok b, w').
Proof.
  unfold bind. destruct (m w) as [[a|e] w1]; [eauto | discriminate].
Qed.

Lemma bind_Raise {A B} (m : M A) (k : A → M B) w e w' :
  bind m k w = (Raise e, w') →
  m w = (Raise e, w') ∨ ∃ a w1, m w = (Ok a, w1) ∧ k a w1 = (Raise e, w').
Proof.
  unfold bind. destruct (m w) as [[a|e0] w1]; [eauto | intros [= -> ->]; auto].
Qed.

Lemma bind_eq {A B} (m : M A) (k : A → M B) w a w1 :
  m w = (Ok a, w1) → bind m k w = k a w1.
Proof. unfold bind. by intros ->. Qed.

Lemma bind_raise_eq {A B} (m : M A) (k : A → M B) w e w1 :
  m w = (Raise e, w1) → bind m k w = (Raise e, w1).
Proof. unfold bind. by intros ->. Qed.

Lemma try_except_inv {A} (m : M A) h w r w' :
  try_except m h w = (r, w') →
  (∃ a, m w = (Ok a, w') ∧ r = Ok a) ∨
  (∃ e w1, m w = (Raise e, w1) ∧
     match h e with
     | Some k => k w1 = (r, w')
     | None => r = Raise e ∧ w' = w1
     end).
Proof.
  unfold try_except. destruct (m w) as [[a|e] w1].
  - intros [= <- <-]. left. eauto.
  - intros H. right. exists e, w1. split; [done|].
    destruct (h e); [done | by simplify_eq].
Qed.

(** ** The algebra of [steps] *)

Lemma steps_refl w : steps 0 0 w w.
Proof. split; eauto with lia. Qed.

Lemma steps_trans a b a' b' w w1 w2 :
  steps a b w w1 → steps a' b' w1 w2 → steps (a + a') (b + b') w w2.
Proof.
  intros [H1 H0 H2 H3 H4 H5 H6] [K1 K0 K2 K3 K4 K5 K6]. split.
  - congruence.
  - congruence.
  - congruence.
  - lia.
  - lia.
  - intros c Hc. rewrite K5; [by apply H5 | congruence].
  - intros c o Ho. destruct (H6 c o Ho) as (o1 & Ho1 & Hu & Hp & Hl).
    destruct (K6 c o1 Ho1) as (o2 & Ho2 & Hu2 & Hp2 & Hl2).
    exists o2. split; [done|]. repeat split; congruence.
Qed.

Lemma steps_eq a b a' b' w w' :
  steps a b w w' → a = a' → b = b' → steps a' b' w w'.
Proof. by intros H <- <-. Qed.

(** A computation that leaves the class attribute, the client objects and
    the accounts alone. *)
Lemma steps_quiet w w' :
  CLIENT w' = CLIENT w → clients w' = clients w →
  address (remote w') = address (remote w) →
  accounts (remote w') = accounts (remote w) → steps 0 0 w w'.
Proof.
  intros H1 H2 H0 H3. split; try done.
  - unfold connect_calls, client_of. rewrite H1, H2. lia.
  - unfold disconnect_calls, client_of. rewrite H1, H2. lia.
  - intros c _. by rewrite H2.
  - intros c o Ho. exists o. by rewrite H2.
Qed.

Lemma quiet_inv {A} (m : M A) w r w' : quiet m → m w = (r, w') → steps 0 0 w w'.
Proof. intros Hq E. specialize (Hq w). by rewrite E in Hq. Qed.

Lemma quiet_bind {A B} (m : M A) (k : A → M B) :
  quiet m → (∀ a, quiet (k a)) → quiet (bind m k).
Proof.
  intros Hm Hk w. unfold bind. specialize (Hm w).
  destruct (m w) as [[a|e] w1]; simpl in *; [|done].
  apply (steps_trans 0 0 0 0 w w1); [done | apply Hk].
Qed.

Lemma quiet_ret {A} (a : A) : quiet (ret a).
Proof. intros w. apply steps_refl. Qed.

Lemma quiet_raise {A} e : quiet (@raise A e).
Proof. intros w. apply steps_refl. Qed.

Lemma quiet_get_world : quiet get_world.
Proof. intros w. apply steps_refl. Qed.

Lemma quiet_if {A} (b : bool) (m1 m2 : M A) :
  quiet m1 → quiet m2 → quiet (if b then m1 else m2).
Proof. by destruct b. Qed.

Lemma srv_delete_accounts s dbname id rev s' :
  srv_delete s dbname id rev = inr s' → accounts s' = accounts s.
Proof.
  unfold srv_delete. intros H. repeat case_match; simplify_eq; done.
Qed.

Lemma srv_post_accounts s dbname body id rev s' :
  srv_post s dbname body = inr (id, rev, s') → accounts s' = accounts s.
Proof.
  unfold srv_post. intros H. repeat case_match; simplify_eq; done.
Qed.

Lemma srv_delete_address s dbname id rev s' :
  srv_delete s dbname id rev = inr s' → address s' = address s.
Proof.
  unfold srv_delete. intros H. repeat case_match; simplify_eq; done.
Qed.

Lemma srv_post_address s dbname body id rev s' :
  srv_post s dbname body = inr (id, rev, s') → address s' = address s.
Proof.
  unfold srv_post. intros H. repeat case_match; simplify_eq; done.
Qed.

Lemma quiet_lookup_client c : quiet (Cloudant.lookup_client c).
Proof. intros w. unfold Cloudant.lookup_client. case_match; apply steps_refl. Qed.

Lemma quiet_request c : quiet (Cloudant.request c).
Proof.
  apply quiet_bind; [apply quiet_lookup_client|]. intros o.
  apply quiet_bind; [apply quiet_get_world|]. intros w.
  repeat case_match; first [apply quiet_ret | apply quiet_raise].
Qed.

Lemma quiet_lookup_document l : quiet (Cloudant.lookup_document l).
Proof.
  intros w. unfold Cloudant.lookup_document. repeat case_match; apply steps_refl.
Qed.

Lemma quiet_store_fields l db f : quiet (Cloudant.store_fields l db f).
Proof. intros w. by apply steps_quiet. Qed.

Lemma quiet_alloc o : quiet (Cloudant.alloc o).
Proof. intros w. by apply steps_quiet. Qed.

Ltac quiet_cases :=
  repeat first
    [ progress intros
    | apply quiet_bind
    | apply quiet_ret | apply quiet_raise | apply quiet_get_world
    | apply quiet_request | apply quiet_lookup_document
    | apply quiet_store_fields | apply quiet_alloc | apply quiet_lookup_client
    | match goal with
      | |- quiet (let '(_, _) := ?d in _) => destruct d
      | |- quiet (match ?x with _ => _ end) => destruct x eqn:?
      | |- quiet (if ?x then _ else _) => destruct x eqn:?
      end ].

Lemma quiet_Document db id : quiet (Cloudant.Document db id).
Proof. apply quiet_alloc. Qed.

Lemma quiet_getitem_doc l k : quiet (Cloudant.getitem_doc l k).
Proof. unfold Cloudant.getitem_doc. quiet_cases. Qed.

Lemma quiet_exists l : quiet (Cloudant.exists_ l).
Proof. unfold Cloudant.exists_. quiet_cases. Qed.

Lemma quiet_fetch l : quiet (Cloudant.fetch l).
Proof. unfold Cloudant.fetch. quiet_cases. Qed.

Lemma quiet_delete l : quiet (Cloudant.delete l).
Proof.
  unfold Cloudant.delete.
  apply quiet_bind; [apply quiet_lookup_document|]. intros [db f].
  apply quiet_if; [apply quiet_raise|].
  apply quiet_bind; [apply quiet_request|]. intros _.
  destruct (f !! "_id") as [[]|]; try apply quiet_raise.
  intros w. unfold bind, get_world.
  destruct (srv_delete _ _ _ _) as [st|s'] eqn:E; simpl; [apply steps_refl|].
  apply steps_quiet; simpl;
    eauto using srv_delete_accounts, srv_delete_address.
Qed.

Lemma quiet_create l : quiet (Cloudant.create l).
Proof.
  unfold Cloudant.create.
  apply quiet_bind; [apply quiet_lookup_document|]. intros [db f].
  apply quiet_bind; [apply quiet_request|]. intros _.
  intros w. unfold bind, get_world.
  destruct (srv_post _ _ _) as [st|[[id rev] s']] eqn:E; simpl;
    [apply steps_refl|].
  apply steps_quiet; simpl; eauto using srv_post_accounts, srv_post_address.
Qed.

Lemma quiet_field_set l k v : quiet (Cloudant.field_set l k v).
Proof. unfold Cloudant.field_set. quiet_cases. Qed.

Lemma quiet_dict l : quiet (Cloudant.dict l).
Proof. unfold Cloudant.dict. quiet_cases. Qed.

Lemma quiet_getattr_db self : quiet (FlaskCloudant.getattr_db self).
Proof. unfold FlaskCloudant.getattr_db. quiet_cases. Qed.

Lemma quiet_set_items l items : quiet (FlaskCloudantDocument.set_items l items).
Proof.
  induction items as [|[k v] items IH]; simpl; [apply quiet_ret|].
  apply quiet_bind; [apply quiet_field_set | done].
Qed.

Lemma quiet_handle_init l e : quiet (FlaskCloudantDocument.__init__ l e).
Proof.
  unfold FlaskCloudantDocument.__init__.
  destruct e; [|apply quiet_ret].
  apply quiet_bind; [apply quiet_exists|]. intros [].
  - apply quiet_bind; [apply quiet_fetch|]. intros. apply quiet_ret.
  - apply quiet_bind; [apply quiet_getitem_doc|]. intros. apply quiet_raise.
Qed.

Lemma quiet_assert b : quiet (assert b).
Proof. destruct b; [apply quiet_ret | apply quiet_raise]. Qed.

(** ** [connect] and [disconnect] *)

Lemma client_of_store w c o o' :
  CLIENT w = Some c → clients w !! c = Some o →
  client_of (set_clients (<[c := o']> (clients w)) w) = Some o'.
Proof.
  intros Hc Ho. unfold client_of. simpl. rewrite Hc. simpl.
  apply list_lookup_insert_eq. by eapply lookup_lt_Some.
Qed.

Lemma steps_store w c o o' a b :
  CLIENT w = Some c → clients w !! c = Some o →
  c_user o' = c_user o → c_auth_token o' = c_auth_token o →
  server_url o' = server_url o →
  connects o' = connects o + a → disconnects o' = disconnects o + b →
  steps a b w (set_clients (<[c := o']> (clients w)) w).
Proof.
  intros Hc Ho Hu Hp Hl Ha Hb.
  pose proof (client_of_store w c o o' Hc Ho) as Hn.
  assert (client_of w = Some o) as Hw
    by (unfold client_of; by rewrite Hc).
  split; try done.
  - unfold connect_calls. by rewrite Hn, Hw.
  - unfold disconnect_calls. by rewrite Hn, Hw.
  - intros c' Hc'. simpl. apply list_lookup_insert_ne. congruence.
  - intros c' o1 Ho1. simpl. destruct (decide (c = c')) as [<-|Hne].
    + exists o'. rewrite list_lookup_insert_eq by (by eapply lookup_lt_Some).
      split; [done|]. repeat split; congruence.
    + exists o1. by rewrite list_lookup_insert_ne.
Qed.

Lemma connect_inv w r w' :
  __connect__ w = (r, w') →
  match r with
  | Ok _ => steps 1 0 w w' ∧ connected w' = true
  | Raise _ =>
      (steps 1 0 w w' ∧ connected w' = true) ∨ (w' = w ∧ client_of w = None)
  end.
Proof.
  unfold __connect__, bind, get_world, Cloudant.connect, Cloudant.lookup_client,
    bind, get_world, Cloudant.store_client, modify, raise.
  destruct (CLIENT w) as [c|] eqn:Hc; simpl.
  2:{ intros [= <- <-]. right. split; [done|]. unfold client_of. by rewrite Hc. }
  destruct (clients w !! c) as [o|] eqn:Ho; simpl.
  2:{ intros [= <- <-]. right. split; [done|]. unfold client_of. rewrite Hc. done. }
  destruct (reaches _ _); [destruct (srv_login _ _ _)|]; simpl;
    intros [= <- <-].
  - split; [eapply steps_store; eauto; simpl; lia|].
    unfold connected. by erewrite client_of_store.
  - left. split; [eapply steps_store; eauto; simpl; lia|].
    unfold connected. by erewrite client_of_store.
  - left. split; [eapply steps_store; eauto; simpl; lia|].
    unfold connected. by erewrite client_of_store.
Qed.

Lemma disconnect_inv w r w' :
  __disconnect__ w = (r, w') →
  match r with
  | Ok _ => steps 0 1 w w' ∧ connected w' = false
  | Raise _ => w' = w ∧ client_of w = None
  end.
Proof.
  unfold __disconnect__, bind, get_world, Cloudant.disconnect,
    Cloudant.lookup_client, bind, Cloudant.store_client, modify, raise.
  destruct (CLIENT w) as [c|] eqn:Hc; simpl.
  2:{ intros [= <- <-]. split; [done|]. unfold client_of. by rewrite Hc. }
  destruct (clients w !! c) as [o|] eqn:Ho; simpl.
  2:{ intros [= <- <-]. split; [done|]. unfold client_of. rewrite Hc. done. }
  intros [= <- <-].
  split; [eapply steps_store; eauto; simpl; lia|].
  unfold connected. by erewrite client_of_store.
Qed.

(** ** The effect of the public operations on the connection *)

Ltac inv_M :=
  repeat match goal with
  | H : bind _ _ _ = (Ok _, _) |- _ =>
      apply bind_Ok in H as (? & ? & ? & H)
  | H : bind _ _ _ = (Raise _, _) |- _ =>
      apply bind_Raise in H as [H | (? & ? & ? & H)]
  | H : ret _ _ = _ |- _ => unfold ret in H; simplify_eq
  | H : raise _ _ = _ |- _ => unfold raise in H; simplify_eq
  | H : (if ?b then _ else _) _ = _ |- _ => destruct b eqn:?
  | H : try_except _ _ _ = _ |- _ =>
      apply try_except_inv in H as [(? & H & ?) | (? & ? & H & ?)]
  end.

Ltac conn_facts :=
  repeat match goal with
  | H : __connect__ _ = (Ok _, _) |- _ => apply connect_inv in H as [? ?]
  | H : __connect__ _ = (Raise _, _) |- _ =>
      apply connect_inv in H as [[? ?] | [? ?]]
  | H : __disconnect__ _ = (Ok _, _) |- _ => apply disconnect_inv in H as [? ?]
  | H : __disconnect__ _ = (Raise _, _) |- _ =>
      apply disconnect_inv in H as [? ?]
  | H : Cloudant.Document _ _ _ = _ |- _ =>
      apply (quiet_inv _ _ _ _ (quiet_Document _ _)) in H
  | H : Cloudant.exists_ _ _ = _ |- _ =>
      apply (quiet_inv _ _ _ _ (quiet_exists _)) in H
  | H : Cloudant.fetch _ _ = _ |- _ =>
      apply (quiet_inv _ _ _ _ (quiet_fetch _)) in H
  | H : Cloudant.delete _ _ = _ |- _ =>
      apply (quiet_inv _ _ _ _ (quiet_delete _)) in H
  | H : Cloudant.create _ _ = _ |- _ =>
      apply (quiet_inv _ _ _ _ (quiet_create _)) in H
  | H : Cloudant.getitem_doc _ _ _ = _ |- _ =>
      apply (quiet_inv _ _ _ _ (quiet_getitem_doc _ _)) in H
  | H : Cloudant.dict _ _ = _ |- _ =>
      apply (quiet_inv _ _ _ _ (quiet_dict _)) in H
  | H : FlaskCloudant.getattr_db _ _ = _ |- _ =>
      apply (quiet_inv _ _ _ _ (quiet_getattr_db _)) in H
  | H : FlaskCloudantDocument.__init__ _ _ _ = _ |- _ =>
      apply (quiet_inv _ _ _ _ (quiet_handle_init _ _)) in H
  | H : FlaskCloudantDocument.set_items _ _ _ = _ |- _ =>
      apply (quiet_inv _ _ _ _ (quiet_set_items _ _)) in H
  | H : assert _ _ = _ |- _ =>
      apply (quiet_inv _ _ _ _ (quiet_assert _)) in H
  end.

Ltac chain w :=
  subst;
  repeat match goal with
  | H1 : steps _ _ w ?w1, H2 : steps _ _ ?w1 _ |- _ =>
      let H := fresh "Hs" in
      pose proof (steps_trans _ _ _ _ _ _ _ H1 H2) as H;
      simpl in H; clear H1 H2
  end.

Ltac short w := chain w; left; do 2 eexists; split; [|eassumption]; lia.
Ltac even w :=
  chain w;
  match goal with
  | H : steps ?a _ w _ |- _ =>
      exists a; split; [lia|];
      split; [eapply steps_eq; [exact H | lia | lia] | done]
  end.

Lemma refresh_effect h w r w' :
  FlaskCloudantDocument.refresh h w = (r, w') → scoped_effect w r w'.
Proof.
  unfold FlaskCloudantDocument.refresh. intros H.
  destruct r as [[]|e]; simpl; inv_M; conn_facts; subst;
    first [ by right | short w | even w ].
Qed.

Lemma exists_effect h w r w' :
  FlaskCloudantDocument.exists_ h w = (r, w') → scoped_effect w r w'.
Proof.
  unfold FlaskCloudantDocument.exists_. intros H.
  destruct r as [[]|e]; simpl; inv_M; conn_facts; subst;
    first [ by right | short w | even w ].
Qed.

Lemma get_effect self id w r w' :
  FlaskCloudant.get self id w = (r, w') → scoped_effect w r w'.
Proof.
  unfold FlaskCloudant.get. intros H.
  destruct r as [?|e]; simpl; inv_M; conn_facts; subst;
    first [ by right | short w | even w ].
Qed.

Lemma steps_reached a b w w' :
  steps a b w w' → 0 < a → client_of w' = None → False.
Proof.
  intros [_ _ _ H _ _ _] Ha Hn. unfold connect_calls in H.
  rewrite Hn in H. simpl in H. lia.
Qed.

Lemma delete_effect self id w r w' :
  FlaskCloudant.delete self id w = (r, w') → scoped_effect w r w'.
Proof.
  unfold FlaskCloudant.delete, FlaskCloudantDocument.delete. intros H.
  destruct r as [[]|e]; simpl; inv_M;
    repeat match goal with
    | H : FlaskCloudant.get _ _ _ = _ |- _ =>
        apply get_effect in H; simpl in H
    | H : ∃ n, 0 < n ∧ _ |- _ => destruct H as (n & Hn & Hs & _)
    end; try done; conn_facts; subst;
    first [ by exfalso; eapply steps_reached | short w | even w ].
Qed.

Lemma content_effect h v w r w' :
  FlaskCloudantDocument.content h v w = (r, w') →
  ∃ a b : nat, (b ≤ a)%nat ∧ steps a b w w' ∧
         match r with Ok _ => a = b | Raise _ => True end.
Proof.
  unfold FlaskCloudantDocument.content. intros H.
  destruct v; destruct r as [?|e]; inv_M;
    repeat match goal with
    | H : FlaskCloudantDocument.refresh _ _ = _ |- _ =>
        apply refresh_effect in H; simpl in H
    | H : ∃ n, 0 < n ∧ _ |- _ => destruct H as (? & ? & ? & _)
    | H : (∃ a b, b < a ∧ _) ∨ _ |- _ =>
        destruct H as [(? & ? & ? & ?) | [-> _]]
    end; conn_facts; chain w;
    try (by exists 0, 0; split; [lia|]; split; [apply steps_refl|]);
    match goal with
    | H : steps ?a ?b w _ |- _ =>
        exists a, b; split; [lia|]; split; [exact H | try done; lia]
    end.
Qed.

Lemma put_effect self content id override w r w' :
  FlaskCloudant.put self content id override w = (r, w') →
  scoped_effect w r w'.
Proof.
  unfold FlaskCloudant.put, FlaskCloudantDocument.save. intros H.
  destruct r as [?|e]; simpl; inv_M;
    repeat match goal with
    | H : match (match ?e with _ => _ end) with _ => _ end |- _ =>
        destruct e; simpl in H;
        first [ unfold raise in H; progress simplify_eq
              | destruct H as [? ?]; simplify_eq ]
    | H : FlaskCloudantDocument.content _ _ _ = _ |- _ =>
        apply content_effect in H as (? & ? & ? & ? & ?)
    end; simplify_eq; conn_facts; subst;
    first [ by right | short w | even w ].
Qed.

(** Every public operation, in every world. *)
Lemma run_effect op w r w' : run op w = (r, w') → scoped_effect w r w'.
Proof.
  destruct op; simpl; intros H.
  - destruct r as [[]|e]; inv_M;
      match goal with H : FlaskCloudant.get _ _ _ = _ |- _ =>
        by apply get_effect in H end.
  - destruct r as [[]|e]; inv_M;
      match goal with H : FlaskCloudant.put _ _ _ _ _ = _ |- _ =>
        by apply put_effect in H end.
  - by apply delete_effect in H.
  - destruct r as [[]|e]; inv_M;
      match goal with H : FlaskCloudantDocument.exists_ _ _ = _ |- _ =>
        by apply exists_effect in H end.
  - by apply refresh_effect in H.
Qed.

(** ** Evaluating the library *)

Lemma connect_eval w c o :
  CLIENT w = Some c → clients w !! c = Some o →
  admits (remote w) o = true →
  __connect__ w = (Ok tt, set_clients (<[c := opened o]> (clients w)) w).
Proof.
  intros Hc Ho [Hr Hl]%andb_true_iff.
  unfold __connect__, bind, get_world, Cloudant.connect, Cloudant.lookup_client,
    bind, get_world, Cloudant.store_client, modify.
  by rewrite Hc, Ho, Hr, Hl.
Qed.

Lemma disconnect_eval w c o :
  CLIENT w = Some c → clients w !! c = Some o →
  __disconnect__ w = (Ok tt, set_clients (<[c := closed o]> (clients w)) w).
Proof.
  intros Hc Ho.
  unfold __disconnect__, bind, get_world, Cloudant.disconnect,
    Cloudant.lookup_client, bind, Cloudant.store_client, modify.
  by rewrite Hc, Ho.
Qed.

Lemma connect_Ok_inv w w' :
  __connect__ w = (Ok tt, w') →
  ∃ c o, CLIENT w = Some c ∧ clients w !! c = Some o ∧
         admits (remote w) o = true ∧
         w' = set_clients (<[c := opened o]> (clients w)) w.
Proof.
  unfold __connect__, bind, get_world, Cloudant.connect, Cloudant.lookup_client,
    bind, get_world, Cloudant.store_client, modify, raise.
  destruct (CLIENT w) as [c|] eqn:Hc; simpl; [|done].
  destruct (clients w !! c) as [o|] eqn:Ho; simpl; [|done].
  destruct (reaches _ _) eqn:Hr; simpl; [|done].
  destruct (srv_login _ _ _) eqn:Hl; simpl; [|done].
  intros [= <-]. exists c, o. unfold admits. by rewrite Hr, Hl.
Qed.

Lemma request_eval w c :
  session_open w c = true → Cloudant.request c w = (Ok tt, w).
Proof.
  unfold session_open, Cloudant.request, Cloudant.lookup_client, bind,
    get_world.
  destruct (clients w !! c) as [o|]; [|done].
  destruct (r_session o) as [[]|]; try done. by intros ->.
Qed.

Lemma request_Ok_inv w c w' :
  Cloudant.request c w = (Ok tt, w') → session_open w c = true ∧ w' = w.
Proof.
  unfold session_open, Cloudant.request, Cloudant.lookup_client, bind,
    get_world.
  destruct (clients w !! c) as [o|]; [|done].
  destruct (r_session o) as [[]|]; try done;
    destruct (reaches (remote w) (server_url o)); try done.
  by intros [= <-].
Qed.

Lemma session_open_same w w' c :
  clients w' = clients w → address (remote w') = address (remote w) →
  session_open w' c = session_open w c.
Proof. unfold session_open, reaches. by intros -> ->. Qed.

Lemma session_open_connect w c o c' :
  clients w !! c = Some o →
  admits (remote w) o = true →
  (c' = c ∨ session_open w c' = true) →
  session_open (set_clients (<[c := opened o]> (clients w)) w) c' = true.
Proof.
  intros Ho [Hr _]%andb_true_iff H. unfold session_open. simpl.
  destruct (decide (c' = c)) as [->|Hne].
  - by rewrite list_lookup_insert_eq by (by eapply lookup_lt_Some).
  - rewrite list_lookup_insert_ne by done. by destruct H.
Qed.

Lemma lookup_document_eval w l db f :
  heap w !! l = Some (ObjDocument db f) →
  Cloudant.lookup_document l w = (Ok (db, f), w).
Proof. unfold Cloudant.lookup_document. by intros ->. Qed.

Lemma exists_eval w l db f id :
  heap w !! l = Some (ObjDocument db f) →
  f !! "_id" = Some (PStr id) →
  session_open w (db_client db) = true →
  Cloudant.exists_ l w =
    (Ok (bool_decide (is_Some (srv_doc (remote w) (database_name db) id))), w).
Proof.
  intros Hl Hid Hs. unfold Cloudant.exists_.
  rewrite (bind_eq _ _ _ _ _ (lookup_document_eval _ _ _ _ Hl)).
  rewrite Hid. by rewrite (bind_eq _ _ _ _ _ (request_eval _ _ Hs)).
Qed.

Lemma fetch_eval w l db f id d :
  heap w !! l = Some (ObjDocument db f) →
  f !! "_id" = Some (PStr id) →
  session_open w (db_client db) = true →
  srv_doc (remote w) (database_name db) id = Some d →
  Cloudant.fetch l w =
    (Ok tt, set_heap (<[l := ObjDocument db (render id d)]> (heap w)) w).
Proof.
  intros Hl Hid Hs Hd. unfold Cloudant.fetch.
  rewrite (bind_eq _ _ _ _ _ (lookup_document_eval _ _ _ _ Hl)).
  rewrite Hid. rewrite (bind_eq _ _ _ _ _ (request_eval _ _ Hs)).
  unfold bind, get_world, srv_get. by rewrite Hd.
Qed.

Lemma fetch_missing w l db f id :
  heap w !! l = Some (ObjDocument db f) →
  f !! "_id" = Some (PStr id) →
  session_open w (db_client db) = true →
  srv_doc (remote w) (database_name db) id = None →
  Cloudant.fetch l w = (Raise (HTTPError 404), w).
Proof.
  intros Hl Hid Hs Hd. unfold Cloudant.fetch.
  rewrite (bind_eq _ _ _ _ _ (lookup_document_eval _ _ _ _ Hl)).
  rewrite Hid. rewrite (bind_eq _ _ _ _ _ (request_eval _ _ Hs)).
  unfold bind, get_world, srv_get. by rewrite Hd.
Qed.

Lemma truthy_rev_token n : truthy (PStr (rev_token n)) = true.
Proof. done. Qed.

Lemma srv_doc_inv s dbname id d :
  srv_doc s dbname id = Some d →
  ∃ db, databases s !! dbname = Some db ∧ db !! id = Some d.
Proof.
  unfold srv_doc. destruct (databases s !! dbname) as [db|]; [|done].
  simpl. eauto.
Qed.

(** The server after the document at [id] has been removed. *)
Lemma delete_eval w l db f id d :
  heap w !! l = Some (ObjDocument db f) →
  f !! "_id" = Some (PStr id) →
  f !! "_rev" = Some (PStr (rev_token (s_rev d))) →
  session_open w (db_client db) = true →
  srv_doc (remote w) (database_name db) id = Some d →
  ∃ s', srv_delete (remote w) (database_name db) id
          (PStr (rev_token (s_rev d))) = inr s' ∧
    Cloudant.delete l w =
      (Ok tt, set_heap (<[l := ObjDocument db {["_id" := PStr id]}]> (heap w))
                (set_remote s' w)).
Proof.
  intros Hl Hid Hrev Hs Hd.
  destruct (srv_doc_inv _ _ _ _ Hd) as (dbm & Hdb & Hdoc).
  unfold srv_delete. rewrite Hdb, Hdoc, String.eqb_refl.
  eexists. split; [done|].
  unfold Cloudant.delete.
  rewrite (bind_eq _ _ _ _ _ (lookup_document_eval _ _ _ _ Hl)).
  rewrite Hrev.
  change (default PNone (Some ?x)) with x.
  rewrite truthy_rev_token. change (negb true) with false. cbv iota.
  rewrite (bind_eq _ _ _ _ _ (request_eval _ _ Hs)).
  rewrite Hid. unfold bind, get_world, srv_delete.
  by rewrite Hdb, Hdoc, String.eqb_refl.
Qed.

Lemma bind_ret_l {A B} (a : A) (k : A → M B) w : bind (ret a) k w = k a w.
Proof. done. Qed.

Lemma bind_assoc {A B C} (m : M A) (k : A → M B) (k' : B → M C) w :
  bind (bind m k) k' w = bind m (λ a, bind (k a) k') w.
Proof. unfold bind. by destruct (m w) as [[a|e] w1]. Qed.

Lemma getattr_db_eval self db w :
  FlaskCloudant._db self = Some db → FlaskCloudant.getattr_db self w = (Ok db, w).
Proof. unfold FlaskCloudant.getattr_db. by intros ->. Qed.

Lemma Document_eval db id w :
  truthy (PStr id) = true →
  Cloudant.Document db (Some id) w =
    (Ok (length (heap w)),
     set_heap (heap w ++ [ObjDocument db {["_id" := PStr id]}]) w).
Proof.
  intros Ht. unfold Cloudant.Document, Cloudant.alloc.
  change (of_config (Some id)) with (PStr id). by rewrite Ht.
Qed.

Lemma lookup_new {A} (l : list A) (x : A) : (l ++ [x])%list !! length l = Some x.
Proof. by rewrite list_lookup_middle. Qed.

Lemma insert_new {A} (l : list A) (x y : A) :
  <[length l := y]> (l ++ [x])%list = (l ++ [y])%list.
Proof.
  rewrite insert_app_r_alt by lia. by rewrite Nat.sub_diag.
Qed.

Lemma get_eval self db c o id w d :
  FlaskCloudant._db self = Some db →
  CLIENT w = Some c → clients w !! c = Some o →
  admits (remote w) o = true →
  (db_client db = c ∨ session_open w (db_client db) = true) →
  truthy (PStr id) = true →
  srv_doc (remote w) (database_name db) id = Some d →
  FlaskCloudant.get self (Some id) w =
    (Ok {| FlaskCloudantDocument.document := length (heap w) |},
     {| CLIENT := CLIENT w;
        clients := <[c := closed (opened o)]> (clients w);
        heap := heap w ++ [ObjDocument db (render id d)];
        remote := remote w |}).
Proof.
  intros Hdb Hc Ho Hl Hs Ht Hd. unfold FlaskCloudant.get.
  rewrite (bind_eq _ _ _ _ _ (connect_eval _ _ _ Hc Ho Hl)).
  rewrite (bind_eq _ _ _ _ _ (getattr_db_eval _ _ _ Hdb)).
  rewrite (bind_eq _ _ _ _ _ (Document_eval _ _ _ Ht)).
  unfold FlaskCloudantDocument.__init__.
  pose proof (session_open_connect w c o _ Ho Hl Hs) as Hs1.
  set (w1 := set_clients _ w) in *.
  set (w2 := set_heap _ w1).
  assert (heap w2 !! length (heap w1) =
            Some (ObjDocument db {["_id" := PStr id]})) as Hh
    by apply lookup_new.
  cbv iota. rewrite bind_assoc.
  rewrite (bind_eq _ _ _ _ _
    (exists_eval w2 _ _ _ id Hh (lookup_singleton_eq _ _) Hs1)).
  change (remote w2) with (remote w). rewrite Hd.
  rewrite bool_decide_eq_true_2 by eauto.
  rewrite bind_assoc.
  rewrite (bind_eq _ _ _ _ _
    (fetch_eval w2 _ _ _ id d Hh (lookup_singleton_eq _ _) Hs1 Hd)).
  rewrite bind_ret_l.
  set (w3 := set_heap _ w2).
  assert (clients w3 !! c = Some (opened o)) as Ho3.
  { simpl. apply list_lookup_insert_eq. by eapply lookup_lt_Some. }
  rewrite (bind_eq _ _ _ _ _ (disconnect_eval w3 c (opened o) Hc Ho3)).
  unfold ret. f_equal. unfold w3, w2, w1, set_heap, set_clients; simpl.
  f_equal.
  - apply list_insert_insert_eq.
  - apply insert_new.
Qed.

Lemma getitem_doc_eval w l db f k v :
  heap w !! l = Some (ObjDocument db f) → f !! k = Some v →
  Cloudant.getitem_doc l k w = (Ok v, w).
Proof.
  intros Hl Hk. unfold Cloudant.getitem_doc.
  rewrite (bind_eq _ _ _ _ _ (lookup_document_eval _ _ _ _ Hl)).
  by rewrite Hk.
Qed.

Lemma get_missing self db c o id w :
  FlaskCloudant._db self = Some db →
  CLIENT w = Some c → clients w !! c = Some o →
  admits (remote w) o = true →
  (db_client db = c ∨ session_open w (db_client db) = true) →
  truthy (PStr id) = true →
  srv_doc (remote w) (database_name db) id = None →
  FlaskCloudant.get self (Some id) w =
    (Raise (FlaskCloudantException 404 [PStr id]),
     {| CLIENT := CLIENT w;
        clients := <[c := opened o]> (clients w);
        heap := heap w ++ [ObjDocument db {["_id" := PStr id]}];
        remote := remote w |}).
Proof.
  intros Hdb Hc Ho Hl Hs Ht Hd. unfold FlaskCloudant.get.
  rewrite (bind_eq _ _ _ _ _ (connect_eval _ _ _ Hc Ho Hl)).
  rewrite (bind_eq _ _ _ _ _ (getattr_db_eval _ _ _ Hdb)).
  rewrite (bind_eq _ _ _ _ _ (Document_eval _ _ _ Ht)).
  unfold FlaskCloudantDocument.__init__.
  pose proof (session_open_connect w c o _ Ho Hl Hs) as Hs1.
  set (w1 := set_clients _ w) in *.
  set (w2 := set_heap _ w1).
  assert (heap w2 !! length (heap w1) =
            Some (ObjDocument db {["_id" := PStr id]})) as Hh
    by apply lookup_new.
  cbv iota. rewrite bind_assoc.
  rewrite (bind_eq _ _ _ _ _
    (exists_eval w2 _ _ _ id Hh (lookup_singleton_eq _ _) Hs1)).
  change (remote w2) with (remote w). rewrite Hd.
  rewrite bool_decide_eq_false_2 by (by intros [? ?]).
  rewrite bind_assoc.
  rewrite (bind_eq _ _ _ _ _
    (getitem_doc_eval w2 _ _ _ "_id" _ Hh (lookup_singleton_eq _ _))).
  done.
Qed.

(** ** Readiness *)

Lemma ready_inv w self :
  ready w self = true →
  ∃ db o, FlaskCloudant._db self = Some db ∧
          CLIENT w = Some (db_client db) ∧
          clients w !! db_client db = Some o ∧
          admits (remote w) o = true.
Proof.
  unfold ready, can_connect.
  destruct (FlaskCloudant._db self) as [db|]; [|done].
  destruct (CLIENT w) as [c|]; [|done].
  intros [H1 H2]%andb_true_iff. apply bool_decide_eq_true in H1 as <-.
  destruct (clients w !! db_client db) as [o|] eqn:Ho; [|done].
  by exists db, o.
Qed.

Lemma admits_same s s' o o' :
  address s' = address s → accounts s' = accounts s →
  c_user o' = c_user o → c_auth_token o' = c_auth_token o →
  server_url o' = server_url o →
  admits s' o' = admits s o.
Proof.
  unfold admits, reaches, srv_login. by intros -> -> -> -> ->.
Qed.

Lemma can_connect_steps a b w w' c :
  steps a b w w' → can_connect w c = true → can_connect w' c = true.
Proof.
  intros Hs. unfold can_connect.
  destruct (clients w !! c) as [o|] eqn:Ho; [|done].
  destruct (st_creds _ _ _ _ Hs c o Ho) as (o' & -> & Hu & Hp & Hl).
  by rewrite (admits_same _ _ _ _ (st_address _ _ _ _ Hs)
                (st_accounts _ _ _ _ Hs) Hu Hp Hl).
Qed.

Lemma ready_steps a b w w' self :
  steps a b w w' → ready w self = true → ready w' self = true.
Proof.
  intros Hs. unfold ready. rewrite (st_CLIENT _ _ _ _ Hs).
  destruct (FlaskCloudant._db self) as [db|]; [|done].
  destruct (CLIENT w) as [c|]; [|done].
  intros [H1 H2]%andb_true_iff. rewrite H1. simpl.
  by eapply can_connect_steps.
Qed.

(** ** The existence check of [put] *)

Section check_existing.
Context (w : world) (l : nat) (db : database) (id : string).
Hypothesis Hl : heap w !! l = Some (ObjDocument db {["_id" := PStr id]}).
Hypothesis Hs : session_open w (db_client db) = true.


Lemma check_existing_absent override :
  srv_doc (remote w) (database_name db) id = None →
  check_existing l override w = (Ok tt, w).
Proof.
  intros Hd. unfold check_existing.
  rewrite (bind_eq _ _ _ _ _
    (exists_eval w _ _ _ id Hl (lookup_singleton_eq _ _) Hs)).
  rewrite Hd, bool_decide_eq_false_2 by (by intros [? ?]). simpl.
  rewrite (bind_eq _ _ _ _ _
    (exists_eval w _ _ _ id Hl (lookup_singleton_eq _ _) Hs)).
  by rewrite Hd, bool_decide_eq_false_2 by (by intros [? ?]).
Qed.

Lemma check_existing_overrides d :
  srv_doc (remote w) (database_name db) id = Some d →
  ∃ s', srv_delete (remote w) (database_name db) id
          (PStr (rev_token (s_rev d))) = inr s' ∧
        check_existing l true w = (Ok tt, set_remote s' w).
Proof.
  intros Hd.
  assert (l < length (heap w)) as Hlt by (by eapply lookup_lt_Some).
  set (w1 := set_heap (<[l := ObjDocument db (render id d)]> (heap w)) w).
  assert (heap w1 !! l = Some (ObjDocument db (render id d))) as Hl1
    by (by apply list_lookup_insert_eq).
  destruct (delete_eval w1 l db (render id d) id d Hl1) as (s' & Hs' & Hdel);
    try done.
  { apply lookup_insert_eq. }
  { unfold render. rewrite lookup_insert_ne by done. apply lookup_insert_eq. }
  exists s'. split; [done|]. unfold check_existing.
  rewrite (bind_eq _ _ _ _ _
    (exists_eval w _ _ _ id Hl (lookup_singleton_eq _ _) Hs)).
  rewrite Hd, bool_decide_eq_true_2 by eauto. simpl.
  rewrite (bind_eq _ _ _ _ _
    (exists_eval w _ _ _ id Hl (lookup_singleton_eq _ _) Hs)).
  rewrite Hd, bool_decide_eq_true_2 by eauto. simpl.
  rewrite (bind_eq _ _ _ _ _
    (fetch_eval w _ _ _ id d Hl (lookup_singleton_eq _ _) Hs Hd)).
  fold w1. rewrite Hdel. f_equal.
  unfold w1, set_heap, set_remote. simpl. f_equal.
  rewrite list_insert_insert_eq. by apply list_insert_id.
Qed.
End check_existing.

(** ** Setting the content *)

Lemma dict_to_map_cons k v items (f : gmap string pyval) :
  dict_to_map ((k, v) :: items) ∪ f = dict_to_map items ∪ <[k := v]> f.
Proof.
  unfold dict_to_map. rewrite reverse_cons, list_to_map_app. simpl.
  rewrite <- (assoc_L (∪)). f_equal.
  rewrite insert_empty. by rewrite <- insert_union_singleton_l.
Qed.

Lemma field_set_eval w l db f k v :
  heap w !! l = Some (ObjDocument db f) →
  match v with PNone => false | _ => true end = true →
  Cloudant.field_set l k v w =
    (Ok tt, set_heap (<[l := ObjDocument db (<[k := v]> f)]> (heap w)) w).
Proof.
  intros Hl Hv. unfold Cloudant.field_set.
  rewrite (bind_eq _ _ _ _ _ (lookup_document_eval _ _ _ _ Hl)).
  by destruct v.
Qed.

Lemma set_items_eval items : ∀ w l db f,
  heap w !! l = Some (ObjDocument db f) →
  no_None items = true →
  FlaskCloudantDocument.set_items l items w =
    (Ok tt,
     set_heap (<[l := ObjDocument db (dict_to_map items ∪ f)]> (heap w)) w).
Proof.
  induction items as [|[k v] items IH]; intros w l db f Hl Hn.
  - simpl. unfold ret. f_equal. unfold dict_to_map. simpl.
    rewrite (left_id_L ∅ (∪)). rewrite list_insert_id by done. by destruct w.
  - simpl in Hn. apply andb_true_iff in Hn as [Hv Hn].
    cbn [FlaskCloudantDocument.set_items].
    rewrite (bind_eq _ _ _ _ _ (field_set_eval _ _ _ _ k v Hl Hv)).
    erewrite IH; [|simpl; apply list_lookup_insert_eq; by eapply lookup_lt_Some
                  |done].
    f_equal. unfold set_heap; simpl. f_equal.
    rewrite list_insert_insert_eq. by rewrite dict_to_map_cons.
Qed.

Lemma user_items_no_None items : user_items items = true → no_None items = true.
Proof.
  unfold user_items, no_None. rewrite !forallb_forall.
  intros H kv Hkv. specialize (H kv Hkv).
  by apply andb_true_iff in H as [_ H].
Qed.

Lemma user_items_lookup items k :
  user_items items = true → k = "_id" ∨ k = "_rev" →
  dict_to_map items !! k = None.
Proof.
  intros Hu Hk. unfold dict_to_map.
  apply not_elem_of_list_to_map_1. rewrite fmap_reverse, elem_of_reverse.
  intros (kv & -> & Hin)%list_elem_of_fmap.
  unfold user_items in Hu. rewrite forallb_forall in Hu.
  apply list_elem_of_In in Hin. specialize (Hu kv Hin).
  apply andb_true_iff in Hu as [[H1 H2]%andb_true_iff _].
  apply negb_true_iff, String.eqb_neq in H1, H2. by destruct Hk.
Qed.

Lemma srv_delete_eval s dbname id dbm d :
  databases s !! dbname = Some dbm → dbm !! id = Some d →
  srv_delete s dbname id (PStr (rev_token (s_rev d))) =
    inr (set_databases (<[dbname := delete id dbm]> (databases s)) s).
Proof. intros H1 H2. unfold srv_delete. by rewrite H1, H2, String.eqb_refl. Qed.

Lemma truthy_str id : truthy (PStr id) = true → String.eqb id "" = false.
Proof. simpl. by intros ->%negb_true_iff. Qed.

Lemma create_eval w l db f id dbm :
  heap w !! l = Some (ObjDocument db f) →
  f !! "_rev" = None → f !! "_id" = Some (PStr id) →
  truthy (PStr id) = true →
  session_open w (db_client db) = true →
  databases (remote w) !! database_name db = Some dbm → dbm !! id = None →
  Cloudant.create l w =
    (Ok tt,
     set_heap
       (<[l := ObjDocument db
                 (<["_rev" := PStr (rev_token (next_rev (remote w)))]>
                    (<["_id" := PStr id]> f))]> (heap w))
       (set_remote
          {| address := address (remote w);
             accounts := accounts (remote w);
             databases :=
               <[database_name db :=
                   <[id := {| s_rev := next_rev (remote w);
                              s_body := delete "_id" (delete "_rev" f) |}]> dbm]>
                 (databases (remote w));
             next_rev := S (next_rev (remote w));
             next_uuid := next_uuid (remote w) |} w)).
Proof.
  intros Hl Hrev Hid Ht Hs Hdb Hdoc. unfold Cloudant.create.
  rewrite (bind_eq _ _ _ _ _ (lookup_document_eval _ _ _ _ Hl)).
  rewrite Hrev. rewrite (bind_eq _ _ _ _ _ (request_eval _ _ Hs)).
  unfold bind, get_world, srv_post.
  by rewrite Hdb, Hid, (truthy_str _ Ht), Hdoc.
Qed.

Lemma put_unfold self content id override :
  FlaskCloudant.put self content id override =
    (__connect__ ;;;
     db <- FlaskCloudant.getattr_db self ;;
     cloudant_doc <- Cloudant.Document db id ;;
     check_existing cloudant_doc override ;;;
     doc <- FlaskCloudantDocument.__init__ cloudant_doc false ;;
     set_content doc content ;;;
     FlaskCloudantDocument.save doc ;;;
     __disconnect__ ;;;
     ret doc).
Proof. done. Qed.

Lemma set_content_dict h items w db f :
  heap w !! FlaskCloudantDocument.document h = Some (ObjDocument db f) →
  no_None items = true →
  set_content h (PDict items) w =
    (Ok tt,
     set_heap (<[FlaskCloudantDocument.document h :=
                   ObjDocument db (dict_to_map items ∪ f)]> (heap w)) w).
Proof.
  intros Hl Hn. unfold set_content, try_except, FlaskCloudantDocument.content.
  simpl is_dict. unfold assert. rewrite bind_assoc, bind_ret_l. simpl dict_items.
  rewrite bind_assoc.
  by rewrite (bind_eq _ _ _ _ _ (set_items_eval _ _ _ _ _ Hl Hn)).
Qed.

Lemma content_invalid h v w :
  is_dict v = false → v ≠ PNone →
  FlaskCloudantDocument.content h v w = (Raise AssertionError, w).
Proof. intros Hd Hn. by destruct v. Qed.

Lemma set_content_invalid h v w :
  is_dict v = false → v ≠ PNone →
  set_content h v w =
    (Raise (FlaskCloudantException 700 [PStr "Content"; PType "dict"]), w).
Proof.
  intros Hd Hn. unfold set_content, try_except.
  by rewrite (bind_raise_eq _ _ _ _ _ (content_invalid h v w Hd Hn)).
Qed.

Lemma refresh_missing h w db f c o id :
  CLIENT w = Some c → clients w !! c = Some o →
  admits (remote w) o = true →
  heap w !! FlaskCloudantDocument.document h = Some (ObjDocument db f) →
  f !! "_id" = Some (PStr id) →
  (db_client db = c ∨ session_open w (db_client db) = true) →
  srv_doc (remote w) (database_name db) id = None →
  FlaskCloudantDocument.refresh h w =
    (Raise (HTTPError 404), set_clients (<[c := opened o]> (clients w)) w).
Proof.
  intros Hc Ho Hl Hcell Hid Hs Hgone. unfold FlaskCloudantDocument.refresh.
  rewrite (bind_eq _ _ _ _ _ (connect_eval w c o Hc Ho Hl)).
  set (w1 := set_clients _ w).
  by rewrite (bind_raise_eq _ _ _ _ _
    (fetch_missing w1 _ db f id Hcell Hid
       (session_open_connect w c o _ Ho Hl Hs) Hgone)).
Qed.

Lemma set_content_None_missing h w db f c o id :
  CLIENT w = Some c → clients w !! c = Some o →
  admits (remote w) o = true →
  heap w !! FlaskCloudantDocument.document h = Some (ObjDocument db f) →
  f !! "_id" = Some (PStr id) →
  (db_client db = c ∨ session_open w (db_client db) = true) →
  srv_doc (remote w) (database_name db) id = None →
  set_content h PNone w =
    (Raise (HTTPError 404), set_clients (<[c := opened o]> (clients w)) w).
Proof.
  intros Hc Ho Hl Hcell Hid Hs Hgone.
  unfold set_content, try_except, FlaskCloudantDocument.content.
  rewrite bind_assoc.
  by rewrite (bind_raise_eq _ _ _ _ _
    (refresh_missing h w db f c o id Hc Ho Hl Hcell Hid Hs Hgone)).
Qed.

Section put.
Context (self : FlaskCloudant.instance) (w : world) (id : string).
Context (db : database) (c : nat) (o : client).
Hypothesis Hdb : FlaskCloudant._db self = Some db.
Hypothesis Hc : CLIENT w = Some c.
Hypothesis Ho : clients w !! c = Some o.
Hypothesis Hlogin : admits (remote w) o = true.
Hypothesis Hsess : db_client db = c ∨ session_open w (db_client db) = true.
Hypothesis Ht : truthy (PStr id) = true.

Let w2 := prepared w c o db id.
Let l := length (heap w).

Lemma put_prefix content override :
  FlaskCloudant.put self content (Some id) override w =
    (check_existing l override ;;;
     doc <- FlaskCloudantDocument.__init__ l false ;;
     set_content doc content ;;;
     FlaskCloudantDocument.save doc ;;;
     __disconnect__ ;;;
     ret doc) w2.
Proof.
  rewrite put_unfold.
  rewrite (bind_eq _ _ _ _ _ (connect_eval _ _ _ Hc Ho Hlogin)).
  rewrite (bind_eq _ _ _ _ _ (getattr_db_eval _ _ _ Hdb)).
  by rewrite (bind_eq _ _ _ _ _ (Document_eval _ _ _ Ht)).
Qed.

Lemma prepared_cell :
  heap w2 !! l = Some (ObjDocument db {["_id" := PStr id]}).
Proof. apply lookup_new. Qed.

Lemma prepared_session : session_open w2 (db_client db) = true.
Proof. by apply session_open_connect. Qed.

Lemma prepared_client : clients w2 !! c = Some (opened o).
Proof. simpl. apply list_lookup_insert_eq. by eapply lookup_lt_Some. Qed.


(** After the existence check: the store without the document at [id]. *)
Lemma put_checked override :
  (override = true ∨ srv_doc (remote w) (database_name db) id = None) →
  ∃ s', check_existing l override w2 = (Ok tt, set_remote s' w2) ∧
        address s' = address (remote w) ∧
        accounts s' = accounts (remote w) ∧
        next_rev s' = next_rev (remote w) ∧
        databases s' !! database_name db =
          delete id <$> databases (remote w) !! database_name db ∧
        (∀ n, n ≠ database_name db →
              databases s' !! n = databases (remote w) !! n) ∧
        (srv_doc (remote w) (database_name db) id = None →
         s' = remote w).
Proof.
  intros Hcase.
  destruct (srv_doc (remote w) (database_name db) id) as [d|] eqn:Hd.
  - destruct Hcase as [->|?]; [|done].
    destruct (check_existing_overrides w2 l db id prepared_cell
                prepared_session d Hd) as (s' & Hs' & Hck).
    destruct (srv_doc_inv _ _ _ _ Hd) as (dbm & Hdbm & Hdoc).
    change (remote w2) with (remote w) in Hs'.
    rewrite (srv_delete_eval _ _ _ _ _ Hdbm Hdoc) in Hs'.
    injection Hs' as <-.
    eexists. split; [done|]. simpl. rewrite Hdbm. simpl.
    split; [done|]. split; [done|]. split; [done|].
    split; [apply lookup_insert_eq|].
    split; [|done]. intros n Hn. by apply lookup_insert_ne.
  - exists (remote w). split.
    + rewrite (check_existing_absent w2 l db id prepared_cell
                 prepared_session override Hd).
      done.
    + repeat split; try done.
      unfold srv_doc in Hd.
      destruct (databases (remote w) !! database_name db) as [dbm|];
        simpl in *; [|done].
      f_equal. symmetry. by apply delete_id.
Qed.
Lemma user_fields_merge items :
  user_items items = true →
  dict_to_map items ∪ {["_id" := PStr id]}
    = <["_id" := PStr id]> (dict_to_map items).
Proof.
  intros Hu. symmetry. apply insert_union_singleton_r.
  apply user_items_lookup; auto.
Qed.

Lemma user_fields_body items :
  user_items items = true →
  delete "_id" (delete "_rev" (<["_id" := PStr id]> (dict_to_map items)))
    = dict_to_map items.
Proof.
  intros Hu. rewrite delete_insert_ne by done.
  rewrite delete_insert_eq.
  rewrite !delete_id; [done| |]; try apply user_items_lookup; auto.
  rewrite delete_id; apply user_items_lookup; auto.
Qed.

Lemma put_stores items override dbm :
  (override = true ∨ srv_doc (remote w) (database_name db) id = None) →
  user_items items = true →
  databases (remote w) !! database_name db = Some dbm →
  let d' := {| s_rev := next_rev (remote w);
               s_body := dict_to_map items |} in
  ∃ w', FlaskCloudant.put self (PDict items) (Some id) override w =
          (Ok {| FlaskCloudantDocument.document := l |}, w') ∧
        databases (remote w') !! database_name db = Some (<[id := d']> dbm) ∧
        (∀ n, n ≠ database_name db →
              databases (remote w') !! n = databases (remote w) !! n) ∧
        fields_at w' l = Some (render id d').
Proof.
  intros Hcase Hu Hdbm d'.
  destruct (put_checked override Hcase)
    as (s' & Hck & Hadr & Hacc & Hrev & Hdbs & Hothers & _).
  rewrite Hdbm in Hdbs. simpl in Hdbs.
  rewrite put_prefix. rewrite (bind_eq _ _ _ _ _ Hck).
  unfold FlaskCloudantDocument.__init__. rewrite bind_ret_l.
  set (w3 := set_remote s' w2).
  set (h := {| FlaskCloudantDocument.document := l |}).
  assert (session_open w3 (db_client db) = true) as Hs3
    by (by rewrite (session_open_same w2 w3 _ eq_refl Hadr),
           prepared_session).
  assert (heap w3 !! FlaskCloudantDocument.document h
            = Some (ObjDocument db {["_id" := PStr id]})) as Hcell
    by apply prepared_cell.
  rewrite (bind_eq _ _ _ _ _
    (set_content_dict h items w3 db _ Hcell (user_items_no_None _ Hu))).
  rewrite (user_fields_merge _ Hu).
  set (f := <["_id" := PStr id]> (dict_to_map items)).
  set (w4 := set_heap _ w3).
  assert (heap w4 !! l = Some (ObjDocument db f)) as Hcell4.
  { simpl. apply list_lookup_insert_eq.
    rewrite length_app. simpl. unfold l. lia. }
  unfold FlaskCloudantDocument.save.
  rewrite (bind_eq _ _ _ _ _
    (create_eval w4 l db f id (delete id dbm) Hcell4
       ltac:(unfold f; rewrite lookup_insert_ne by done;
             apply user_items_lookup; auto)
       ltac:(apply lookup_insert_eq) Ht Hs3 Hdbs
       ltac:(apply lookup_delete_eq))).
  set (w5 := set_heap _ _).
  assert (clients w5 !! c = Some (opened o)) as Ho5 by apply prepared_client.
  rewrite (bind_eq _ _ _ _ _ (disconnect_eval w5 c (opened o) Hc Ho5)).
  eexists. split; [done|]. simpl.
  rewrite lookup_insert_eq, insert_delete_eq.
  unfold f. rewrite (user_fields_body _ Hu), Hrev.
  split; [done|]. split.
  - intros n Hn. rewrite lookup_insert_ne by done. by apply Hothers.
  - unfold fields_at, w5, w4, w3, w2, prepared. simpl. unfold l.
    rewrite list_insert_insert_eq, insert_new, lookup_new. simpl. f_equal.
    rewrite Hrev.
    unfold render, f. simpl. rewrite insert_insert_eq.
    by rewrite insert_insert_ne.
Qed.

Lemma put_invalid content override :
  (override = true ∨ srv_doc (remote w) (database_name db) id = None) →
  is_dict content = false →
  ∃ e w', FlaskCloudant.put self content (Some id) override w
            = (Raise e, w') ∧
     (content ≠ PNone →
      e = FlaskCloudantException 700 [PStr "Content"; PType "dict"]) ∧
     databases (remote w') !! database_name db =
       delete id <$> databases (remote w) !! database_name db ∧
     (∀ n, n ≠ database_name db →
           databases (remote w') !! n = databases (remote w) !! n) ∧
     (srv_doc (remote w) (database_name db) id = None →
      remote w' = remote w).
Proof.
  intros Hcase Hnd.
  destruct (put_checked override Hcase)
    as (s' & Hck & Hadr & Hacc & Hrev & Hdbs & Hothers & Hsame).
  rewrite put_prefix. rewrite (bind_eq _ _ _ _ _ Hck).
  unfold FlaskCloudantDocument.__init__. rewrite bind_ret_l.
  set (w3 := set_remote s' w2).
  set (h := {| FlaskCloudantDocument.document := l |}).
  assert (content = PNone ∨ content ≠ PNone) as [->|Hn]
    by (destruct content; first [by left | by right]).
  - (* [content(None)] reads the document back, which is not there. *)
    assert (clients w3 !! c = Some (opened o)) as Ho3
      by apply prepared_client.
    assert (admits (remote w3) (opened o) = true) as Hl3.
    { rewrite <- Hlogin.
      exact (admits_same (remote w) s' o (opened o) Hadr Hacc
               eq_refl eq_refl eq_refl). }
    assert (session_open w3 (db_client db) = true) as Hs3
      by (by rewrite (session_open_same w2 w3 _ eq_refl Hadr),
             prepared_session).
    assert (heap w3 !! FlaskCloudantDocument.document h
              = Some (ObjDocument db {["_id" := PStr id]})) as Hcell
      by apply prepared_cell.
    assert (srv_doc (remote w3) (database_name db) id = None) as Hgone.
    { unfold srv_doc. simpl. rewrite Hdbs.
      destruct (databases (remote w) !! database_name db); simpl; [|done].
      apply lookup_delete_eq. }
    rewrite (bind_raise_eq _ _ _ _ _
      (set_content_None_missing h w3 db _ c (opened o) id Hc Ho3 Hl3 Hcell
         (lookup_singleton_eq _ _) (or_intror Hs3) Hgone)).
    do 2 eexists. split; [done|]. simpl.
    split; [done|]. split; [done|]. split; [done|].
    intros Hnone. by rewrite Hsame.
  - rewrite (bind_raise_eq _ _ _ _ _ (set_content_invalid h content w3 Hnd Hn)).
    do 2 eexists. split; [done|]. simpl.
    split; [done|]. split; [done|]. split; [done|].
    intros Hnone. by rewrite Hsame.
Qed.
End put.

(** ** [delete] after [get] *)

Lemma exists_true_inv l w w' :
  Cloudant.exists_ l w = (Ok true, w') →
  ∃ db f id, heap w !! l = Some (ObjDocument db f) ∧
             f !! "_id" = Some (PStr id) ∧
             session_open w (db_client db) = true ∧
             is_Some (srv_doc (remote w) (database_name db) id) ∧
             w' = w.
Proof.
  unfold Cloudant.exists_, Cloudant.lookup_document. unfold bind at 1.
  destruct (heap w !! l) as [[db f|f]|] eqn:Hl; try done.
  destruct (f !! "_id") as [v|] eqn:Hid; [destruct v|]; intros H;
    try (by unfold ret in H);
    try (apply bind_Ok in H as ([] & w1 & Hr & H); by unfold raise in H).
  apply bind_Ok in H as ([] & w1 & Hr & H).
  apply request_Ok_inv in Hr as [Hs ->].
  unfold bind, get_world, ret in H. injection H as H <-.
  apply bool_decide_eq_true in H. by exists db, f, s.
Qed.

Lemma session_open_other w c o c' :
  c' ≠ c → session_open (set_clients (<[c := o]> (clients w)) w) c'
           = session_open w c'.
Proof.
  intros Hne. unfold session_open. simpl. by rewrite list_lookup_insert_ne.
Qed.

(** What a successful [get] tells about the world it leaves. *)
Lemma get_Ok_inv self document_id w h w1 :
  FlaskCloudant.get self document_id w = (Ok h, w1) →
  ∃ db c o id d,
    FlaskCloudant._db self = Some db ∧ document_id = Some id ∧
    CLIENT w1 = Some c ∧ clients w1 !! c = Some o ∧
    admits (remote w1) o = true ∧
    heap w1 !! FlaskCloudantDocument.document h
      = Some (ObjDocument db (render id d)) ∧
    (db_client db = c ∨ session_open w1 (db_client db) = true) ∧
    srv_doc (remote w1) (database_name db) id = Some d ∧
    remote w1 = remote w.
Proof.
  intros H. pose proof H as Hget. unfold FlaskCloudant.get in H.
  apply bind_Ok in H as ([] & wa & Hconn & H).
  apply connect_Ok_inv in Hconn as (c & o & Hc & Ho & Hl & ->).
  apply bind_Ok in H as (db & wb & Hdb & H).
  unfold FlaskCloudant.getattr_db in Hdb.
  destruct (FlaskCloudant._db self) as [db'|] eqn:Hself; [|done].
  injection Hdb as -> <-.
  apply bind_Ok in H as (l & wc & Hdoc & H).
  unfold Cloudant.Document, Cloudant.alloc in Hdoc. injection Hdoc as <- <-.
  apply bind_Ok in H as (doc & wd & Hinit & _).
  unfold FlaskCloudantDocument.__init__ in Hinit. cbv iota in Hinit.
  apply bind_Ok in Hinit as (e & we & Hex & Hinit).
  destruct e.
  2:{ apply bind_Ok in Hinit as (? & ? & _ & Hinit). done. }
  apply exists_true_inv in Hex as (db' & f & id & Hcell & Hid & Hs & [d Hd] & ->).
  simpl in Hcell. rewrite lookup_new in Hcell. injection Hcell as <- <-.
  assert (document_id = Some id ∧ truthy (PStr id) = true) as [-> Ht].
  { destruct (truthy (of_config document_id)) eqn:Ht.
    - destruct document_id as [s|]; [|done]. simpl in Hid.
      rewrite lookup_singleton_eq in Hid. by injection Hid as ->.
    - by rewrite lookup_empty in Hid. }
  simpl in Hd.
  assert (db_client db = c ∨ session_open w (db_client db) = true) as Hsess.
  { destruct (decide (db_client db = c)) as [|Hne]; [by left|right].
    by rewrite <- (session_open_other w c (opened o)). }
  rewrite (get_eval self db c o id w d Hself Hc Ho Hl Hsess Ht Hd) in Hget.
  injection Hget as <- <-. simpl.
  exists db, c, (closed (opened o)), id, d.
  split; [done|]. split; [done|]. split; [done|].
  split. { apply list_lookup_insert_eq. by eapply lookup_lt_Some. }
  split; [done|]. split; [apply lookup_new|].
  split; [|done].
  destruct (decide (db_client db = c)) as [|Hne]; [by left|right].
  destruct Hsess as [|Hsess]; [done|].
  unfold session_open in *. simpl. by rewrite list_lookup_insert_ne.
Qed.

(** After a successful [get] the second connection and the removal of the
    document cannot fail. *)
Lemma delete_tail w l db c o id d :
  CLIENT w = Some c → clients w !! c = Some o →
  admits (remote w) o = true →
  heap w !! l = Some (ObjDocument db (render id d)) →
  (db_client db = c ∨ session_open w (db_client db) = true) →
  srv_doc (remote w) (database_name db) id = Some d →
  ∃ w2 w3, __connect__ w = (Ok tt, w2) ∧
           Cloudant.delete l w2 = (Ok tt, w3) ∧
           CLIENT w3 = Some c ∧
           clients w3 !! c = Some (opened o) ∧
           databases (remote w3) !! database_name db =
             delete id <$> databases (remote w) !! database_name db ∧
           (∀ n, n ≠ database_name db →
                 databases (remote w3) !! n = databases (remote w) !! n).
Proof.
  intros Hc Ho Hl Hcell Hs Hd.
  destruct (srv_doc_inv _ _ _ _ Hd) as (dbm & Hdbm & Hdoc).
  set (w2 := set_clients (<[c := opened o]> (clients w)) w).
  destruct (delete_eval w2 l db (render id d) id d) as (s' & Hs' & Hdel);
    try done.
  { apply lookup_insert_eq. }
  { unfold render. rewrite lookup_insert_ne by done. apply lookup_insert_eq. }
  { by apply session_open_connect. }
  change (remote w2) with (remote w) in Hs'.
  rewrite (srv_delete_eval _ _ _ _ _ Hdbm Hdoc) in Hs'. injection Hs' as <-.
  exists w2. eexists. split; [by apply connect_eval|]. split; [exact Hdel|].
  simpl. split; [done|].
  split. { apply list_lookup_insert_eq. by eapply lookup_lt_Some. }
  rewrite Hdbm. split; [apply lookup_insert_eq|].
  intros n Hn. by apply lookup_insert_ne.
Qed.

Lemma bind_ext_on {A B} (m : M A) (k1 k2 : A → M B) w :
  (∀ a w1, m w = (Ok a, w1) → k1 a w1 = k2 a w1) →
  bind m k1 w = bind m k2 w.
Proof. unfold bind. destruct (m w) as [[a|e] w1]; auto. Qed.

Lemma delete_refines self document_id w :
  FlaskCloudant.delete self document_id w = delete_spec self document_id w.
Proof.
  unfold FlaskCloudant.delete, delete_spec, scoped.
  apply bind_ext_on. intros h w1 Hget.
  apply get_Ok_inv in Hget
    as (db & c & o & id & d & _ & _ & Hc & Ho & Hl & Hcell & Hs & Hd & _).
  destruct (delete_tail w1 _ db c o id d Hc Ho Hl Hcell Hs Hd)
    as (w2 & w3 & Hconn & Hdel & _).
  rewrite !(bind_eq _ _ _ _ _ Hconn).
  unfold FlaskCloudantDocument.delete. rewrite (bind_eq _ _ _ _ _ Hdel).
  rewrite Hdel. unfold bind.
  by destruct (__disconnect__ w3) as [[[]|e] w4].
Qed.

Section delete.
Context (self : FlaskCloudant.instance) (w : world) (id : string).
Context (db : database) (c : nat) (o : client).
Hypothesis Hdb : FlaskCloudant._db self = Some db.
Hypothesis Hc : CLIENT w = Some c.
Hypothesis Ho : clients w !! c = Some o.
Hypothesis Hlogin : admits (remote w) o = true.
Hypothesis Hsess : db_client db = c ∨ session_open w (db_client db) = true.
Hypothesis Ht : truthy (PStr id) = true.

Lemma delete_missing :
  srv_doc (remote w) (database_name db) id = None →
  (FlaskCloudant.delete self (Some id) w).1
    = Raise (FlaskCloudantException 404 [PStr id]).
Proof.
  intros Hd. unfold FlaskCloudant.delete.
  by rewrite (bind_raise_eq _ _ _ _ _
    (get_missing self db c o id w Hdb Hc Ho Hlogin Hsess Ht Hd)).
Qed.

Lemma delete_found d :
  srv_doc (remote w) (database_name db) id = Some d →
  ∃ w', FlaskCloudant.delete self (Some id) w = (Ok tt, w') ∧
        databases (remote w') !! database_name db =
          delete id <$> databases (remote w) !! database_name db ∧
        (∀ n, n ≠ database_name db →
              databases (remote w') !! n = databases (remote w) !! n).
Proof.
  intros Hd. unfold FlaskCloudant.delete.
  rewrite (bind_eq _ _ _ _ _
    (get_eval self db c o id w d Hdb Hc Ho Hlogin Hsess Ht Hd)).
  set (w1 := {| CLIENT := CLIENT w |}).
  destruct (delete_tail w1 (length (heap w)) db c (closed (opened o)) id d)
    as (w2 & w3 & Hconn & Hdel & Hc3 & Ho3 & Hdbs & Hothers); try done.
  { simpl. apply list_lookup_insert_eq. by eapply lookup_lt_Some. }
  { apply lookup_new. }
  { destruct (decide (db_client db = c)) as [|Hne]; [by left|right].
    destruct Hsess as [|Hs]; [done|].
    unfold session_open in *. simpl. by rewrite list_lookup_insert_ne. }
  rewrite (bind_eq _ _ _ _ _ Hconn).
  unfold FlaskCloudantDocument.delete. rewrite (bind_eq _ _ _ _ _ Hdel).
  rewrite (disconnect_eval w3 c _ Hc3 Ho3). eauto.
Qed.
End delete.

(** ** The handle's own operations *)

Lemma handle_ready_inv w h dbname id :
  handle_ready w h dbname id = true →
  ∃ db f o,
    heap w !! FlaskCloudantDocument.document h = Some (ObjDocument db f) ∧
    f !! "_id" = Some (PStr id) ∧ database_name db = dbname ∧
    CLIENT w = Some (db_client db) ∧
    clients w !! db_client db = Some o ∧
    admits (remote w) o = true.
Proof.
  unfold handle_ready, can_connect.
  destruct (heap w !! _) as [[db f|?]|]; try done.
  destruct (CLIENT w) as [c|]; [|done].
  intros [[[H1 H2]%andb_true_iff H3]%andb_true_iff H4]%andb_true_iff.
  apply bool_decide_eq_true in H1 as <-, H3.
  destruct (clients w !! db_client db) as [o|] eqn:Ho; [|done].
  destruct (f !! "_id") as [[]|] eqn:Hid; try done.
  apply bool_decide_eq_true in H4 as ->.
  by exists db, f, o.
Qed.

Lemma handle_exists_eval w h dbname id :
  handle_ready w h dbname id = true →
  ∃ c o,
    CLIENT w = Some c ∧ clients w !! c = Some o ∧
    FlaskCloudantDocument.exists_ h w =
      (Ok (bool_decide (is_Some (srv_doc (remote w) dbname id))),
       set_clients (<[c := closed (opened o)]> (clients w)) w).
Proof.
  intros (db & f & o & Hcell & Hid & <- & Hc & Ho & Hl)%handle_ready_inv.
  exists (db_client db), o. split; [done|]. split; [done|].
  unfold FlaskCloudantDocument.exists_.
  rewrite (bind_eq _ _ _ _ _ (connect_eval _ _ _ Hc Ho Hl)).
  set (w1 := set_clients _ w).
  rewrite (bind_eq _ _ _ _ _
    (exists_eval w1 _ db f id Hcell Hid
       (session_open_connect w _ o _ Ho Hl (or_introl eq_refl)))).
  assert (clients w1 !! db_client db = Some (opened o)) as Ho1.
  { simpl. apply list_lookup_insert_eq. by eapply lookup_lt_Some. }
  rewrite (bind_eq _ _ _ _ _ (disconnect_eval w1 _ _ Hc Ho1)).
  unfold ret. f_equal. unfold w1, set_clients. simpl. f_equal.
  apply list_insert_insert_eq.
Qed.

Lemma dict_eval w l db f :
  heap w !! l = Some (ObjDocument db f) →
  Cloudant.dict l w = (Ok (length (heap w)), set_heap (heap w ++ [ObjDict f]) w).
Proof.
  intros Hl. unfold Cloudant.dict.
  by rewrite (bind_eq _ _ _ _ _ (lookup_document_eval _ _ _ _ Hl)).
Qed.

Lemma content_get_eval w h dbname id d :
  handle_ready w h dbname id = true →
  srv_doc (remote w) dbname id = Some d →
  ∃ c o db,
    CLIENT w = Some c ∧ clients w !! c = Some o ∧
    FlaskCloudantDocument.content h PNone w =
      (Ok (Some (length (heap w))),
       {| CLIENT := CLIENT w;
          clients := <[c := closed (opened o)]> (clients w);
          heap := <[FlaskCloudantDocument.document h :=
                      ObjDocument db (render id d)]> (heap w)
                  ++ [ObjDict (render id d)];
          remote := remote w |}).
Proof.
  intros (db & f & o & Hcell & Hid & <- & Hc & Ho & Hl)%handle_ready_inv Hd.
  exists (db_client db), o, db. split; [done|]. split; [done|].
  unfold FlaskCloudantDocument.content, FlaskCloudantDocument.refresh.
  rewrite !bind_assoc.
  rewrite (bind_eq _ _ _ _ _ (connect_eval _ _ _ Hc Ho Hl)).
  set (w1 := set_clients _ w).
  rewrite !bind_assoc.
  rewrite (bind_eq _ _ _ _ _
    (fetch_eval w1 _ db f id d Hcell Hid
       (session_open_connect w _ o _ Ho Hl (or_introl eq_refl)) Hd)).
  set (w2 := set_heap _ w1).
  assert (clients w2 !! db_client db = Some (opened o)) as Ho2.
  { simpl. apply list_lookup_insert_eq. by eapply lookup_lt_Some. }
  rewrite (bind_eq _ _ _ _ _ (disconnect_eval w2 _ _ Hc Ho2)).
  set (w3 := set_clients _ w2).
  assert (heap w3 !! FlaskCloudantDocument.document h
            = Some (ObjDocument db (render id d))) as Hcell3.
  { simpl. apply list_lookup_insert_eq. by eapply lookup_lt_Some. }
  rewrite (bind_eq _ _ _ _ _ (dict_eval w3 _ db _ Hcell3)).
  unfold ret. f_equal.
  - simpl. by rewrite length_insert.
  - unfold w3, w2, w1, set_heap, set_clients. simpl. f_equal.
    apply list_insert_insert_eq.
Qed.

(** ** [init_app] *)

Lemma init_app_eval self app w :
  FlaskCloudant.init_app self app w =
    if answers w app then
      if accepts w app then
        match config app !! "COUCH_DB" with
        | None => (Raise (TypeError "quote_plus"),
                   replaced w (opened (new_client app)))
        | Some name =>
            match databases (remote w) !! name with
            | None => (Raise (FlaskCloudantException 400 [PStr name]),
                       replaced w (opened (new_client app)))
            | Some _ =>
                (Ok {| FlaskCloudant._db :=
                         Some {| db_client := length (clients w);
                                 database_name := name |} |},
                 replaced w (closed (opened (new_client app))))
            end
        end
      else
        (Raise (FlaskCloudantException 401
                  [of_config (config app !! "COUCH_USER")]),
         replaced w (rejected (new_client app)))
    else
      (Raise (no_answer (config app !! "COUCH_URL")),
       replaced w (rejected (new_client app))).
Proof.
  unfold FlaskCloudant.init_app, try_except, accepts, answers.
  set (c := length (clients w)). set (o := new_client app).
  set (w1 := set_CLIENT (Some c) (set_clients (clients w ++ [o]) w)).
  assert (CLIENT w1 = Some c) as Hc by done.
  assert (clients w1 !! c = Some o) as Ho by apply lookup_new.
  change (Cloudant.CouchDB _ _ _) with
    (λ w : world, (Ok (length (clients w)), set_clients (clients w ++ [o]) w)).
  unfold bind at 1. unfold bind at 1. unfold modify. fold c. fold w1.
  destruct (reaches (remote w) (config app !! "COUCH_URL")) eqn:Hr.
  2:{ unfold __connect__, bind, get_world, Cloudant.connect,
        Cloudant.lookup_client, bind, get_world, Cloudant.store_client, modify.
      rewrite Hc, Ho. change (remote w1) with (remote w).
      change (server_url o) with (config app !! "COUCH_URL").
      rewrite Hr. simpl. unfold raise.
      destruct (config app !! "COUCH_URL"); simpl; f_equal;
        unfold w1, replaced, set_clients, set_CLIENT; simpl; f_equal;
        apply insert_new. }
  destruct (srv_login (remote w) (config app !! "COUCH_USER")
              (config app !! "COUCH_PWD")) eqn:Hl.
  - assert (admits (remote w1) o = true) as Hadm
      by (unfold admits; apply andb_true_iff; by split).
    rewrite (bind_eq _ _ _ _ _ (connect_eval w1 c o Hc Ho Hadm)).
    set (w2 := set_clients _ w1).
    assert (session_open w2 c = true) as Hs
      by (by apply (session_open_connect w1 c o c Ho); [|left]).
    assert (clients w2 !! c = Some (opened o)) as Ho2.
    { simpl. apply list_lookup_insert_eq. by eapply lookup_lt_Some. }
    unfold FlaskCloudant.CLIENT_getitem, Cloudant.getitem.
    rewrite bind_assoc. unfold bind at 1. unfold get_world at 1.
    change (CLIENT w2) with (Some c). cbv iota.
    rewrite bind_assoc. rewrite (bind_eq _ _ _ _ _ (request_eval w2 c Hs)).
    destruct (config app !! "COUCH_DB") as [name|] eqn:Hname.
    + unfold bind at 1. unfold bind at 1. unfold get_world at 1.
      change (remote w2) with (remote w).
      destruct (databases (remote w) !! name) as [dbm|] eqn:Hdbm.
      * unfold ret at 1.
        rewrite (bind_eq _ _ _ _ _ (disconnect_eval w2 c _ Hc Ho2)).
        unfold ret. f_equal. unfold w2, w1, replaced, set_clients, set_CLIENT.
        simpl. f_equal. fold c.
        rewrite list_insert_insert_eq. apply insert_new.
      * unfold raise at 1. simpl. unfold raise. f_equal.
        unfold w2, w1, replaced, set_clients, set_CLIENT. simpl. f_equal.
        apply insert_new.
    + unfold bind, raise. simpl. f_equal.
      unfold w2, w1, replaced, set_clients, set_CLIENT. simpl. f_equal.
      apply insert_new.
  - unfold __connect__, bind, get_world, Cloudant.connect,
      Cloudant.lookup_client, bind, get_world, Cloudant.store_client, modify.
    rewrite Hc, Ho. change (remote w1) with (remote w).
    change (server_url o) with (config app !! "COUCH_URL").
    change (c_user o) with (config app !! "COUCH_USER").
    change (c_auth_token o) with (config app !! "COUCH_PWD").
    rewrite Hr, Hl. simpl. unfold raise. f_equal.
    unfold w1, replaced, set_clients, set_CLIENT. simpl. f_equal.
    apply insert_new.
Qed.

Lemma client_of_replaced w o : client_of (replaced w o) = Some o.
Proof. unfold client_of, replaced. simpl. apply lookup_new. Qed.

(** Whatever the configuration and the outcome, [init_app] has replaced
    the class attribute by a new client object and called its
    [connect()]. *)
Lemma init_app_replaces self app w :
  ∃ o, (FlaskCloudant.init_app self app w).2 = replaced w o ∧ connects o = 1.
Proof.
  rewrite init_app_eval. repeat case_match; eexists; split; done.
Qed.

(** An instance is ready in the world a successful [init_app] leaves. *)
Lemma ready_init_app self app w self' w' :
  FlaskCloudant.init_app self app w = (Ok self', w') → ready w' self' = true.
Proof.
  rewrite init_app_eval. destruct (answers w app) eqn:Hr; [|done].
  destruct (accepts w app) eqn:Hl; [|done].
  repeat case_match; try done. intros [= <- <-].
  unfold ready, can_connect. simpl. rewrite lookup_new.
  rewrite bool_decide_eq_true_2 by done.
  exact (proj2 (andb_true_iff _ _) (conj Hr Hl)).
Qed.

(** ** What reaches the store *)

Lemma keeps_inv {A} (m : M A) w r w' :
  keeps_remote m → m w = (r, w') → remote w' = remote w.
Proof. intros Hk E. specialize (Hk w). by rewrite E in Hk. Qed.

Lemma keeps_bind {A B} (m : M A) (k : A → M B) :
  keeps_remote m → (∀ a, keeps_remote (k a)) → keeps_remote (bind m k).
Proof.
  intros Hm Hk w. unfold bind. specialize (Hm w).
  destruct (m w) as [[a|e] w1]; simpl in *; [|done].
  by rewrite Hk.
Qed.

Lemma keeps_ret {A} (a : A) : keeps_remote (ret a).
Proof. done. Qed.

Lemma keeps_raise {A} e : keeps_remote (@raise A e).
Proof. done. Qed.

Lemma keeps_get_world : keeps_remote get_world.
Proof. done. Qed.

Ltac keeps_cases :=
  repeat first
    [ progress intros
    | apply keeps_bind
    | apply keeps_ret | apply keeps_raise | apply keeps_get_world
    | match goal with
      | |- keeps_remote (let '(_, _) := ?d in _) => destruct d
      | |- keeps_remote (match ?x with _ => _ end) => destruct x eqn:?
      | |- keeps_remote (if ?x then _ else _) => destruct x eqn:?
      | |- keeps_remote (Cloudant.lookup_client _) =>
          intros w; unfold Cloudant.lookup_client; by case_match
      | |- keeps_remote (Cloudant.lookup_document _) =>
          intros w; unfold Cloudant.lookup_document; by repeat case_match
      | |- keeps_remote (Cloudant.store_client _ _) => by intros w
      | |- keeps_remote (Cloudant.store_fields _ _ _) => by intros w
      | |- keeps_remote (Cloudant.alloc _) => by intros w
      | |- keeps_remote (Cloudant.request _) => unfold Cloudant.request
      end ].

Lemma keeps_connect : keeps_remote __connect__.
Proof. unfold __connect__, Cloudant.connect. keeps_cases. Qed.

Lemma keeps_disconnect : keeps_remote __disconnect__.
Proof. unfold __disconnect__, Cloudant.disconnect. keeps_cases. Qed.

Lemma keeps_Document db id : keeps_remote (Cloudant.Document db id).
Proof. by intros w. Qed.

Lemma keeps_getitem_doc l k : keeps_remote (Cloudant.getitem_doc l k).
Proof. unfold Cloudant.getitem_doc. keeps_cases. Qed.

Lemma keeps_exists l : keeps_remote (Cloudant.exists_ l).
Proof. unfold Cloudant.exists_. keeps_cases. Qed.

Lemma keeps_fetch l : keeps_remote (Cloudant.fetch l).
Proof. unfold Cloudant.fetch. keeps_cases. Qed.

Lemma keeps_field_set l k v : keeps_remote (Cloudant.field_set l k v).
Proof. unfold Cloudant.field_set. keeps_cases. Qed.

Lemma keeps_dict l : keeps_remote (Cloudant.dict l).
Proof. unfold Cloudant.dict. keeps_cases. Qed.

Lemma keeps_getattr_db self : keeps_remote (FlaskCloudant.getattr_db self).
Proof. unfold FlaskCloudant.getattr_db. keeps_cases. Qed.

Lemma keeps_handle_init l e :
  keeps_remote (FlaskCloudantDocument.__init__ l e).
Proof.
  unfold FlaskCloudantDocument.__init__.
  destruct e; [|apply keeps_ret].
  apply keeps_bind; [apply keeps_exists|]. intros [].
  - apply keeps_bind; [apply keeps_fetch|]. intros. apply keeps_ret.
  - apply keeps_bind; [apply keeps_getitem_doc|]. intros. apply keeps_raise.
Qed.

Lemma keeps_set_items l items :
  keeps_remote (FlaskCloudantDocument.set_items l items).
Proof.
  induction items as [|[k v] items IH]; simpl; [apply keeps_ret|].
  apply keeps_bind; [apply keeps_field_set | done].
Qed.

Lemma keeps_refresh h : keeps_remote (FlaskCloudantDocument.refresh h).
Proof.
  unfold FlaskCloudantDocument.refresh.
  apply keeps_bind; [apply keeps_connect|]. intros _.
  apply keeps_bind; [apply keeps_fetch|]. intros _. apply keeps_disconnect.
Qed.

Lemma keeps_content h v : keeps_remote (FlaskCloudantDocument.content h v).
Proof.
  unfold FlaskCloudantDocument.content.
  assert (keeps_remote (assert (is_dict v) ;;;
            FlaskCloudantDocument.set_items (FlaskCloudantDocument.document h)
              (dict_items v) ;;; ret (@None nat))) as Hset.
  { apply keeps_bind; [unfold assert; keeps_cases|]. intros _.
    apply keeps_bind; [apply keeps_set_items|]. intros. apply keeps_ret. }
  destruct v; try exact Hset.
  apply keeps_bind; [apply keeps_refresh|]. intros _.
  apply keeps_bind; [apply keeps_dict|]. intros. apply keeps_ret.
Qed.

Lemma keeps_set_content h v : keeps_remote (set_content h v).
Proof.
  intros w. unfold set_content, try_except.
  pose proof (keeps_bind _ (λ _, ret tt) (keeps_content h v)
                (λ _, keeps_ret tt) w) as Hk.
  destruct (bind _ _ w) as [[[]|e] w1]; simpl in *; [done|].
  by destruct e.
Qed.

(** [get] only reads. *)
Lemma keeps_get self id : keeps_remote (FlaskCloudant.get self id).
Proof.
  unfold FlaskCloudant.get.
  apply keeps_bind; [apply keeps_connect|]. intros _.
  apply keeps_bind; [apply keeps_getattr_db|]. intros db.
  apply keeps_bind; [apply keeps_Document|]. intros l.
  apply keeps_bind; [apply keeps_handle_init|]. intros doc.
  apply keeps_bind; [apply keeps_disconnect|]. intros. apply keeps_ret.
Qed.

(** [delete] raises only where its [get] raises. *)
Lemma delete_Raise self id w e w' :
  FlaskCloudant.delete self id w = (Raise e, w') →
  FlaskCloudant.get self id w = (Raise e, w').
Proof.
  unfold FlaskCloudant.delete. intros H.
  apply bind_Raise in H as [H | (h & w1 & Hget & H)]; [done|].
  exfalso. apply get_Ok_inv in Hget
    as (db & c & o & id' & d & _ & _ & Hc & Ho & Hl & Hcell & Hs & Hd & _).
  destruct (delete_tail w1 _ db c o id' d Hc Ho Hl Hcell Hs Hd)
    as (w2 & w3 & Hconn & Hdel & Hc3 & Ho3 & _).
  rewrite (bind_eq _ _ _ _ _ Hconn) in H.
  unfold FlaskCloudantDocument.delete in H.
  rewrite (bind_eq _ _ _ _ _ Hdel) in H.
  by rewrite (disconnect_eval w3 c _ Hc3 Ho3) in H.
Qed.

Lemma request_pure c w : (Cloudant.request c w).2 = w.
Proof.
  unfold Cloudant.request, Cloudant.lookup_client, bind, get_world.
  destruct (clients w !! c) as [o|]; [|done]. by repeat case_match.
Qed.

Lemma exists_pure l w : (Cloudant.exists_ l w).2 = w.
Proof.
  unfold Cloudant.exists_, Cloudant.lookup_document. unfold bind at 1.
  destruct (heap w !! l) as [[db f|f]|]; try done.
  destruct (f !! "_id") as [v|]; [destruct v|]; try done; unfold bind;
    pose proof (request_pure (db_client db) w) as Hp;
    destruct (Cloudant.request (db_client db) w) as [[[]|e] w1];
    by simpl in *; subst.
Qed.

Lemma quiet_check_existing l override : quiet (check_existing l override).
Proof.
  unfold check_existing.
  apply quiet_bind; [apply quiet_exists|]. intros e.
  apply quiet_if.
  - apply quiet_bind; [apply quiet_getitem_doc|]. intros. apply quiet_raise.
  - apply quiet_bind; [apply quiet_exists|]. intros e'.
    apply quiet_if; [|apply quiet_ret].
    apply quiet_bind; [apply quiet_fetch|]. intros. apply quiet_delete.
Qed.

Lemma check_existing_keeps w l db f override r w' :
  heap w !! l = Some (ObjDocument db f) →
  (override = false ∨
   ∀ id, f !! "_id" = Some (PStr id) →
         srv_doc (remote w) (database_name db) id = None) →
  check_existing l override w = (r, w') → remote w' = remote w.
Proof.
  intros Hcell Hcase. unfold check_existing. unfold bind at 1.
  pose proof (exists_pure l w) as Hp.
  destruct (Cloudant.exists_ l w) as [[[]|e] w1] eqn:Hex; simpl in Hp; subst w1.
  - apply exists_true_inv in Hex as (db' & f' & id & Hcell' & Hid & _ & Hd & _).
    rewrite Hcell in Hcell'. injection Hcell' as <- <-.
    destruct Hcase as [->|Hnone].
    + simpl. intros H. eapply (keeps_inv _ _ _ _ _ H). Unshelve.
      apply keeps_bind; [apply keeps_getitem_doc|]. intros. apply keeps_raise.
    + rewrite (Hnone id Hid) in Hd. by destruct Hd.
  - simpl. unfold bind. rewrite Hex. simpl. by intros [= _ <-].
  - by intros [= _ <-].
Qed.

Lemma create_Raise_keeps l w e w' :
  Cloudant.create l w = (Raise e, w') → remote w' = remote w.
Proof.
  unfold Cloudant.create, Cloudant.lookup_document. unfold bind at 1.
  destruct (heap w !! l) as [[db f|f]|]; try by intros [= _ <-].
  unfold bind at 1.
  pose proof (request_pure (db_client db) w) as Hp.
  destruct (Cloudant.request (db_client db) w) as [[[]|e'] w1];
    simpl in Hp; subst w1; [|by intros [= _ <-]].
  unfold bind, get_world.
  destruct (srv_post _ _ _) as [st|[[id rev] s']]; [by intros [= _ <-]|done].
Qed.

Lemma set_content_steps h v w r w' :
  set_content h v w = (r, w') → ∃ a b : nat, steps a b w w'.
Proof.
  unfold set_content. intros H.
  apply try_except_inv in H as [(? & H & ?) | (e & w1 & H & He)].
  - apply bind_Ok in H as (? & w1 & H & Hr). unfold ret in Hr.
    injection Hr as _ <-.
    apply content_effect in H as (a & b & _ & Hs & _). eauto.
  - apply bind_Raise in H as [H | (? & ? & _ & H)]; [|done].
    apply content_effect in H as (a & b & _ & Hs & _).
    destruct e; simpl in He;
      first [ unfold raise in He; injection He as _ <-; by eauto
            | destruct He as [_ ->]; by eauto ].
Qed.

(** When [put] raises without having overridden a document, the store is
    as it was. *)
Lemma put_Raise_keeps self content document_id override w e w' :
  FlaskCloudant.put self content document_id override w = (Raise e, w') →
  (override = false ∨
   ∀ id, document_id = Some id → stored w self id = None) →
  remote w' = remote w.
Proof.
  rewrite put_unfold. intros H Hcase.
  apply bind_Raise in H as [H | ([] & wa & Hconn & H)];
    [by apply (keeps_inv _ _ _ _ keeps_connect) in H|].
  pose proof (keeps_inv _ _ _ _ keeps_connect Hconn) as Ra.
  apply connect_inv in Hconn as [Sa _].
  apply bind_Raise in H as [H | (db & wb & Hdb & H)].
  { apply (keeps_inv _ _ _ _ (keeps_getattr_db _)) in H. congruence. }
  unfold FlaskCloudant.getattr_db in Hdb.
  destruct (FlaskCloudant._db self) as [db'|] eqn:Hself; [|done].
  injection Hdb as -> <-.
  apply bind_Raise in H as [H | (l & wc & Hdoc & H)]; [done|].
  unfold Cloudant.Document, Cloudant.alloc in Hdoc. injection Hdoc as <- <-.
  set (f := if truthy (of_config document_id)
            then {["_id" := of_config document_id]} else ∅) in *.
  set (wc := set_heap _ wa) in *.
  assert (heap wc !! length (heap wa) = Some (ObjDocument db f)) as Hcell
    by apply lookup_new.
  assert (steps 0 0 wa wc) as Sc by (by apply steps_quiet).
  assert (∀ r wd, check_existing (length (heap wa)) override wc = (r, wd) →
                  remote wd = remote w) as Hck.
  { intros r wd Hr. rewrite <- Ra.
    apply (check_existing_keeps wc _ db f override r wd Hcell); [|done].
    destruct Hcase as [->|Hnone]; [by left|right].
    intros id Hid. change (remote wc) with (remote wa). rewrite Ra.
    assert (document_id = Some id) as Hdoc.
    { unfold f in Hid. destruct (truthy (of_config document_id)).
      - destruct document_id as [s|]; simpl in Hid;
          rewrite lookup_singleton_eq in Hid; by simplify_eq.
      - by rewrite lookup_empty in Hid. }
    specialize (Hnone id Hdoc). unfold stored in Hnone.
    by rewrite Hself in Hnone. }
  apply bind_Raise in H as [H | ([] & wd & Hchk & H)]; [by eapply Hck|].
  pose proof (Hck _ _ Hchk) as Rd.
  apply (quiet_inv _ _ _ _ (quiet_check_existing _ _)) in Hchk.
  unfold FlaskCloudantDocument.__init__ in H. rewrite bind_ret_l in H.
  apply bind_Raise in H as [H | ([] & we & Hset & H)].
  { apply (keeps_inv _ _ _ _ (keeps_set_content _ _)) in H. congruence. }
  pose proof (keeps_inv _ _ _ _ (keeps_set_content _ _) Hset) as Re.
  apply set_content_steps in Hset as (a & b & Se).
  unfold FlaskCloudantDocument.save in H.
  apply bind_Raise in H as [H | ([] & wf & Hsave & H)].
  { apply create_Raise_keeps in H. congruence. }
  apply (quiet_inv _ _ _ _ (quiet_create _)) in Hsave.
  exfalso.
  apply bind_Raise in H as [H | (? & ? & _ & H)]; [|done].
  apply disconnect_inv in H as [? Hnone].
  chain w. eapply steps_reached; [eassumption|lia|eassumption].
Qed.

(** ** The claims *)

(** C1 (amended).  Every public operation ([get], [put], [delete] of the
    facade, [exists] and [refresh] of a handle) that returns has balanced
    its [connect()] and [disconnect()] calls one to one and leaves the
    connection [Disconnected].  An operation that raises never releases
    what it acquired: either it raised before reaching any client, or it
    made more [connect()] than [disconnect()] calls. *)
Theorem C1_balanced_on_return (op : public_op) (w : world) :
  match run op w with
  | (Ok _, w') =>
      connection w' = Disconnected ∧
      ∃ n : nat, 0 < n ∧
        connect_calls w' = connect_calls w + n ∧
        disconnect_calls w' = disconnect_calls w + n
  | (Raise _, w') =>
      (w' = w ∧ client_of w = None) ∨
      ∃ a b : nat, b < a ∧
        connect_calls w' = connect_calls w + a ∧
        disconnect_calls w' = disconnect_calls w + b
  end.
Proof.
  destruct (run op w) as [[[]|e] w'] eqn:Hrun;
    apply run_effect in Hrun; simpl in Hrun.
  - destruct Hrun as (n & Hn & Hs & Hc). split.
    + unfold connection. by rewrite Hc.
    + exists n. split; [done|]. split; apply Hs.
  - destruct Hrun as [(a & b & Hab & Hs) | ?]; [right|by left].
    exists a, b. split; [done|]. split; apply Hs.
Qed.

(** C1, as stated, fails: [get] of an id that is not stored raises status
    404 after its [connect()] and before its [disconnect()], so the
    connection stays [Connected] and the calls are unbalanced. *)
Lemma C1_counterexample :
  let r := run (OpGet demo_instance (Some "nope")) demo_world in
  connection demo_world = Disconnected ∧
  r.1 = Raise (FlaskCloudantException 404 [PStr "nope"]) ∧
  connection r.2 = Connected ∧
  connect_calls r.2 = connect_calls demo_world + 1 ∧
  disconnect_calls r.2 = disconnect_calls demo_world.
Proof. vm_compute. repeat split. Qed.

Lemma stored_db w self db id :
  FlaskCloudant._db self = Some db →
  stored w self id = srv_doc (remote w) (database_name db) id.
Proof. unfold stored. by intros ->. Qed.

Lemma documents_db w self db :
  FlaskCloudant._db self = Some db →
  documents w self = default ∅ (databases (remote w) !! database_name db).
Proof. unfold documents. by intros ->. Qed.

(** C2 (amended).  [get] never changes the store; when [delete] raises the
    store is unchanged; when [put] raises the store is unchanged unless
    [override] was set and a document existed at the id.  In that case the
    existing document is deleted before the content is looked at: with a
    content that is not a dict, [put] raises (status 700 when the content
    is not [None]) and the document is gone. *)
Theorem C2_store_after_failure (self : FlaskCloudant.instance) (w : world)
    (content : pyval) (document_id : option string) (override : bool) :
  remote (FlaskCloudant.get self document_id w).2 = remote w ∧
  match FlaskCloudant.delete self document_id w with
  | (Raise _, w') => remote w' = remote w
  | (Ok _, _) => True
  end ∧
  match FlaskCloudant.put self content document_id override w with
  | (Raise _, w') =>
      (override = false ∨
       ∀ id, document_id = Some id → stored w self id = None) →
      remote w' = remote w
  | (Ok _, _) => True
  end ∧
  ∀ id d,
    document_id = Some id → ready w self = true →
    truthy (PStr id) = true → stored w self id = Some d →
    is_dict content = false →
    ∃ e w', FlaskCloudant.put self content document_id true w = (Raise e, w') ∧
            (is_None content = false →
             e = FlaskCloudantException 700 [PStr "Content"; PType "dict"]) ∧
            documents w' self = delete id (documents w self).
Proof.
  split; [apply keeps_get|]. split; [|split].
  - destruct (FlaskCloudant.delete self document_id w) as [[?|e] w'] eqn:H;
      [done|].
    apply delete_Raise in H. by apply (keeps_inv _ _ _ _ (keeps_get _ _)) in H.
  - destruct (FlaskCloudant.put self content document_id override w)
      as [[?|e] w'] eqn:H; [done|].
    intros Hcase. by eapply put_Raise_keeps.
  - intros id d -> (db & o & Hdb & Hc & Ho & Hl)%ready_inv Ht Hd Hnd.
    rewrite (stored_db _ _ _ _ Hdb) in Hd.
    destruct (put_invalid self w id db _ o Hdb Hc Ho Hl (or_introl eq_refl) Ht
                content true (or_introl eq_refl) Hnd)
      as (e & w' & Hput & He & Hdbs & _).
    exists e, w'. split; [done|]. split.
    + intros Hn. apply He. by destruct content.
    + rewrite !(documents_db _ _ _ Hdb), Hdbs.
      destruct (srv_doc_inv _ _ _ _ Hd) as (dbm & -> & _). done.
Qed.

Lemma C2_witness :
  ∃ e w', FlaskCloudant.put demo_instance (PInt 3) (Some "doc1") true demo_world
            = (Raise e, w') ∧
          (is_None (PInt 3) = false →
           e = FlaskCloudantException 700 [PStr "Content"; PType "dict"]) ∧
          documents w' demo_instance
            = delete "doc1" (documents demo_world demo_instance).
Proof.
  apply (C2_store_after_failure demo_instance demo_world (PInt 3)
           (Some "doc1") true) with (d := demo_doc); reflexivity.
Defined.

(** C2, as stated, fails: [put] with [override] and a content that is not
    a dict raises status 700 after it has deleted the existing document. *)
Lemma C2_counterexample :
  let r := FlaskCloudant.put demo_instance (PInt 3) (Some "doc1") true
             demo_world in
  stored demo_world demo_instance "doc1" = Some demo_doc ∧
  r.1 = Raise (FlaskCloudantException 700 [PStr "Content"; PType "dict"]) ∧
  stored r.2 demo_instance "doc1" = None.
Proof. vm_compute. repeat split. Qed.




(** C5 (amended).  For a ready instance and an id that is not empty,
    [get] raises status 404 carrying the id when no document is stored
    there; otherwise it returns a handle whose document holds what the
    fetch returned: the stored fields with the id and the revision. *)
Theorem C5_get (self : FlaskCloudant.instance) (w : world) (id : string) :
  ready w self = true → truthy (PStr id) = true →
  match stored w self id with
  | None =>
      (FlaskCloudant.get self (Some id) w).1
        = Raise (FlaskCloudantException 404 [PStr id])
  | Some d =>
      ∃ h w', FlaskCloudant.get self (Some id) w = (Ok h, w') ∧
              fields_at w' (FlaskCloudantDocument.document h)
                = Some (render id d) ∧
              remote w' = remote w
  end.
Proof.
  intros (db & o & Hdb & Hc & Ho & Hl)%ready_inv Ht.
  rewrite (stored_db _ _ _ _ Hdb).
  destruct (srv_doc (remote w) (database_name db) id) as [d|] eqn:Hd.
  - rewrite (get_eval self db _ o id w d Hdb Hc Ho Hl (or_introl eq_refl) Ht Hd).
    do 2 eexists. split; [done|]. split; [|done].
    unfold fields_at. simpl. by rewrite lookup_new.
  - by rewrite (get_missing self db _ o id w Hdb Hc Ho Hl
                  (or_introl eq_refl) Ht Hd).
Qed.

Lemma C5_witness :
  (∃ h w', FlaskCloudant.get demo_instance (Some "doc1") demo_world = (Ok h, w') ∧
           fields_at w' (FlaskCloudantDocument.document h)
             = Some (render "doc1" demo_doc) ∧
           remote w' = remote demo_world) ∧
  (FlaskCloudant.get demo_instance (Some "nope") demo_world).1
    = Raise (FlaskCloudantException 404 [PStr "nope"]).
Proof.
  split.
  - apply (C5_get demo_instance demo_world "doc1"); reflexivity.
  - apply (C5_get demo_instance demo_world "nope"); reflexivity.
Defined.

(** C5, as stated, fails at the empty id: no document is stored there,
    yet [get] does not raise status 404.  The cloudant document is built
    without an [_id] ([if document_id:]), so reading [cloudant_doc['_id']]
    for the argument of the error raises [KeyError]. *)
Lemma C5_counterexample :
  let r := FlaskCloudant.get demo_instance (Some "") demo_world in
  ready demo_world demo_instance = true ∧
  stored demo_world demo_instance "" = None ∧
  r.1 = Raise (KeyError (PStr "_id")) ∧
  r.1 ≠ Raise (FlaskCloudantException 404 [PStr ""]).
Proof. vm_compute. repeat split. discriminate. Qed.

(** C4 (amended).  In set mode (a content other than [None]) the handle's
    [content] raises [AssertionError] when the content is not a dict,
    whatever the state of the handle and without touching anything; it is
    [put] that turns this into status 700 carrying the field name
    ['Content'] and the expected type [dict].  A dict without [None]
    values is merged into the fields of the handle's document, key by key,
    and nothing else changes: nothing is persisted. *)
Theorem C4_content_set_mode (h : FlaskCloudantDocument.handle) (w : world)
    (v : pyval) (self : FlaskCloudant.instance) (w0 : world) (id : string)
    (override : bool) :
  is_None v = false →
  ready w0 self = true → truthy (PStr id) = true →
  (override = true ∨ stored w0 self id = None) →
  if is_dict v then
    ∀ db f,
      heap w !! FlaskCloudantDocument.document h = Some (ObjDocument db f) →
      no_None (dict_items v) = true →
      FlaskCloudantDocument.content h v w =
        (Ok None,
         set_heap (<[FlaskCloudantDocument.document h :=
                       ObjDocument db (dict_to_map (dict_items v) ∪ f)]>
                     (heap w)) w)
  else
    FlaskCloudantDocument.content h v w = (Raise AssertionError, w) ∧
    (FlaskCloudant.put self v (Some id) override w0).1
      = Raise (FlaskCloudantException 700 [PStr "Content"; PType "dict"]).
Proof.
  intros Hn (db0 & o & Hdb & Hc & Ho & Hl)%ready_inv Ht Hcase.
  destruct (is_dict v) eqn:Hd.
  - intros db f Hcell Hnn. destruct v; try done. simpl in *.
    unfold FlaskCloudantDocument.content. simpl is_dict. unfold assert.
    rewrite bind_ret_l. simpl dict_items.
    by rewrite (bind_eq _ _ _ _ _ (set_items_eval _ _ _ _ _ Hcell Hnn)).
  - assert (v ≠ PNone) as Hv by (by destruct v).
    split; [by apply content_invalid|].
    rewrite (stored_db _ _ _ _ Hdb) in Hcase.
    destruct (put_invalid self w0 id db0 _ o Hdb Hc Ho Hl (or_introl eq_refl)
                Ht v override Hcase Hd) as (e & w' & -> & He & _).
    simpl. by rewrite He.
Qed.

Lemma C4_witness :
  (FlaskCloudantDocument.content demo_handle (PStr "text") fetched_world
     = (Raise AssertionError, fetched_world) ∧
   (FlaskCloudant.put demo_instance (PStr "text") (Some "doc1") true
      demo_world).1
     = Raise (FlaskCloudantException 700 [PStr "Content"; PType "dict"])) ∧
  FlaskCloudantDocument.content demo_handle
      (PDict [("name", PStr "b"); ("age", PInt 3)]) fetched_world =
    (Ok None,
     set_heap
       (<[0 := ObjDocument {| db_client := 0; database_name := "appdb" |}
                 (dict_to_map [("name", PStr "b"); ("age", PInt 3)]
                    ∪ render "doc1" demo_doc)]> (heap fetched_world))
       fetched_world).
Proof.
  split.
  - apply (C4_content_set_mode demo_handle fetched_world (PStr "text")
             demo_instance demo_world "doc1" true);
      [reflexivity | reflexivity | reflexivity | left; reflexivity].
  - apply (C4_content_set_mode demo_handle fetched_world
             (PDict [("name", PStr "b"); ("age", PInt 3)])
             demo_instance demo_world "doc1" true);
      [reflexivity | reflexivity | reflexivity | left; reflexivity
      | reflexivity | reflexivity].
Defined.

(** C4, as stated, fails: on a handle, [content] of a value that is not a
    dict raises [AssertionError], not the domain error with status 700. *)
Lemma C4_counterexample :
  (FlaskCloudantDocument.content demo_handle (PInt 3) fetched_world).1
    = Raise AssertionError ∧
  (FlaskCloudantDocument.content demo_handle (PInt 3) fetched_world).1
    ≠ Raise (FlaskCloudantException 700 [PStr "Content"; PType "dict"]).
Proof. split; [reflexivity | discriminate]. Qed.

(** C6 (amended).  [delete(id)] is [get(id)] followed by a scoped delete
    of the returned handle: for every id and in every world both give the
    same result and leave the same world.  For a ready instance and an id
    that is not empty, [delete] of an id that is not stored raises status
    404 carrying the id, and after [delete] of a stored id a [get] of it
    raises status 404. *)
Theorem C6_delete (self : FlaskCloudant.instance) (w : world) (id : string) :
  ready w self = true → truthy (PStr id) = true →
  (∀ document_id w0,
     FlaskCloudant.delete self document_id w0
       = delete_spec self document_id w0) ∧
  match stored w self id with
  | None =>
      (FlaskCloudant.delete self (Some id) w).1
        = Raise (FlaskCloudantException 404 [PStr id])
  | Some _ =>
      ∃ w', FlaskCloudant.delete self (Some id) w = (Ok tt, w') ∧
            stored w' self id = None ∧
            (FlaskCloudant.get self (Some id) w').1
              = Raise (FlaskCloudantException 404 [PStr id])
  end.
Proof.
  intros Hready Ht. split; [intros; apply delete_refines|].
  destruct (ready_inv _ _ Hready) as (db & o & Hdb & Hc & Ho & Hl).
  rewrite (stored_db _ _ _ _ Hdb).
  destruct (srv_doc (remote w) (database_name db) id) as [d|] eqn:Hd.
  - destruct (delete_found self w id db _ o Hdb Hc Ho Hl (or_introl eq_refl)
                Ht d Hd) as (w' & Hdel & Hdbs & _).
    exists w'. split; [done|].
    assert (srv_doc (remote w') (database_name db) id = None) as Hgone.
    { unfold srv_doc. rewrite Hdbs.
      destruct (databases (remote w) !! database_name db); simpl; [|done].
      apply lookup_delete_eq. }
    split; [by rewrite (stored_db _ _ _ _ Hdb)|].
    assert (ready w' self = true) as Hready'.
    { pose proof (delete_effect _ _ _ _ _ Hdel) as (n & _ & Hs & _).
      by eapply ready_steps. }
    destruct (ready_inv _ _ Hready') as (db1 & o1 & Hdb1 & Hc1 & Ho1 & Hl1).
    rewrite Hdb in Hdb1. injection Hdb1 as <-.
    by rewrite (get_missing self db _ o1 id w' Hdb Hc1 Ho1 Hl1
                  (or_introl eq_refl) Ht Hgone).
  - by apply (delete_missing self w id db _ o Hdb Hc Ho Hl (or_introl eq_refl)).
Qed.

Lemma C6_witness :
  ((∀ document_id w0,
      FlaskCloudant.delete demo_instance document_id w0
        = delete_spec demo_instance document_id w0) ∧
   ∃ w', FlaskCloudant.delete demo_instance (Some "doc1") demo_world
           = (Ok tt, w') ∧
         stored w' demo_instance "doc1" = None ∧
         (FlaskCloudant.get demo_instance (Some "doc1") w').1
           = Raise (FlaskCloudantException 404 [PStr "doc1"])) ∧
  (FlaskCloudant.delete demo_instance (Some "nope") demo_world).1
    = Raise (FlaskCloudantException 404 [PStr "nope"]).
Proof.
  split.
  - apply (C6_delete demo_instance demo_world "doc1"); reflexivity.
  - apply (C6_delete demo_instance demo_world "nope"); reflexivity.
Defined.

(** C6, as stated, fails at the empty id: no document is stored there,
    yet [delete] does not raise status 404 but the [KeyError] of its
    [get]. *)
Lemma C6_counterexample :
  let r := FlaskCloudant.delete demo_instance (Some "") demo_world in
  ready demo_world demo_instance = true ∧
  stored demo_world demo_instance "" = None ∧
  r.1 = Raise (KeyError (PStr "_id")) ∧
  r.1 ≠ Raise (FlaskCloudantException 404 [PStr ""]).
Proof. vm_compute. repeat split. discriminate. Qed.

Lemma calls_store w c o o' :
  CLIENT w = Some c → clients w !! c = Some o →
  let w' := set_clients (<[c := o']> (clients w)) w in
  connected w' = bool_decide (is_Some (r_session o')) ∧
  connect_calls w' = connects o' ∧ disconnect_calls w' = disconnects o' ∧
  connect_calls w = connects o ∧ disconnect_calls w = disconnects o.
Proof.
  intros Hc Ho w'. subst w'.
  unfold connected, connect_calls, disconnect_calls.
  rewrite (client_of_store w c o o' Hc Ho).
  unfold client_of. by rewrite Hc; simpl; rewrite Ho.
Qed.

(** C7.  In get mode [content()] first fetches: whatever the handle had
    cached, its document then holds the stored fields with the id and the
    revision.  It returns a new dict with the same items, so that setting
    a key of the returned dict leaves the handle's document as it was. *)
Theorem C7_content_get_mode (h : FlaskCloudantDocument.handle) (w : world)
    (dbname id : string) (d : stored_doc) :
  handle_ready w h dbname id = true →
  srv_doc (remote w) dbname id = Some d →
  ∃ l w',
    FlaskCloudantDocument.content h PNone w = (Ok (Some l), w') ∧
    fields_at w' (FlaskCloudantDocument.document h) = Some (render id d) ∧
    fields_at w' l = Some (render id d) ∧
    render id d !! "_id" = Some (PStr id) ∧
    render id d !! "_rev" = Some (PStr (rev_token (s_rev d))) ∧
    l ≠ FlaskCloudantDocument.document h ∧
    ∀ k v,
      let w'' := (Cloudant.setitem l k v w').2 in
      fields_at w'' l = Some (<[k := v]> (render id d)) ∧
      fields_at w'' (FlaskCloudantDocument.document h) = Some (render id d).
Proof.
  intros Hready Hd.
  destruct (content_get_eval w h dbname id d Hready Hd)
    as (c & o & db & Hc & Ho & Heval).
  destruct (handle_ready_inv _ _ _ _ Hready) as (db' & f & _ & Hcell & _).
  assert (FlaskCloudantDocument.document h < length (heap w)) as Hlt
    by (by eapply lookup_lt_Some).
  set (dh := FlaskCloudantDocument.document h) in *.
  set (hp := <[dh := ObjDocument db (render id d)]> (heap w)) in *.
  assert (length hp = length (heap w)) as Hlen by apply length_insert.
  assert (hp !! dh = Some (ObjDocument db (render id d))) as Hdh
    by (by apply list_lookup_insert_eq).
  do 2 eexists. split; [exact Heval|]. unfold fields_at. simpl.
  split. { rewrite lookup_app_l by lia. by rewrite Hdh. }
  split. { rewrite <- Hlen. by rewrite lookup_new. }
  split; [apply lookup_insert_eq|].
  split. { unfold render. rewrite lookup_insert_ne by done.
           apply lookup_insert_eq. }
  split; [lia|].
  intros k v. unfold Cloudant.setitem. simpl.
  rewrite <- Hlen, lookup_new. simpl. rewrite insert_new.
  split.
  - by rewrite lookup_new.
  - rewrite lookup_app_l by lia. by rewrite Hdh.
Qed.

Lemma C7_witness :
  ∃ l w',
    FlaskCloudantDocument.content demo_handle PNone fetched_world
      = (Ok (Some l), w') ∧
    fields_at w' (FlaskCloudantDocument.document demo_handle)
      = Some (render "doc1" demo_doc) ∧
    fields_at w' l = Some (render "doc1" demo_doc) ∧
    render "doc1" demo_doc !! "_id" = Some (PStr "doc1") ∧
    render "doc1" demo_doc !! "_rev" = Some (PStr (rev_token 0)) ∧
    l ≠ FlaskCloudantDocument.document demo_handle ∧
    ∀ k v,
      let w'' := (Cloudant.setitem l k v w').2 in
      fields_at w'' l = Some (<[k := v]> (render "doc1" demo_doc)) ∧
      fields_at w'' (FlaskCloudantDocument.document demo_handle)
        = Some (render "doc1" demo_doc).
Proof.
  apply (C7_content_get_mode demo_handle fetched_world "appdb" "doc1" demo_doc);
    reflexivity.
Defined.

(** C8 (amended).  [init_app] does not validate the configuration before
    connecting: whatever the configuration holds, it builds a client from
    it, makes that client the class attribute and calls its [connect()].
    When no server answers at [COUCH_URL], or the key is missing, the
    exception of the transport comes through as it is, not as a domain
    error.  When the server answers and rejects the credentials,
    [init_app] raises the transport's status (401) carrying the user name.
    When the credentials are accepted and the configuration names a
    database, it raises status 400 carrying the database name if the
    server has no such database, and otherwise returns with the instance
    bound to that database. *)
Theorem C8_init_app (self : FlaskCloudant.instance) (app : App) (w : world) :
  let r := FlaskCloudant.init_app self app w in
  connect_calls r.2 = 1 ∧
  if answers w app then
    if accepts w app then
      match config app !! "COUCH_DB" with
      | Some name =>
          match databases (remote w) !! name with
          | None => r.1 = Raise (FlaskCloudantException 400 [PStr name])
          | Some _ =>
              r.1 = Ok {| FlaskCloudant._db :=
                            Some {| db_client := length (clients w);
                                    database_name := name |} |}
          end
      | None => True
      end
    else
      r.1 = Raise (FlaskCloudantException 401
                     [of_config (config app !! "COUCH_USER")])
  else raises_foreign r.1 = true.
Proof.
  intros r. split.
  - destruct (init_app_replaces self app w) as (o & Hw & Ho).
    unfold r, connect_calls. by rewrite Hw, client_of_replaced.
  - unfold r. rewrite init_app_eval.
    destruct (answers w app);
      [|by destruct (config app !! "COUCH_URL")].
    destruct (accepts w app); [|done]. by repeat case_match.
Qed.

(** C8, as stated, fails: with no [COUCH_DB] in the configuration
    [init_app] has connected before anything looks at the database name,
    and what it raises then is not the status 400 error. *)
Lemma C8_counterexample :
  let r := FlaskCloudant.init_app {| FlaskCloudant._db := None |}
             nameless_app boot in
  config nameless_app !! "COUCH_DB" = None ∧
  connect_calls boot = 0 ∧
  connect_calls r.2 = 1 ∧
  r.1 ≠ Raise (FlaskCloudantException 400 [PNone]).
Proof. vm_compute. repeat split. discriminate. Qed.

Lemma handle_ready_setitem w h dbname id k v :
  k ≠ "_id" → handle_ready w h dbname id = true →
  handle_ready (Cloudant.setitem (FlaskCloudantDocument.document h) k v w).2
    h dbname id = true.
Proof.
  intros Hk. unfold handle_ready, Cloudant.setitem, can_connect.
  destruct (heap w !! FlaskCloudantDocument.document h)
    as [[db f|f]|] eqn:Hcell; try done.
  simpl. rewrite list_lookup_insert_eq by (by eapply lookup_lt_Some).
  by rewrite lookup_insert_ne.
Qed.

Lemma remote_setitem w l k v : remote (Cloudant.setitem l k v w).2 = remote w.
Proof. unfold Cloudant.setitem. by repeat case_match. Qed.

(** C9.  [exists()] of a ready handle connects once, disconnects once and
    returns whether the store holds a document at the handle's id.  The
    answer is the store's: it is the same whatever else the handle's
    document holds locally (content, revision), and the handle changes
    nothing, neither locally nor remotely. *)
Theorem C9_exists (h : FlaskCloudantDocument.handle) (w : world)
    (dbname id : string) :
  handle_ready w h dbname id = true →
  ∃ w',
    FlaskCloudantDocument.exists_ h w =
      (Ok (bool_decide (is_Some (srv_doc (remote w) dbname id))), w') ∧
    connection w' = Disconnected ∧
    connect_calls w' = connect_calls w + 1 ∧
    disconnect_calls w' = disconnect_calls w + 1 ∧
    heap w' = heap w ∧ remote w' = remote w ∧
    ∀ k v, k ≠ "_id" →
      (FlaskCloudantDocument.exists_ h
         (Cloudant.setitem (FlaskCloudantDocument.document h) k v w).2).1
        = (FlaskCloudantDocument.exists_ h w).1.
Proof.
  intros Hready.
  destruct (handle_exists_eval w h dbname id Hready)
    as (c & o & Hc & Ho & Heval).
  eexists. split; [exact Heval|].
  destruct (calls_store w c o (closed (opened o)) Hc Ho)
    as (Hconn & Hn & Hm & Hn0 & Hm0).
  split. { unfold connection. by rewrite Hconn. }
  split. { rewrite Hn, Hn0. simpl. lia. }
  split. { rewrite Hm, Hm0. simpl. lia. }
  split; [done|]. split; [done|].
  intros k v Hk.
  destruct (handle_exists_eval _ h dbname id
              (handle_ready_setitem w h dbname id k v Hk Hready))
    as (c' & o' & _ & _ & ->).
  by rewrite Heval, remote_setitem.
Qed.

Lemma C9_witness :
  ∃ w',
    FlaskCloudantDocument.exists_ demo_handle fetched_world =
      (Ok (bool_decide
             (is_Some (srv_doc (remote fetched_world) "appdb" "doc1"))), w') ∧
    connection w' = Disconnected ∧
    connect_calls w' = connect_calls fetched_world + 1 ∧
    disconnect_calls w' = disconnect_calls fetched_world + 1 ∧
    heap w' = heap fetched_world ∧ remote w' = remote fetched_world ∧
    ∀ k v, k ≠ "_id" →
      (FlaskCloudantDocument.exists_ demo_handle
         (Cloudant.setitem (FlaskCloudantDocument.document demo_handle) k v
            fetched_world).2).1
        = (FlaskCloudantDocument.exists_ demo_handle fetched_world).1.
Proof.
  apply (C9_exists demo_handle fetched_world "appdb" "doc1"); reflexivity.
Defined.

(** C10.  The client is one piece of state shared by the class: whatever
    instance [init_app] is called on, and whatever its outcome, the class
    attribute then names the client object it has just constructed, and
    from then on every public operation, of every instance and of every
    handle, including those that existed before, calls [connect()] on that
    object and touches no other client object. *)
Theorem C10_shared_client (self : FlaskCloudant.instance) (app : App)
    (w : world) (op : public_op) :
  let w1 := (FlaskCloudant.init_app self app w).2 in
  let w2 := (run op w1).2 in
  CLIENT w1 = Some (length (clients w)) ∧
  (∀ c, c < length (clients w) → clients w1 !! c = clients w !! c) ∧
  CLIENT w2 = CLIENT w1 ∧
  (∀ c, c ≠ length (clients w) → clients w2 !! c = clients w1 !! c) ∧
  connect_calls w1 < connect_calls w2.
Proof.
  intros w1 w2.
  destruct (init_app_replaces self app w) as (o & Hw1 & Ho).
  fold w1 in Hw1.
  assert (CLIENT w1 = Some (length (clients w))) as Hc by (by rewrite Hw1).
  split; [done|].
  split. { intros c Hlt. rewrite Hw1. simpl. by apply lookup_app_l. }
  assert (client_of w1 = Some o) as Hclient
    by (rewrite Hw1; apply client_of_replaced).
  destruct (run op w1) as [r w2'] eqn:Hrun. subst w2. simpl.
  apply run_effect in Hrun.
  assert (∃ a b : nat, 0 < a ∧ steps a b w1 w2') as (a & b & Ha & Hs).
  { destruct r as [?|e]; simpl in Hrun.
    - destruct Hrun as (n & Hn & Hs & _). eauto.
    - destruct Hrun as [(a & b & Hab & Hs) | [_ Hnone]].
      + exists a, b. split; [lia|done].
      + by rewrite Hclient in Hnone. }
  split; [apply Hs|]. split.
  - intros c Hne. apply Hs. rewrite Hc. congruence.
  - rewrite (st_connects _ _ _ _ Hs). lia.
Qed.

(** * Beyond the claims *)

(** ** Use before [init_app] *)

Lemma connect_unset w :
  CLIENT w = None →
  __connect__ w =
    (Raise (AttributeError "'NoneType' object has no attribute 'connect'"), w).
Proof. intros H. unfold __connect__, bind, get_world. by rewrite H. Qed.

(** X1.  While the class attribute is still [None] (no [init_app] has run),
    every public operation raises the [AttributeError] of
    [None.connect()] and has no effect at all. *)
Theorem X1_before_init_app (op : public_op) (w : world) :
  CLIENT w = None →
  run op w =
    (Raise (AttributeError "'NoneType' object has no attribute 'connect'"), w).
Proof.
  intros H. pose proof (connect_unset w H) as Hc.
  destruct op; simpl.
  - unfold FlaskCloudant.get. rewrite bind_assoc.
    by rewrite (bind_raise_eq _ _ _ _ _ Hc).
  - rewrite put_unfold, bind_assoc.
    by rewrite (bind_raise_eq _ _ _ _ _ Hc).
  - unfold FlaskCloudant.delete, FlaskCloudant.get. rewrite !bind_assoc.
    by rewrite (bind_raise_eq _ _ _ _ _ Hc).
  - unfold FlaskCloudantDocument.exists_. rewrite bind_assoc.
    by rewrite (bind_raise_eq _ _ _ _ _ Hc).
  - unfold FlaskCloudantDocument.refresh.
    by rewrite (bind_raise_eq _ _ _ _ _ Hc).
Qed.

Lemma X1_witness :
  run (OpGet bare_instance (Some "doc1")) boot =
    (Raise (AttributeError "'NoneType' object has no attribute 'connect'"),
     boot).
Proof. apply (X1_before_init_app _ boot). reflexivity. Defined.

(** ** An instance that was never initialised *)

Lemma can_connect_inv w c :
  can_connect w c = true →
  ∃ o, clients w !! c = Some o ∧
       admits (remote w) o = true.
Proof.
  unfold can_connect. destruct (clients w !! c) as [o|]; [eauto|done].
Qed.

Lemma connected_opened w c o :
  CLIENT w = Some c → clients w !! c = Some o →
  connection (set_clients (<[c := opened o]> (clients w)) w) = Connected.
Proof.
  intros Hc Ho. unfold connection, connected.
  by rewrite (client_of_store w c o _ Hc Ho).
Qed.

(** X2.  The client is shared by the class but the database is bound per
    instance: on an instance whose [init_app] never ran, while another
    instance has installed a working client, [get], [put] and [delete]
    connect and then raise the [AttributeError] of the missing [_db],
    leaving the connection open and the store untouched. *)
Theorem X2_unbound_instance (self : FlaskCloudant.instance) (w : world)
    (c : nat) (content : pyval) (document_id : option string)
    (override : bool) :
  FlaskCloudant._db self = None →
  CLIENT w = Some c → can_connect w c = true →
  let e := AttributeError "'FlaskCloudant' object has no attribute '_db'" in
  ∃ w', FlaskCloudant.get self document_id w = (Raise e, w') ∧
        FlaskCloudant.put self content document_id override w = (Raise e, w') ∧
        FlaskCloudant.delete self document_id w = (Raise e, w') ∧
        connection w' = Connected ∧
        remote w' = remote w ∧ heap w' = heap w.
Proof.
  intros Hdb Hc (o & Ho & Hl)%can_connect_inv e.
  pose proof (connect_eval w c o Hc Ho Hl) as Hconn.
  exists (set_clients (<[c := opened o]> (clients w)) w).
  assert (FlaskCloudant.get self document_id w =
            (Raise e, set_clients (<[c := opened o]> (clients w)) w)) as Hget.
  { unfold FlaskCloudant.get. rewrite (bind_eq _ _ _ _ _ Hconn).
    unfold FlaskCloudant.getattr_db. by rewrite Hdb. }
  split; [done|]. split.
  { rewrite put_unfold, (bind_eq _ _ _ _ _ Hconn).
    unfold FlaskCloudant.getattr_db. by rewrite Hdb. }
  split.
  { unfold FlaskCloudant.delete. by rewrite (bind_raise_eq _ _ _ _ _ Hget). }
  split; [by apply connected_opened|]. done.
Qed.

Lemma X2_witness :
  let e := AttributeError "'FlaskCloudant' object has no attribute '_db'" in
  ∃ w', FlaskCloudant.get bare_instance (Some "doc1") demo_world
          = (Raise e, w') ∧
        FlaskCloudant.put bare_instance (PDict []) (Some "doc1") false
          demo_world = (Raise e, w') ∧
        FlaskCloudant.delete bare_instance (Some "doc1") demo_world
          = (Raise e, w') ∧
        connection w' = Connected ∧
        remote w' = remote demo_world ∧ heap w' = heap demo_world.
Proof.
  apply (X2_unbound_instance bare_instance demo_world 0); reflexivity.
Defined.

(** ** [get] and [delete] without an id *)

Lemma Document_None db w :
  Cloudant.Document db None w =
    (Ok (length (heap w)), set_heap (heap w ++ [ObjDocument db ∅]) w).
Proof. done. Qed.

Lemma exists_no_id w l db f :
  heap w !! l = Some (ObjDocument db f) → f !! "_id" = None →
  Cloudant.exists_ l w = (Ok false, w).
Proof.
  intros Hl Hid. unfold Cloudant.exists_.
  rewrite (bind_eq _ _ _ _ _ (lookup_document_eval _ _ _ _ Hl)).
  by rewrite Hid.
Qed.

(** X3.  [get(None)] and [delete(None)] do not raise the status 404 error:
    the cloudant document has no [_id], so building the error's argument
    [cloudant_doc['_id']] raises [KeyError('_id')] instead; the connection
    stays open and the store is untouched. *)
Theorem X3_get_without_id (self : FlaskCloudant.instance) (w : world) :
  ready w self = true →
  ∃ w', FlaskCloudant.get self None w = (Raise (KeyError (PStr "_id")), w') ∧
        FlaskCloudant.delete self None w
          = (Raise (KeyError (PStr "_id")), w') ∧
        connection w' = Connected ∧ remote w' = remote w.
Proof.
  intros (db & o & Hdb & Hc & Ho & Hl)%ready_inv.
  set (w1 := set_clients (<[db_client db := opened o]> (clients w)) w).
  set (w2 := set_heap (heap w1 ++ [ObjDocument db ∅]) w1).
  assert (FlaskCloudant.get self None w
            = (Raise (KeyError (PStr "_id")), w2)) as Hget.
  { unfold FlaskCloudant.get.
    rewrite (bind_eq _ _ _ _ _ (connect_eval _ _ _ Hc Ho Hl)).
    rewrite (bind_eq _ _ _ _ _ (getattr_db_eval _ _ _ Hdb)).
    rewrite (bind_eq _ _ _ _ _ (Document_None db w1)). fold w2.
    unfold FlaskCloudantDocument.__init__. cbv iota. rewrite bind_assoc.
    assert (heap w2 !! length (heap w1) = Some (ObjDocument db ∅)) as Hcell
      by apply lookup_new.
    rewrite (bind_eq _ _ _ _ _
      (exists_no_id w2 _ db ∅ Hcell (lookup_empty _))).
    cbv iota. rewrite bind_assoc.
    unfold Cloudant.getitem_doc.
    rewrite bind_assoc.
    rewrite (bind_eq _ _ _ _ _ (lookup_document_eval _ _ _ _ Hcell)).
    by rewrite lookup_empty. }
  exists w2. split; [done|]. split.
  { unfold FlaskCloudant.delete. by rewrite (bind_raise_eq _ _ _ _ _ Hget). }
  split; [|done]. by apply (connected_opened w _ o).
Qed.

Lemma X3_witness :
  ∃ w', FlaskCloudant.get demo_instance None demo_world
          = (Raise (KeyError (PStr "_id")), w') ∧
        FlaskCloudant.delete demo_instance None demo_world
          = (Raise (KeyError (PStr "_id")), w') ∧
        connection w' = Connected ∧ remote w' = remote demo_world.
Proof. apply (X3_get_without_id demo_instance demo_world). reflexivity. Defined.

(** ** What [put] and [delete] do to the store *)

Lemma has_database_inv w self db :
  FlaskCloudant._db self = Some db → has_database w self = true →
  ∃ dbm, databases (remote w) !! database_name db = Some dbm.
Proof.
  unfold has_database. intros ->. intros [dbm ?]%bool_decide_eq_true. eauto.
Qed.

Lemma put_documents self w id items override :
  ready w self = true → has_database w self = true →
  truthy (PStr id) = true → user_items items = true →
  (override = true ∨ stored w self id = None) →
  ∃ h w',
    FlaskCloudant.put self (PDict items) (Some id) override w = (Ok h, w') ∧
    documents w' self =
      <[id := {| s_rev := next_rev (remote w);
                 s_body := dict_to_map items |}]> (documents w self) ∧
    (∀ db n, FlaskCloudant._db self = Some db → n ≠ database_name db →
             databases (remote w') !! n = databases (remote w) !! n) ∧
    accounts (remote w') = accounts (remote w).
Proof.
  intros (db & o & Hdb & Hc & Ho & Hl)%ready_inv Hhas Ht Hu Hcase.
  destruct (has_database_inv _ _ _ Hdb Hhas) as (dbm & Hdbm).
  rewrite (stored_db _ _ _ _ Hdb) in Hcase.
  destruct (put_stores self w id db _ o Hdb Hc Ho Hl (or_introl eq_refl) Ht
              items override dbm Hcase Hu Hdbm)
    as (w' & Hput & Hdbs & Hothers & _).
  do 2 eexists. split; [exact Hput|].
  split. { by rewrite !(documents_db _ _ _ Hdb), Hdbs, Hdbm. }
  split. { intros db' n Hdb' Hn. rewrite Hdb in Hdb'. injection Hdb' as <-.
           by apply Hothers. }
  by destruct (put_effect _ _ _ _ _ _ _ Hput) as (n & _ & [] & _).
Qed.

Lemma delete_documents self w id d :
  ready w self = true → truthy (PStr id) = true →
  stored w self id = Some d →
  ∃ w',
    FlaskCloudant.delete self (Some id) w = (Ok tt, w') ∧
    documents w' self = delete id (documents w self) ∧
    (∀ db n, FlaskCloudant._db self = Some db → n ≠ database_name db →
             databases (remote w') !! n = databases (remote w) !! n) ∧
    accounts (remote w') = accounts (remote w).
Proof.
  intros (db & o & Hdb & Hc & Ho & Hl)%ready_inv Ht Hd.
  rewrite (stored_db _ _ _ _ Hdb) in Hd.
  destruct (delete_found self w id db _ o Hdb Hc Ho Hl (or_introl eq_refl)
              Ht d Hd) as (w' & Hdel & Hdbs & Hothers).
  exists w'. split; [done|].
  destruct (srv_doc_inv _ _ _ _ Hd) as (dbm & Hdbm & _).
  split. { by rewrite !(documents_db _ _ _ Hdb), Hdbs, Hdbm. }
  split. { intros db' n Hdb' Hn. rewrite Hdb in Hdb'. injection Hdb' as <-.
           by apply Hothers. }
  by destruct (delete_effect _ _ _ _ _ Hdel) as (n & _ & [] & _).
Qed.

(** X4.  A successful [put] of a dict of user fields, at a fresh id or
    over an existing document with [override], changes exactly one
    document: the instance's database afterwards maps the id to the new
    fields at the next revision, every other document, every other
    database and the accounts are as before. *)
Theorem X4_put_one_document (self : FlaskCloudant.instance) (w : world)
    (id : string) (items : list (string * pyval)) (override : bool) :
  ready w self = true → has_database w self = true →
  truthy (PStr id) = true → user_items items = true →
  (override = true ∨ stored w self id = None) →
  ∃ h w',
    FlaskCloudant.put self (PDict items) (Some id) override w = (Ok h, w') ∧
    documents w' self =
      <[id := {| s_rev := next_rev (remote w);
                 s_body := dict_to_map items |}]> (documents w self) ∧
    (∀ db n, FlaskCloudant._db self = Some db → n ≠ database_name db →
             databases (remote w') !! n = databases (remote w) !! n) ∧
    accounts (remote w') = accounts (remote w).
Proof. apply put_documents. Qed.

Lemma X4_witness :
  ∃ h w',
    FlaskCloudant.put demo_instance (PDict [("name", PStr "c")]) (Some "doc2")
      false demo_world = (Ok h, w') ∧
    documents w' demo_instance =
      <["doc2" := {| s_rev := 1; s_body := {["name" := PStr "c"]} |}]>
        (documents demo_world demo_instance) ∧
    (∀ db n, FlaskCloudant._db demo_instance = Some db →
             n ≠ database_name db →
             databases (remote w') !! n = databases (remote demo_world) !! n) ∧
    accounts (remote w') = accounts (remote demo_world).
Proof.
  apply (X4_put_one_document demo_instance demo_world "doc2"
           [("name", PStr "c")] false);
    [reflexivity | reflexivity | reflexivity | reflexivity
    | right; reflexivity].
Defined.

(** X5.  [put] then [get]: after a [put] of a dict of user fields at a
    fresh id, whatever [override] says, [get] of that id returns a handle
    whose document holds exactly those fields with the id and the new
    revision. *)
Theorem X5_put_then_get (self : FlaskCloudant.instance) (w : world)
    (id : string) (items : list (string * pyval)) (override : bool) :
  ready w self = true → has_database w self = true →
  truthy (PStr id) = true → user_items items = true →
  stored w self id = None →
  ∃ h w1 h' w2,
    FlaskCloudant.put self (PDict items) (Some id) override w = (Ok h, w1) ∧
    FlaskCloudant.get self (Some id) w1 = (Ok h', w2) ∧
    fields_at w2 (FlaskCloudantDocument.document h')
      = Some (<["_id" := PStr id]>
                (<["_rev" := PStr (rev_token (next_rev (remote w)))]>
                   (dict_to_map items))) ∧
    FlaskCloudantDocument.document h' ≠ FlaskCloudantDocument.document h.
Proof.
  intros Hready Hhas Ht Hu Hnone.
  destruct (ready_inv _ _ Hready) as (db & o & Hdb & Hc & Ho & Hl).
  destruct (has_database_inv _ _ _ Hdb Hhas) as (dbm & Hdbm).
  rewrite (stored_db _ _ _ _ Hdb) in Hnone.
  destruct (put_stores self w id db _ o Hdb Hc Ho Hl (or_introl eq_refl) Ht
              items override dbm (or_intror Hnone) Hu Hdbm)
    as (w1 & Hput & Hdbs & _ & Hfields).
  set (d' := {| s_rev := next_rev (remote w); s_body := dict_to_map items |})
    in *.
  assert (srv_doc (remote w1) (database_name db) id = Some d') as Hd1.
  { unfold srv_doc. rewrite Hdbs. simpl. apply lookup_insert_eq. }
  assert (ready w1 self = true) as Hready1.
  { pose proof (put_effect _ _ _ _ _ _ _ Hput) as (n & _ & Hs & _).
    by eapply ready_steps. }
  destruct (ready_inv _ _ Hready1) as (db1 & o1 & Hdb1 & Hc1 & Ho1 & Hl1).
  rewrite Hdb in Hdb1. injection Hdb1 as <-.
  pose proof (get_eval self db _ o1 id w1 d' Hdb Hc1 Ho1 Hl1
                (or_introl eq_refl) Ht Hd1) as Hget.
  do 4 eexists. split; [exact Hput|]. split; [exact Hget|].
  unfold fields_at. simpl. rewrite lookup_new. split; [done|].
  unfold fields_at in Hfields.
  destruct (heap w1 !! length (heap w)) eqn:Hcell; [|done].
  apply lookup_lt_Some in Hcell. lia.
Qed.

Lemma X5_witness :
  ∃ h w1 h' w2,
    FlaskCloudant.put demo_instance (PDict [("name", PStr "c")]) (Some "doc2")
      true demo_world = (Ok h, w1) ∧
    FlaskCloudant.get demo_instance (Some "doc2") w1 = (Ok h', w2) ∧
    fields_at w2 (FlaskCloudantDocument.document h')
      = Some (<["_id" := PStr "doc2"]>
                (<["_rev" := PStr (rev_token 1)]> {["name" := PStr "c"]})) ∧
    FlaskCloudantDocument.document h' ≠ FlaskCloudantDocument.document h.
Proof.
  apply (X5_put_then_get demo_instance demo_world "doc2"
           [("name", PStr "c")] true); reflexivity.
Defined.

(** X6.  Where no document exists at the id, [override] makes no
    difference: [put] with and without it give the same result and leave
    the same world, whatever the content. *)
Theorem X6_override_without_document (self : FlaskCloudant.instance)
    (w : world) (id : string) (content : pyval) :
  ready w self = true → truthy (PStr id) = true →
  stored w self id = None →
  FlaskCloudant.put self content (Some id) true w
    = FlaskCloudant.put self content (Some id) false w.
Proof.
  intros (db & o & Hdb & Hc & Ho & Hl)%ready_inv Ht Hnone.
  rewrite (stored_db _ _ _ _ Hdb) in Hnone.
  rewrite !(put_prefix self w id db _ o Hdb Hc Ho Hl Ht).
  pose proof (prepared_cell w id db (db_client db) o) as Hcell.
  pose proof (prepared_session w id db _ o Ho Hl (or_introl eq_refl)) as Hs.
  by rewrite !(bind_eq _ _ _ _ _
    (check_existing_absent _ _ db id Hcell Hs _ Hnone)).
Qed.

Lemma X6_witness :
  FlaskCloudant.put demo_instance (PInt 3) (Some "doc2") true demo_world
    = FlaskCloudant.put demo_instance (PInt 3) (Some "doc2") false demo_world.
Proof.
  apply (X6_override_without_document demo_instance demo_world "doc2");
    reflexivity.
Defined.

(** X7.  A successful [delete] removes exactly the addressed document:
    the instance's database afterwards is the one before without the id,
    and every other database and the accounts are as before. *)
Theorem X7_delete_one_document (self : FlaskCloudant.instance) (w : world)
    (id : string) (d : stored_doc) :
  ready w self = true → truthy (PStr id) = true →
  stored w self id = Some d →
  ∃ w',
    FlaskCloudant.delete self (Some id) w = (Ok tt, w') ∧
    documents w' self = delete id (documents w self) ∧
    (∀ db n, FlaskCloudant._db self = Some db → n ≠ database_name db →
             databases (remote w') !! n = databases (remote w) !! n) ∧
    accounts (remote w') = accounts (remote w).
Proof. apply delete_documents. Qed.

Lemma X7_witness :
  ∃ w',
    FlaskCloudant.delete demo_instance (Some "doc1") demo_world
      = (Ok tt, w') ∧
    documents w' demo_instance
      = delete "doc1" (documents demo_world demo_instance) ∧
    (∀ db n, FlaskCloudant._db demo_instance = Some db →
             n ≠ database_name db →
             databases (remote w') !! n = databases (remote demo_world) !! n) ∧
    accounts (remote w') = accounts (remote demo_world).
Proof.
  apply (X7_delete_one_document demo_instance demo_world "doc1" demo_doc);
    reflexivity.
Defined.

(** X8.  [put] then [delete]: putting a dict of user fields at a fresh id
    and deleting that id again gives back the documents the database
    had. *)
Theorem X8_put_then_delete (self : FlaskCloudant.instance) (w : world)
    (id : string) (items : list (string * pyval)) (override : bool) :
  ready w self = true → has_database w self = true →
  truthy (PStr id) = true → user_items items = true →
  stored w self id = None →
  ∃ h w1 w2,
    FlaskCloudant.put self (PDict items) (Some id) override w = (Ok h, w1) ∧
    FlaskCloudant.delete self (Some id) w1 = (Ok tt, w2) ∧
    documents w2 self = documents w self.
Proof.
  intros Hready Hhas Ht Hu Hnone.
  destruct (put_documents self w id items override Hready Hhas Ht Hu
              (or_intror Hnone)) as (h & w1 & Hput & Hdocs & _).
  assert (ready w1 self = true) as Hready1.
  { pose proof (put_effect _ _ _ _ _ _ _ Hput) as (n & _ & Hs & _).
    by eapply ready_steps. }
  destruct (ready_inv _ _ Hready) as (db & o & Hdb & _).
  assert (stored w1 self id = Some {| s_rev := next_rev (remote w);
                                      s_body := dict_to_map items |}) as Hd1.
  { rewrite (stored_db _ _ _ _ Hdb). rewrite (documents_db _ _ _ Hdb) in Hdocs.
    unfold srv_doc.
    destruct (databases (remote w1) !! database_name db) as [dbm1|];
      simpl in *; [by rewrite Hdocs, lookup_insert_eq|].
    symmetry in Hdocs. by apply insert_non_empty in Hdocs. }
  destruct (delete_documents self w1 id _ Hready1 Ht Hd1)
    as (w2 & Hdel & Hdocs2 & _).
  exists h, w1, w2. split; [done|]. split; [done|].
  rewrite Hdocs2, Hdocs, delete_insert_eq. apply delete_id.
  rewrite (stored_db _ _ _ _ Hdb) in Hnone.
  rewrite (documents_db _ _ _ Hdb). unfold srv_doc in Hnone.
  by destruct (databases (remote w) !! database_name db).
Qed.

Lemma X8_witness :
  ∃ h w1 w2,
    FlaskCloudant.put demo_instance (PDict [("name", PStr "c")]) (Some "doc2")
      false demo_world = (Ok h, w1) ∧
    FlaskCloudant.delete demo_instance (Some "doc2") w1 = (Ok tt, w2) ∧
    documents w2 demo_instance = documents demo_world demo_instance.
Proof.
  apply (X8_put_then_delete demo_instance demo_world "doc2"
           [("name", PStr "c")] false); reflexivity.
Defined.

(** ** [put] without an id *)

Lemma check_existing_no_id w l db override :
  heap w !! l = Some (ObjDocument db ∅) →
  check_existing l override w = (Ok tt, w).
Proof.
  intros Hcell. unfold check_existing.
  rewrite (bind_eq _ _ _ _ _ (exists_no_id w l db ∅ Hcell (lookup_empty _))).
  simpl.
  by rewrite (bind_eq _ _ _ _ _ (exists_no_id w l db ∅ Hcell (lookup_empty _))).
Qed.

Lemma create_eval_no_id w l db f dbm :
  heap w !! l = Some (ObjDocument db f) →
  f !! "_rev" = None → f !! "_id" = None →
  session_open w (db_client db) = true →
  databases (remote w) !! database_name db = Some dbm →
  dbm !! uuid_token (next_uuid (remote w)) = None →
  Cloudant.create l w =
    (Ok tt,
     set_heap
       (<[l := ObjDocument db
                 (<["_rev" := PStr (rev_token (next_rev (remote w)))]>
                    (<["_id" := PStr (uuid_token (next_uuid (remote w)))]> f))]>
          (heap w))
       (set_remote
          {| address := address (remote w);
             accounts := accounts (remote w);
             databases :=
               <[database_name db :=
                   <[uuid_token (next_uuid (remote w)) :=
                       {| s_rev := next_rev (remote w);
                          s_body := delete "_id" (delete "_rev" f) |}]> dbm]>
                 (databases (remote w));
             next_rev := S (next_rev (remote w));
             next_uuid := S (next_uuid (remote w)) |} w)).
Proof.
  intros Hl Hrev Hid Hs Hdb Hdoc. unfold Cloudant.create.
  rewrite (bind_eq _ _ _ _ _ (lookup_document_eval _ _ _ _ Hl)).
  rewrite Hrev. rewrite (bind_eq _ _ _ _ _ (request_eval _ _ Hs)).
  unfold bind, get_world, srv_post.
  by rewrite Hdb, Hid, Hdoc.
Qed.

(** X9.  [put] without an id stores the dict under the id the server
    assigns: whatever [override] says it raises no status 405 and deletes
    nothing, the database gains exactly that one document, the returned
    handle holds the fields with the assigned id and revision, and its
    string form is the assigned id. *)
Theorem X9_put_without_id (self : FlaskCloudant.instance) (w : world)
    (items : list (string * pyval)) (override : bool) :
  ready w self = true → has_database w self = true →
  user_items items = true →
  stored w self (next_id w) = None →
  let d' := {| s_rev := next_rev (remote w); s_body := dict_to_map items |} in
  ∃ h w',
    FlaskCloudant.put self (PDict items) None override w = (Ok h, w') ∧
    documents w' self = <[next_id w := d']> (documents w self) ∧
    fields_at w' (FlaskCloudantDocument.document h)
      = Some (render (next_id w) d') ∧
    FlaskCloudantDocument.__str__ h w' = (Ok (PStr (next_id w)), w').
Proof.
  intros (db & o & Hdb & Hc & Ho & Hl)%ready_inv Hhas Hu Hfree d'.
  destruct (has_database_inv _ _ _ Hdb Hhas) as (dbm & Hdbm).
  rewrite (stored_db _ _ _ _ Hdb) in Hfree. unfold srv_doc in Hfree.
  rewrite Hdbm in Hfree. simpl in Hfree. unfold next_id in *.
  set (c := db_client db) in *.
  set (l := length (heap w)).
  set (w1 := set_clients (<[c := opened o]> (clients w)) w).
  set (w2 := set_heap (heap w1 ++ [ObjDocument db ∅]) w1).
  set (h := {| FlaskCloudantDocument.document := l |}).
  assert (heap w2 !! FlaskCloudantDocument.document h
            = Some (ObjDocument db ∅)) as Hcell by apply lookup_new.
  assert (session_open w2 (db_client db) = true) as Hs
    by (by apply (session_open_connect w c o); [| |left]).
  assert (l < length (heap w2)) as Hlt
    by (simpl; rewrite length_app; simpl; unfold l; lia).
  rewrite put_unfold.
  rewrite (bind_eq _ _ _ _ _ (connect_eval _ _ _ Hc Ho Hl)).
  rewrite (bind_eq _ _ _ _ _ (getattr_db_eval _ _ _ Hdb)).
  rewrite (bind_eq _ _ _ _ _ (Document_None db w1)). fold w2.
  rewrite (bind_eq _ _ _ _ _ (check_existing_no_id w2 _ db override Hcell)).
  unfold FlaskCloudantDocument.__init__. rewrite bind_ret_l. fold l. fold h.
  rewrite (bind_eq _ _ _ _ _
    (set_content_dict h items w2 db ∅ Hcell (user_items_no_None _ Hu))).
  rewrite (right_id_L ∅ (∪)).
  set (f := dict_to_map items).
  set (w3 := set_heap _ w2).
  assert (heap w3 !! l = Some (ObjDocument db f)) as Hcell3
    by (by apply list_lookup_insert_eq).
  unfold FlaskCloudantDocument.save.
  rewrite (bind_eq _ _ _ _ _
    (create_eval_no_id w3 l db f dbm Hcell3
       ltac:(apply user_items_lookup; auto)
       ltac:(apply user_items_lookup; auto) Hs Hdbm Hfree)).
  set (w4 := set_heap _ _).
  assert (clients w4 !! c = Some (opened o)) as Ho4.
  { simpl. apply list_lookup_insert_eq. by eapply lookup_lt_Some. }
  rewrite (bind_eq _ _ _ _ _ (disconnect_eval w4 c (opened o) Hc Ho4)).
  set (w5 := set_clients _ w4).
  assert (delete "_id" (delete "_rev" f) = f) as Hbody.
  { rewrite !delete_id; [done| |]; try (apply user_items_lookup; auto).
    rewrite delete_id; apply user_items_lookup; auto. }
  assert (heap w5 !! l = Some (ObjDocument db
            (render (uuid_token (next_uuid (remote w))) d'))) as Hcell5.
  { simpl. rewrite list_insert_insert_eq.
    rewrite list_lookup_insert_eq
      by (rewrite ?length_insert, ?length_app; simpl; unfold l; lia).
    do 2 f_equal. unfold render. simpl. by apply insert_insert_ne. }
  exists h, w5. split; [done|].
  split. { rewrite !(documents_db _ _ _ Hdb). simpl.
           by rewrite lookup_insert_eq, Hdbm, Hbody. }
  split. { unfold fields_at. simpl FlaskCloudantDocument.document.
           by rewrite Hcell5. }
  apply (getitem_doc_eval w5 _ db _ "_id" _ Hcell5). apply lookup_insert_eq.
Qed.

Lemma X9_witness :
  let d' := {| s_rev := 1; s_body := {["name" := PStr "c"]} |} in
  ∃ h w',
    FlaskCloudant.put demo_instance (PDict [("name", PStr "c")]) None true
      demo_world = (Ok h, w') ∧
    documents w' demo_instance
      = <[next_id demo_world := d']> (documents demo_world demo_instance) ∧
    fields_at w' (FlaskCloudantDocument.document h)
      = Some (render (next_id demo_world) d') ∧
    FlaskCloudantDocument.__str__ h w' = (Ok (PStr (next_id demo_world)), w').
Proof.
  apply (X9_put_without_id demo_instance demo_world [("name", PStr "c")] true);
    reflexivity.
Defined.

(** ** The string form of a handle *)

(** X10.  The string form of the handle [get] returns is the id it was
    asked for: [__str__] and [__repr__] both return it, and reading it
    changes nothing. *)
Theorem X10_str_of_handle (self : FlaskCloudant.instance) (w : world)
    (id : string) (d : stored_doc) :
  ready w self = true → truthy (PStr id) = true →
  stored w self id = Some d →
  ∃ h w',
    FlaskCloudant.get self (Some id) w = (Ok h, w') ∧
    FlaskCloudantDocument.__str__ h w' = (Ok (PStr id), w') ∧
    FlaskCloudantDocument.__repr__ h w' = (Ok (PStr id), w').
Proof.
  intros (db & o & Hdb & Hc & Ho & Hl)%ready_inv Ht Hd.
  rewrite (stored_db _ _ _ _ Hdb) in Hd.
  pose proof (get_eval self db _ o id w d Hdb Hc Ho Hl (or_introl eq_refl)
                Ht Hd) as Hget.
  do 2 eexists. split; [exact Hget|].
  split; eapply getitem_doc_eval; try apply lookup_new; apply lookup_insert_eq.
Qed.

Lemma X10_witness :
  ∃ h w',
    FlaskCloudant.get demo_instance (Some "doc1") demo_world = (Ok h, w') ∧
    FlaskCloudantDocument.__str__ h w' = (Ok (PStr "doc1"), w') ∧
    FlaskCloudantDocument.__repr__ h w' = (Ok (PStr "doc1"), w').
Proof.
  apply (X10_str_of_handle demo_instance demo_world "doc1" demo_doc);
    reflexivity.
Defined.

(** ** A handle whose document is gone *)

(** X11.  On a handle whose document is no longer stored, [refresh()] and
    [content()] in get mode raise the transport's [HTTPError] 404 as it
    is, not the domain error; the connection stays open and the handle's
    cached fields are kept. *)
Theorem X11_refresh_missing (h : FlaskCloudantDocument.handle) (w : world)
    (dbname id : string) :
  handle_ready w h dbname id = true →
  srv_doc (remote w) dbname id = None →
  ∃ w',
    FlaskCloudantDocument.refresh h w = (Raise (HTTPError 404), w') ∧
    FlaskCloudantDocument.content h PNone w = (Raise (HTTPError 404), w') ∧
    connection w' = Connected ∧
    heap w' = heap w ∧ remote w' = remote w.
Proof.
  intros (db & f & o & Hcell & Hid & <- & Hc & Ho & Hl)%handle_ready_inv Hd.
  pose proof (refresh_missing h w db f _ o id Hc Ho Hl Hcell Hid
                (or_introl eq_refl) Hd) as Hr.
  eexists. split; [exact Hr|]. split.
  { unfold FlaskCloudantDocument.content.
    by rewrite (bind_raise_eq _ _ _ _ _ Hr). }
  split; [by apply connected_opened|]. done.
Qed.

Lemma X11_witness :
  ∃ w',
    FlaskCloudantDocument.refresh demo_handle gone_world
      = (Raise (HTTPError 404), w') ∧
    FlaskCloudantDocument.content demo_handle PNone gone_world
      = (Raise (HTTPError 404), w') ∧
    connection w' = Connected ∧
    heap w' = heap gone_world ∧ remote w' = remote gone_world.
Proof.
  apply (X11_refresh_missing demo_handle gone_world "appdb" "doc1");
    reflexivity.
Defined.

(** ** What a handle does by itself *)

Lemma connect_frame w :
  heap (__connect__ w).2 = heap w ∧ remote (__connect__ w).2 = remote w ∧
  CLIENT (__connect__ w).2 = CLIENT w.
Proof.
  unfold __connect__, Cloudant.connect, Cloudant.lookup_client,
    Cloudant.store_client, bind, get_world, modify, raise.
  repeat case_match; simplify_eq; by simpl.
Qed.

Lemma disconnect_frame w :
  heap (__disconnect__ w).2 = heap w ∧ remote (__disconnect__ w).2 = remote w ∧
  CLIENT (__disconnect__ w).2 = CLIENT w.
Proof.
  unfold __disconnect__, Cloudant.disconnect, Cloudant.lookup_client,
    Cloudant.store_client, bind, get_world, modify, raise.
  repeat case_match; simplify_eq; by simpl.
Qed.

Lemma create_clients l w :
  clients (Cloudant.create l w).2 = clients w ∧
  CLIENT (Cloudant.create l w).2 = CLIENT w.
Proof.
  unfold Cloudant.create, Cloudant.lookup_document, Cloudant.request,
    Cloudant.lookup_client, Cloudant.store_fields, bind, get_world, modify,
    raise, ret.
  repeat case_match; simplify_eq; by simpl.
Qed.

Lemma delete_clients l w :
  clients (Cloudant.delete l w).2 = clients w ∧
  CLIENT (Cloudant.delete l w).2 = CLIENT w.
Proof.
  unfold Cloudant.delete, Cloudant.lookup_document, Cloudant.request,
    Cloudant.lookup_client, Cloudant.store_fields, bind, get_world, modify,
    raise, ret.
  repeat case_match; simplify_eq; by simpl.
Qed.

Lemma request_closed w c o :
  clients w !! c = Some o → r_session o = None →
  Cloudant.request c w =
    (Raise (AttributeError "'NoneType' object has no attribute of a session"),
     w).
Proof.
  unfold Cloudant.request, Cloudant.lookup_client, bind, get_world.
  by intros -> ->.
Qed.

(** X12.  [save()] and [delete()] of a handle never connect by
    themselves: in every world they leave the class attribute and every
    client object as they are.  Called while the session of the document's
    client is closed, as after any facade operation has returned, they
    raise and change neither the store nor any dictionary. *)
Theorem X12_save_delete_need_session (h : FlaskCloudantDocument.handle)
    (w : world) :
  (clients (FlaskCloudantDocument.save h w).2 = clients w ∧
   CLIENT (FlaskCloudantDocument.save h w).2 = CLIENT w ∧
   clients (FlaskCloudantDocument.delete h w).2 = clients w ∧
   CLIENT (FlaskCloudantDocument.delete h w).2 = CLIENT w) ∧
  ∀ dbname id,
    handle_ready w h dbname id = true → connected w = false →
    (∃ e, FlaskCloudantDocument.save h w = (Raise e, w)) ∧
    (∃ e, FlaskCloudantDocument.delete h w = (Raise e, w)).
Proof.
  split.
  { unfold FlaskCloudantDocument.save, FlaskCloudantDocument.delete.
    destruct (create_clients (FlaskCloudantDocument.document h) w).
    by destruct (delete_clients (FlaskCloudantDocument.document h) w). }
  intros dbname id
    (db & f & o & Hcell & Hid & _ & Hc & Ho & _)%handle_ready_inv Hconn.
  assert (Cloudant.request (db_client db) w =
    (Raise (AttributeError "'NoneType' object has no attribute of a session"),
     w)) as Hreq.
  { apply (request_closed w _ o Ho).
    unfold connected, client_of in Hconn. rewrite Hc in Hconn. simpl in Hconn.
    rewrite Ho in Hconn. simpl in Hconn. by destruct (r_session o). }
  split.
  - eexists. unfold FlaskCloudantDocument.save, Cloudant.create.
    rewrite (bind_eq _ _ _ _ _ (lookup_document_eval _ _ _ _ Hcell)).
    by rewrite (bind_raise_eq _ _ _ _ _ Hreq).
  - unfold FlaskCloudantDocument.delete, Cloudant.delete.
    rewrite (bind_eq _ _ _ _ _ (lookup_document_eval _ _ _ _ Hcell)).
    destruct (negb (truthy (default PNone (f !! "_rev")))); [by eexists|].
    eexists. by rewrite (bind_raise_eq _ _ _ _ _ Hreq).
Qed.

Lemma X12_witness :
  (∃ e, FlaskCloudantDocument.save demo_handle fetched_world
          = (Raise e, fetched_world)) ∧
  (∃ e, FlaskCloudantDocument.delete demo_handle fetched_world
          = (Raise e, fetched_world)).
Proof.
  apply (X12_save_delete_need_session demo_handle fetched_world)
    with (dbname := "appdb") (id := "doc1"); reflexivity.
Defined.

(** X13.  [exists()] reads only: in every world it leaves every
    dictionary, the store and the class attribute as they are.
    [refresh()] never writes to the store either, and the only dictionary
    it can change is the handle's own document. *)
Theorem X13_exists_refresh_frame (h : FlaskCloudantDocument.handle)
    (w : world) :
  (heap (FlaskCloudantDocument.exists_ h w).2 = heap w ∧
   remote (FlaskCloudantDocument.exists_ h w).2 = remote w ∧
   CLIENT (FlaskCloudantDocument.exists_ h w).2 = CLIENT w) ∧
  (remote (FlaskCloudantDocument.refresh h w).2 = remote w ∧
   CLIENT (FlaskCloudantDocument.refresh h w).2 = CLIENT w ∧
   length (heap (FlaskCloudantDocument.refresh h w).2) = length (heap w) ∧
   ∀ l, l ≠ FlaskCloudantDocument.document h →
        heap (FlaskCloudantDocument.refresh h w).2 !! l = heap w !! l).
Proof.
  split.
  - unfold FlaskCloudantDocument.exists_, bind.
    destruct (connect_frame w) as (H1 & H2 & H3).
    destruct (__connect__ w) as [[[]|e] w1]; simpl in *; [|done].
    pose proof (exists_pure (FlaskCloudantDocument.document h) w1) as Hp.
    destruct (Cloudant.exists_ _ w1) as [[b|e] w2]; simpl in *; subst w2;
      [|done].
    destruct (disconnect_frame w1) as (K1 & K2 & K3).
    destruct (__disconnect__ w1) as [[[]|e] w3]; simpl in *;
      by rewrite K1, K2, K3.
  - unfold FlaskCloudantDocument.refresh, bind.
    destruct (connect_frame w) as (H1 & H2 & H3).
    destruct (__connect__ w) as [[[]|e] w1]; simpl in *;
      [|by rewrite H1, H2, H3].
    assert (remote (Cloudant.fetch (FlaskCloudantDocument.document h) w1).2
              = remote w1 ∧
            CLIENT (Cloudant.fetch (FlaskCloudantDocument.document h) w1).2
              = CLIENT w1 ∧
            length (heap (Cloudant.fetch
                            (FlaskCloudantDocument.document h) w1).2)
              = length (heap w1) ∧
            ∀ l, l ≠ FlaskCloudantDocument.document h →
                 heap (Cloudant.fetch
                         (FlaskCloudantDocument.document h) w1).2 !! l
                   = heap w1 !! l) as (F1 & F2 & F3 & F4).
    { unfold Cloudant.fetch, Cloudant.lookup_document, Cloudant.request,
        Cloudant.lookup_client, Cloudant.store_fields, bind, get_world,
        modify, raise, ret.
      repeat case_match; simplify_eq; simpl; split_and!; try done;
        try apply length_insert;
        try (intros l' Hl'; by apply list_lookup_insert_ne). }
    destruct (Cloudant.fetch _ w1) as [[[]|e] w2]; simpl in *.
    + destruct (disconnect_frame w2) as (K1 & K2 & K3).
      destruct (__disconnect__ w2) as [[[]|e] w3]; simpl in *;
        rewrite K1, K2, K3, F1, F2, F3, H1, H2, H3;
        repeat split; try done; intros l Hl; by rewrite F4, H1.
    + rewrite F1, F2, F3, H1, H2, H3.
      repeat split; try done. intros l Hl. by rewrite F4, H1.
Qed.

(** ** [init_app] and the connection *)

(** X14.  [init_app] touches neither the store nor any dictionary.  When
    it succeeds the connection is closed again after one [connect()] and
    one [disconnect()], and the instance is ready.  When the named
    database is absent it raises before its [disconnect()]: the new client
    stays connected.  When the server rejects the credentials, the session
    object that [connect()] assigned before logging in stays on the new
    client: the connection is not closed either.  When no server answers
    at [COUCH_URL] there was no [disconnect()]. *)
Theorem X14_init_app_connection (self : FlaskCloudant.instance) (app : App)
    (w : world) :
  let r := FlaskCloudant.init_app self app w in
  heap r.2 = heap w ∧ remote r.2 = remote w ∧
  if answers w app then
    if accepts w app then
      match config app !! "COUCH_DB" with
      | Some name =>
          match databases (remote w) !! name with
          | Some _ =>
              connection r.2 = Disconnected ∧ disconnect_calls r.2 = 1 ∧
              match r.1 with
              | Ok self' => ready r.2 self' = true
              | Raise _ => False
              end
          | None => connection r.2 = Connected ∧ disconnect_calls r.2 = 0
          end
      | None => True
      end
    else connection r.2 = Connected ∧ disconnect_calls r.2 = 0
  else disconnect_calls r.2 = 0.
Proof.
  intros r. unfold r.
  pose proof (ready_init_app self app w) as Hready.
  rewrite init_app_eval in *.
  unfold connection, connected, disconnect_calls.
  destruct (answers w app) eqn:Hans.
  2:{ simpl. by rewrite client_of_replaced. }
  destruct (accepts w app) eqn:Hacc.
  - destruct (config app !! "COUCH_DB") as [name|].
    + destruct (databases (remote w) !! name) as [dbm|]; simpl;
        rewrite client_of_replaced; simpl; split_and!; try done.
      by apply Hready.
    + by simpl.
  - simpl. by rewrite client_of_replaced.
Qed.

(** ** Handles are not shared between operations *)

Lemma below_refl n w : below n w w.
Proof. by intros Hn. Qed.

Lemma below_trans n w w1 w2 : below n w w1 → below n w1 w2 → below n w w2.
Proof.
  intros H1 H2 Hn. destruct (H1 Hn) as [Hn1 Hl1].
  destruct (H2 Hn1) as [Hn2 Hl2]. split; [done|].
  intros l Hl. by rewrite Hl2, Hl1.
Qed.

Lemma below_heap n w w' : heap w' = heap w → below n w w'.
Proof. intros Hh Hn. by rewrite Hh. Qed.

Lemma below_alloc n w o : below n w (set_heap (heap w ++ [o]) w).
Proof.
  intros Hn. simpl. split; [rewrite length_app; lia|].
  intros l Hl. apply lookup_app_l. lia.
Qed.

Lemma below_store (n : nat) w (l : nat) o :
  (n ≤ l)%nat → below n w (set_heap (<[l := o]> (heap w)) w).
Proof.
  intros Hnl Hn. simpl. split; [by rewrite length_insert|].
  intros l' Hl'. apply list_lookup_insert_ne. lia.
Qed.

Lemma keeps_below_bind {A B} n (m : M A) (k : A → M B) :
  keeps_below n m → (∀ a, keeps_below n (k a)) → keeps_below n (bind m k).
Proof.
  intros Hm Hk w. unfold bind. specialize (Hm w).
  destruct (m w) as [[a|e] w1]; simpl in *; [|done].
  eapply below_trans; [done | apply Hk].
Qed.

Lemma keeps_below_ret {A} n (a : A) : keeps_below n (ret a).
Proof. intros w. apply below_refl. Qed.

Lemma keeps_below_raise {A} n e : keeps_below n (@raise A e).
Proof. intros w. apply below_refl. Qed.

Lemma keeps_below_pure {A} n (m : M A) :
  (∀ w, heap (m w).2 = heap w) → keeps_below n m.
Proof. intros H w. by apply below_heap. Qed.

Lemma keeps_below_connect n : keeps_below n __connect__.
Proof. apply keeps_below_pure. intros w. apply connect_frame. Qed.

Lemma keeps_below_disconnect n : keeps_below n __disconnect__.
Proof. apply keeps_below_pure. intros w. apply disconnect_frame. Qed.

Lemma keeps_below_request n c : keeps_below n (Cloudant.request c).
Proof. apply keeps_below_pure. intros w. by rewrite request_pure. Qed.

Lemma keeps_below_lookup_document n l :
  keeps_below n (Cloudant.lookup_document l).
Proof.
  apply keeps_below_pure. intros w. unfold Cloudant.lookup_document.
  by repeat case_match.
Qed.

Lemma keeps_below_store_fields (n l : nat) db f :
  (n ≤ l)%nat → keeps_below n (Cloudant.store_fields l db f).
Proof. intros Hnl w. by apply below_store. Qed.

Lemma keeps_below_alloc n o : keeps_below n (Cloudant.alloc o).
Proof. intros w. apply below_alloc. Qed.

Lemma keeps_below_world {A} n (k : world → M A) :
  (∀ w0, keeps_below n (k w0)) → keeps_below n (bind get_world k).
Proof. intros Hk w. apply Hk. Qed.

Ltac below_cases :=
  repeat first
    [ progress intros
    | match goal with
      | |- keeps_below _ (ret _) => apply keeps_below_ret
      | |- keeps_below _ (raise _) => apply keeps_below_raise
      | |- keeps_below _ (Cloudant.request _) => apply keeps_below_request
      | |- keeps_below _ (Cloudant.lookup_document _) =>
          apply keeps_below_lookup_document
      | |- keeps_below _ (Cloudant.alloc _) => apply keeps_below_alloc
      | |- keeps_below _ (Cloudant.store_fields _ _ _) =>
          by apply keeps_below_store_fields
      | |- keeps_below _ (modify (set_remote _)) => by apply keeps_below_pure
      | |- keeps_below _ (bind get_world _) => apply keeps_below_world
      | |- keeps_below _ (bind _ _) => apply keeps_below_bind
      | |- keeps_below _ (let '(_, _) := ?d in _) => destruct d
      | |- keeps_below _ (match ?x with _ => _ end) => destruct x eqn:?
      | |- keeps_below _ (if ?x then _ else _) => destruct x eqn:?
      end ].

Section on_a_fresh_document.
Context (n l : nat).
Hypothesis Hnl : (n ≤ l)%nat.

Lemma keeps_below_getitem_doc k : keeps_below n (Cloudant.getitem_doc l k).
Proof. unfold Cloudant.getitem_doc. below_cases. Qed.

Lemma keeps_below_exists : keeps_below n (Cloudant.exists_ l).
Proof. apply keeps_below_pure. intros w. by rewrite exists_pure. Qed.

Lemma keeps_below_fetch : keeps_below n (Cloudant.fetch l).
Proof. unfold Cloudant.fetch. below_cases. Qed.

Lemma keeps_below_delete : keeps_below n (Cloudant.delete l).
Proof. unfold Cloudant.delete. below_cases. Qed.

Lemma keeps_below_create : keeps_below n (Cloudant.create l).
Proof. unfold Cloudant.create. below_cases. Qed.

Lemma keeps_below_field_set k v : keeps_below n (Cloudant.field_set l k v).
Proof. unfold Cloudant.field_set. below_cases. Qed.

Lemma keeps_below_dict : keeps_below n (Cloudant.dict l).
Proof. unfold Cloudant.dict. below_cases. Qed.

Lemma keeps_below_set_items items :
  keeps_below n (FlaskCloudantDocument.set_items l items).
Proof.
  induction items as [|[k v] items IH]; simpl; [apply keeps_below_ret|].
  apply keeps_below_bind; [apply keeps_below_field_set | done].
Qed.

Lemma keeps_below_handle_init e :
  keeps_below n (FlaskCloudantDocument.__init__ l e).
Proof.
  unfold FlaskCloudantDocument.__init__.
  destruct e; [|apply keeps_below_ret].
  apply keeps_below_bind; [apply keeps_below_exists|]. intros [].
  - apply keeps_below_bind; [apply keeps_below_fetch|]. intros.
    apply keeps_below_ret.
  - apply keeps_below_bind; [apply keeps_below_getitem_doc|]. intros.
    apply keeps_below_raise.
Qed.

Lemma keeps_below_check_existing override :
  keeps_below n (check_existing l override).
Proof.
  unfold check_existing.
  apply keeps_below_bind; [apply keeps_below_exists|]. intros e.
  destruct (e && negb override).
  - apply keeps_below_bind; [apply keeps_below_getitem_doc|]. intros.
    apply keeps_below_raise.
  - apply keeps_below_bind; [apply keeps_below_exists|]. intros e'.
    destruct (e' && override); [|apply keeps_below_ret].
    apply keeps_below_bind; [apply keeps_below_fetch|]. intros.
    apply keeps_below_delete.
Qed.
End on_a_fresh_document.

Lemma keeps_below_content (n : nat) h v :
  (n ≤ FlaskCloudantDocument.document h)%nat →
  keeps_below n (FlaskCloudantDocument.content h v).
Proof.
  intros Hn. unfold FlaskCloudantDocument.content.
  assert (keeps_below n (assert (is_dict v) ;;;
            FlaskCloudantDocument.set_items (FlaskCloudantDocument.document h)
              (dict_items v) ;;; ret (@None nat))) as Hset.
  { apply keeps_below_bind.
    { unfold assert. destruct (is_dict v);
        [apply keeps_below_ret | apply keeps_below_raise]. }
    intros _. apply keeps_below_bind; [by apply keeps_below_set_items|].
    intros. apply keeps_below_ret. }
  destruct v; try exact Hset.
  apply keeps_below_bind.
  { unfold FlaskCloudantDocument.refresh.
    apply keeps_below_bind; [apply keeps_below_connect|]. intros _.
    apply keeps_below_bind; [by apply keeps_below_fetch|]. intros _.
    apply keeps_below_disconnect. }
  intros _. apply keeps_below_bind; [by apply keeps_below_dict|].
  intros. apply keeps_below_ret.
Qed.

Lemma keeps_below_set_content (n : nat) h v :
  (n ≤ FlaskCloudantDocument.document h)%nat →
  keeps_below n (set_content h v).
Proof.
  intros Hn w. unfold set_content, try_except.
  pose proof (keeps_below_bind n _ (λ _, ret tt) (keeps_below_content n h v Hn)
                (λ _, keeps_below_ret n tt) w) as Hk.
  destruct (bind _ _ w) as [[[]|e] w1]; simpl in *; [done|].
  by destruct e.
Qed.

(** The document [Document(...)] constructs lives above every dictionary
    there was. *)
Lemma keeps_below_Document {B} (n : nat) db id (k : nat → M B) :
  (∀ l : nat, (n ≤ l)%nat → keeps_below n (k l)) →
  keeps_below n (bind (Cloudant.Document db id) k).
Proof.
  intros Hk w Hn. unfold bind, Cloudant.Document, Cloudant.alloc.
  eapply below_trans; [apply below_alloc | by apply Hk | done].
Qed.

Lemma keeps_below_getattr_db n self :
  keeps_below n (FlaskCloudant.getattr_db self).
Proof.
  apply keeps_below_pure. intros w. unfold FlaskCloudant.getattr_db.
  by case_match.
Qed.

Lemma keeps_below_get n self id : keeps_below n (FlaskCloudant.get self id).
Proof.
  unfold FlaskCloudant.get.
  apply keeps_below_bind; [apply keeps_below_connect|]. intros _.
  apply keeps_below_bind; [apply keeps_below_getattr_db|]. intros db.
  apply keeps_below_Document. intros l Hl.
  apply keeps_below_bind; [by apply keeps_below_handle_init|]. intros doc.
  apply keeps_below_bind; [apply keeps_below_disconnect|]. intros.
  apply keeps_below_ret.
Qed.

Lemma keeps_below_bind_ret {A B} n (a : A) (k : A → M B) :
  keeps_below n (k a) → keeps_below n (bind (ret a) k).
Proof. intros H w. exact (H w). Qed.

Lemma keeps_below_put n self content id override :
  keeps_below n (FlaskCloudant.put self content id override).
Proof.
  rewrite put_unfold.
  apply keeps_below_bind; [apply keeps_below_connect|]. intros _.
  apply keeps_below_bind; [apply keeps_below_getattr_db|]. intros db.
  apply keeps_below_Document. intros l Hl.
  apply keeps_below_bind; [by apply keeps_below_check_existing|]. intros _.
  unfold FlaskCloudantDocument.__init__. apply keeps_below_bind_ret.
  apply keeps_below_bind; [by apply keeps_below_set_content|]. intros _.
  apply keeps_below_bind; [by apply keeps_below_create|]. intros _.
  apply keeps_below_bind; [apply keeps_below_disconnect|]. intros.
  apply keeps_below_ret.
Qed.

Lemma handle_init_loc l e w h w' :
  FlaskCloudantDocument.__init__ l e w = (Ok h, w') →
  FlaskCloudantDocument.document h = l.
Proof.
  unfold FlaskCloudantDocument.__init__. destruct e.
  - intros H. apply bind_Ok in H as (b & w1 & _ & H). destruct b.
    + apply bind_Ok in H as (? & ? & _ & H). unfold ret in H. by simplify_eq.
    + apply bind_Ok in H as (? & ? & _ & H). done.
  - unfold ret. intros H. by simplify_eq.
Qed.

(** The handle [get] returns refers to a document that did not exist
    before the call. *)
Lemma get_loc self id w h w' :
  FlaskCloudant.get self id w = (Ok h, w') →
  (length (heap w) ≤ FlaskCloudantDocument.document h)%nat.
Proof.
  unfold FlaskCloudant.get. intros H.
  apply bind_Ok in H as ([] & wa & Hconn & H).
  pose proof (proj1 (connect_frame w)) as Hh. rewrite Hconn in Hh.
  simpl in Hh.
  apply bind_Ok in H as (db & wb & Hdb & H).
  assert (wb = wa) as ->.
  { unfold FlaskCloudant.getattr_db in Hdb.
    destruct (FlaskCloudant._db self); unfold ret, raise in Hdb;
      by simplify_eq. }
  apply bind_Ok in H as (l & wc & Hdoc & H).
  unfold Cloudant.Document, Cloudant.alloc in Hdoc. injection Hdoc as <- <-.
  apply bind_Ok in H as (doc & wd & Hinit & H).
  apply handle_init_loc in Hinit.
  apply bind_Ok in H as (? & ? & _ & H). unfold ret in H. simplify_eq.
  rewrite Hinit, Hh. done.
Qed.

Lemma keeps_below_facade_delete n self id :
  keeps_below n (FlaskCloudant.delete self id).
Proof.
  intros w Hn. unfold FlaskCloudant.delete, bind.
  pose proof (keeps_below_get n self id w Hn) as Hget.
  destruct (FlaskCloudant.get self id w) as [[h|e] w1] eqn:Hg; simpl in *;
    [|done].
  apply get_loc in Hg.
  assert (n ≤ FlaskCloudantDocument.document h)%nat as Hh by lia.
  pose proof (keeps_below_bind n __connect__
    (λ _, bind (FlaskCloudantDocument.delete h) (λ _, __disconnect__))
    (keeps_below_connect n)
    (λ _, keeps_below_bind n _ _ (keeps_below_delete n _ Hh)
            (λ _, keeps_below_disconnect n)) w1) as Hrest.
  unfold bind in Hrest.
  destruct Hget as [Hn1 Hl1]. destruct (Hrest Hn1) as [Hn2 Hl2].
  split; [done|]. intros l Hl. by rewrite Hl2, Hl1.
Qed.

(** X15.  The facade works on a document object of its own: [get],
    [put] and [delete] never change a dictionary that existed before the
    call, so the handles returned earlier keep what they cached, whatever
    the outcome of the call. *)
Theorem X15_earlier_handles_untouched (self : FlaskCloudant.instance)
    (w : world) (content : pyval) (document_id : option string)
    (override : bool) (l : nat) :
  (l < length (heap w))%nat →
  heap (FlaskCloudant.get self document_id w).2 !! l = heap w !! l ∧
  heap (FlaskCloudant.put self content document_id override w).2 !! l
    = heap w !! l ∧
  heap (FlaskCloudant.delete self document_id w).2 !! l = heap w !! l.
Proof.
  intros Hl. split; [|split].
  - by apply (keeps_below_get (length (heap w)) self document_id w).
  - by apply (keeps_below_put (length (heap w)) self content document_id
                override w).
  - by apply (keeps_below_facade_delete (length (heap w)) self document_id w).
Qed.

Lemma X15_witness :
  heap (FlaskCloudant.get demo_instance (Some "doc1") fetched_world).2 !! 0
    = heap fetched_world !! 0 ∧
  heap (FlaskCloudant.put demo_instance (PDict [("name", PStr "b")])
          (Some "doc1") true fetched_world).2 !! 0
    = heap fetched_world !! 0 ∧
  heap (FlaskCloudant.delete demo_instance (Some "doc1") fetched_world).2 !! 0
    = heap fetched_world !! 0.
Proof.
  apply (X15_earlier_handles_untouched demo_instance fetched_world).
  vm_compute. lia.
Defined.

(** ** A handle outlives its document *)

Lemma handle_ready_transfer a b w w' h dbname id :
  steps a b w w' →
  heap w' !! FlaskCloudantDocument.document h
    = heap w !! FlaskCloudantDocument.document h →
  handle_ready w h dbname id = true → handle_ready w' h dbname id = true.
Proof.
  intros Hs Hh. unfold handle_ready. rewrite Hh, (st_CLIENT _ _ _ _ Hs).
  destruct (heap w !! _) as [[db f|?]|]; try done.
  destruct (CLIENT w) as [c|]; [|done].
  intros [[[H1 H2]%andb_true_iff H3]%andb_true_iff H4]%andb_true_iff.
  by rewrite H1, H3, H4, (can_connect_steps _ _ _ _ _ Hs H2).
Qed.

(** X16.  A handle outlives its document: after [delete(id)] a handle an
    earlier [get(id)] returned still holds the fields it cached, and its
    [exists()] answers [False]. *)
Theorem X16_handle_after_delete (self : FlaskCloudant.instance)
    (h : FlaskCloudantDocument.handle) (w : world) (dbname id : string)
    (d : stored_doc) :
  ready w self = true → bound_to self dbname = true →
  handle_ready w h dbname id = true →
  truthy (PStr id) = true → stored w self id = Some d →
  ∃ w' w'',
    FlaskCloudant.delete self (Some id) w = (Ok tt, w') ∧
    fields_at w' (FlaskCloudantDocument.document h)
      = fields_at w (FlaskCloudantDocument.document h) ∧
    FlaskCloudantDocument.exists_ h w' = (Ok false, w'').
Proof.
  intros Hready Hbound Hh Ht Hd.
  destruct (delete_documents self w id d Hready Ht Hd)
    as (w' & Hdel & Hdocs & _).
  destruct (handle_ready_inv _ _ _ _ Hh) as (dbh & f & _ & Hcell & _).
  assert (heap w' !! FlaskCloudantDocument.document h
            = heap w !! FlaskCloudantDocument.document h) as Hsame.
  { pose proof (keeps_below_facade_delete (length (heap w)) self (Some id) w)
      as Hb.
    rewrite Hdel in Hb. apply Hb; [done|]. by eapply lookup_lt_Some. }
  destruct (delete_effect _ _ _ _ _ Hdel) as (n & _ & Hs & _).
  pose proof (handle_ready_transfer _ _ _ _ _ _ _ Hs Hsame Hh) as Hh'.
  destruct (handle_exists_eval w' h dbname id Hh') as (c & o & _ & _ & Hex).
  do 2 eexists. split; [done|]. split; [unfold fields_at; by rewrite Hsame|].
  rewrite Hex. do 2 f_equal. apply bool_decide_eq_false_2. intros [d' Hd'].
  destruct (ready_inv _ _ Hready) as (db & _ & Hdb & _).
  unfold bound_to in Hbound. rewrite Hdb in Hbound.
  apply bool_decide_eq_true in Hbound as <-.
  rewrite (documents_db _ _ _ Hdb) in Hdocs. unfold srv_doc in Hd'.
  destruct (databases (remote w') !! database_name db) as [dbm|];
    simpl in *; [|done].
  by rewrite Hdocs, lookup_delete_eq in Hd'.
Qed.

Lemma X16_witness :
  ∃ w' w'',
    FlaskCloudant.delete demo_instance (Some "doc1") fetched_world
      = (Ok tt, w') ∧
    fields_at w' (FlaskCloudantDocument.document demo_handle)
      = fields_at fetched_world (FlaskCloudantDocument.document demo_handle) ∧
    FlaskCloudantDocument.exists_ demo_handle w' = (Ok false, w'').
Proof.
  apply (X16_handle_after_delete demo_instance demo_handle fetched_world
           "appdb" "doc1" demo_doc); reflexivity.
Defined.
